(** * AlphaFlow Analytics: the lead-follow causality engine

    A shallow embedding of the server (alphaflow-server.js): the tick
    pipeline [processTickerUpdate], the WebSocket message handler around it
    and the REST read handlers over [marketData].

    Conventions of the embedding.
    - A JavaScript Number is an IEEE-754 binary64 value, which is exactly
      Rocq's primitive [float]: prices, percentages, ratios and averages
      are computed with the kernel's float operations, so a run of the
      model produces the very doubles the server produces.
    - Numbers the server only ever uses as integers (the millisecond clock
      [Date.now()], lag times, counters, array lengths) are kept in [Z] and
      [nat]; they are converted with [JS.of_Z] where the source divides
      them.  The conversion is exact below 2^53.
    - A JavaScript object used as a dictionary is an association list of
      its own properties in insertion order ([JS.obj]), the order
      [Object.keys] enumerates.  Where the server indexes such an object
      with a name taken from the feed or from a request, the names it
      inherits from [Object.prototype] are looked up as well.
    - A JavaScript string is the UTF-8 text of a Rocq [string].
    - Mutation of the globals and exceptions are threaded through a small
      state-and-exception monad ([Eff]): a [Throw] carries the globals as
      they were when the exception left the function. *)

From Stdlib Require Import ZArith String Ascii DecimalString List Bool Arith Lia.
From Stdlib Require Import Permutation Sorted.
From Stdlib Require DecimalNat DecimalFacts.
From Stdlib Require Import Floats.
Import ListNotations.

Set Warnings "-inexact-float".

(* ================================================================== *)
(** * JavaScript values *)
(* ================================================================== *)

Module JS.

Open Scope float_scope.

(** [ToBoolean] on a Number: [0], [-0] and [NaN] are falsy. *)
Definition truthy (x : float) : bool := negb (is_zero x || is_nan x).

(** [x || y] on Numbers. *)
Definition or_else (x y : float) : float := if truthy x then x else y.

(** [a >= b], [a > b], [a < b]: false as soon as an operand is NaN. *)
Definition ge (a b : float) : bool := PrimFloat.leb b a.
Definition gt (a b : float) : bool := PrimFloat.ltb b a.
Definition lt (a b : float) : bool := PrimFloat.ltb a b.

(** The Number an integer denotes (round to nearest even; exact for
    [|z| <= 2^53]). *)
Definition of_Z (z : Z) : float := SF2Prim (binary_normalize prec emax z 0 false).
Definition of_nat (n : nat) : float := of_Z (Z.of_nat n).

(** [xs.reduce((a, b) => a + b, 0)] over an array of Numbers. *)
Definition sum (xs : list float) : float := fold_left PrimFloat.add xs 0.

(** The same reduction over integer entries. *)
Definition sumZ (xs : list Z) : Z := fold_left Z.add xs 0%Z.

(** A plain object with string keys: own properties in insertion order.
    No object of the server has an own property named [__proto__]: an
    assignment under that name replaces the prototype of the object
    (see [writePrices]). *)
Definition obj (V : Type) : Type := list (string * V).

(** The property names every plain object inherits from
    [Object.prototype]: [o[k]] is the prototype of [o] for [__proto__]
    and a built-in function for the others, unless [k] is an own key. *)
Definition objectPrototypeNames : list string :=
  [ "constructor"; "__defineGetter__"; "__defineSetter__"; "hasOwnProperty";
    "__lookupGetter__"; "__lookupSetter__"; "isPrototypeOf";
    "propertyIsEnumerable"; "toString"; "valueOf"; "__proto__";
    "toLocaleString" ]%string.

Definition inherited (k : string) : bool :=
  existsb (String.eqb k) objectPrototypeNames.

(** [o[k]] among the own properties of [o]: [None] when [k] is not an
    own key.  What [o[k]] is then, [undefined] or an inherited value, is
    decided where the source reads it ([readPrices], [relationship],
    [storePriceHistory], [getMarketHistory]). *)
Fixpoint getProp {V : Type} (o : obj V) (k : string) : option V :=
  match o with
  | [] => None
  | (k', v) :: o' => if String.eqb k' k then Some v else getProp o' k
  end.

(** [o[k] = v]: an existing key keeps its place, a new key goes last. *)
Fixpoint setProp {V : Type} (o : obj V) (k : string) (v : V) : obj V :=
  match o with
  | [] => [(k, v)]
  | (k', v') :: o' =>
      if String.eqb k' k then (k', v) :: o' else (k', v') :: setProp o' k v
  end.

(** [xs.push(x)] followed by the array. *)
Definition push {A : Type} (xs : list A) (x : A) : list A := xs ++ [x].

(** [xs.shift()]: the array without its first element. *)
Definition shift {A : Type} (xs : list A) : list A := tl xs.

(** [xs.slice(0, n)] and [xs.slice(-n)]. *)
Definition slice_to {A : Type} (n : nat) (xs : list A) : list A := firstn n xs.
Definition slice_last {A : Type} (n : nat) (xs : list A) : list A :=
  skipn (List.length xs - n) xs.

(** [xs[i] = x] for an index inside the array. *)
Fixpoint setIndex {A : Type} (xs : list A) (i : nat) (x : A) : list A :=
  match xs, i with
  | [], _ => []
  | _ :: xs', O => x :: xs'
  | y :: xs', S i' => y :: setIndex xs' i' x
  end.

(** [xs.sort(cmp)] for a comparator returning a Number: [x] is moved
    behind [y] exactly when [cmp x y > 0]; elements the comparator does
    not separate keep their order (the sort is stable).  This is the
    result of the engine's sort whenever the comparator is consistent,
    which it is on the Numbers best-pairs sorts (none is NaN). *)
Fixpoint insert {A : Type} (cmp : A -> A -> float) (x : A) (l : list A) : list A :=
  match l with
  | [] => [x]
  | y :: l' => if gt (cmp x y) 0 then y :: insert cmp x l' else x :: y :: l'
  end.

Definition sort {A : Type} (cmp : A -> A -> float) (l : list A) : list A :=
  fold_right (insert cmp) [] l.

End JS.

(* ================================================================== *)
(** * Configuration *)
(* ================================================================== *)

Open Scope string_scope.

Definition COINS : list string :=
  [ "BTC-USD"; "ETH-USD"; "SOL-USD"; "MATIC-USD"; "AVAX-USD";
    "LINK-USD"; "DOT-USD"; "ATOM-USD"; "DOGE-USD"; "SHIB-USD";
    "UNI-USD"; "AAVE-USD"; "CRV-USD"; "SUSHI-USD"; "MANA-USD";
    "SAND-USD"; "AXS-USD"; "ENJ-USD"; "GRT-USD"; "ALGO-USD";
    "LTC-USD"; "1INCH-USD"; "BAT-USD"; "COMP-USD" ].

Close Scope string_scope.

Definition MOVE_THRESHOLD : float := 2.0%float.
Definition LAG_WINDOW : Z := 300000%Z.
Definition FOLLOW_THRESHOLD : float := 0.005%float.
Definition HISTORY_LIMIT : nat := 1000.

(* ================================================================== *)
(** * Data storage *)
(* ================================================================== *)

Module PriceState.
Record t : Type := mk
  { price : float; change : float; changePercent : float; lastUpdate : Z }.
End PriceState.

Module Response.
Record t : Type := mk
  { lagTime : Z; changePercent : float; magnitudeRatio : float }.
End Response.

Inductive Direction : Type := pump | dump.

Module LeaderEvent.
Record t : Type := mk
  { timestamp : Z;
    leader : string;
    price : float;
    changePercent : float;
    direction : Direction;
    followersResponded : JS.obj Response.t }.

Definition respond (e : t) (coin : string) (r : Response.t) : t :=
  mk (timestamp e) (leader e) (price e) (changePercent e) (direction e)
     (JS.setProp (followersResponded e) coin r).
End LeaderEvent.

Module Relation.
Record t : Type := mk
  { lagTimes : list Z;
    magnitudeRatios : list float;
    successfulFollows : nat;
    missedFollows : nat;
    avgLag : float;
    avgMagnitude : float;
    followRate : float }.

Definition empty : t := mk [] [] 0 0 0%float 0%float 0%float.
End Relation.

Module Statistics.
Record t : Type := mk
  { totalTicks : nat; divergenceEvents : nat; startTime : Z }.
End Statistics.

(** The global [marketData].  [pricesPrototype] is not a field of it: it
    is the prototype of the object [marketData.prices] once the server
    has replaced it, [None] while it is [Object.prototype] as for every
    object literal.  The other dictionaries keep their prototype and
    their keys: a tick under a name that is not an own key of
    [priceHistory] stops at line 183, before any of them is written. *)
Module MarketData.
Record t : Type := mk
  { prices : JS.obj PriceState.t;
    priceHistory : JS.obj (list float);
    leaderEvents : list LeaderEvent.t;
    causalityMatrix : JS.obj (JS.obj Relation.t);
    statistics : Statistics.t;
    pricesPrototype : option PriceState.t }.
End MarketData.

(** The two mutable globals of the server. *)
Record Server : Type := mkServer
  { marketData : MarketData.t;
    pendingUpdates : JS.obj PriceState.t }.

(** Field updates of the mutable records. *)
Definition with_prices (p : JS.obj PriceState.t) (md : MarketData.t) : MarketData.t :=
  MarketData.mk p (MarketData.priceHistory md) (MarketData.leaderEvents md)
    (MarketData.causalityMatrix md) (MarketData.statistics md)
    (MarketData.pricesPrototype md).

Definition with_priceHistory (h : JS.obj (list float)) (md : MarketData.t) : MarketData.t :=
  MarketData.mk (MarketData.prices md) h (MarketData.leaderEvents md)
    (MarketData.causalityMatrix md) (MarketData.statistics md)
    (MarketData.pricesPrototype md).

Definition with_leaderEvents (l : list LeaderEvent.t) (md : MarketData.t) : MarketData.t :=
  MarketData.mk (MarketData.prices md) (MarketData.priceHistory md) l
    (MarketData.causalityMatrix md) (MarketData.statistics md)
    (MarketData.pricesPrototype md).

Definition with_causalityMatrix (m : JS.obj (JS.obj Relation.t)) (md : MarketData.t)
  : MarketData.t :=
  MarketData.mk (MarketData.prices md) (MarketData.priceHistory md)
    (MarketData.leaderEvents md) m (MarketData.statistics md)
    (MarketData.pricesPrototype md).

Definition with_statistics (s : Statistics.t) (md : MarketData.t) : MarketData.t :=
  MarketData.mk (MarketData.prices md) (MarketData.priceHistory md)
    (MarketData.leaderEvents md) (MarketData.causalityMatrix md) s
    (MarketData.pricesPrototype md).

(** [initializeData()]: every coin gets a zero price record, an empty
    history and a row of empty relations towards every other coin. *)
Definition initialRow (coin : string) : JS.obj Relation.t :=
  fold_left
    (fun row follower =>
       if negb (String.eqb coin follower)
       then JS.setProp row follower Relation.empty
       else row)
    COINS [].

Definition initializeData (md : MarketData.t) : MarketData.t :=
  fold_left
    (fun md coin =>
       let md1 := with_prices
                    (JS.setProp (MarketData.prices md) coin
                       (PriceState.mk 0%float 0%float 0%float 0%Z)) md in
       let md2 := with_priceHistory
                    (JS.setProp (MarketData.priceHistory md1) coin []) md1 in
       with_causalityMatrix
         (JS.setProp (MarketData.causalityMatrix md2) coin (initialRow coin)) md2)
    COINS md.

(** The globals as the module leaves them once loaded; [startTime] is the
    clock value [Date.now()] returned then. *)
Definition initialServer (startTime : Z) : Server :=
  mkServer
    (initializeData (MarketData.mk [] [] [] [] (Statistics.mk 0 0 startTime) None))
    [].

(* ================================================================== *)
(** * Effects: the globals and exceptions *)
(* ================================================================== *)

Inductive Completion (A : Type) : Type :=
| Normal (a : A) (s : Server)
| Throw (s : Server).
Arguments Normal {A} a s.
Arguments Throw {A} s.

Definition Eff (A : Type) : Type := Server -> Completion A.

Definition ret {A : Type} (a : A) : Eff A := fun s => Normal a s.

Definition bind {A B : Type} (m : Eff A) (k : A -> Eff B) : Eff B :=
  fun s => match m s with
           | Normal a s' => k a s'
           | Throw s' => Throw s'
           end.

Declare Scope eff_scope.
Delimit Scope eff_scope with eff.
Notation "x <- m ;; k" := (bind m (fun x => k))
  (at level 61, m at next level, right associativity) : eff_scope.
Notation "m ;; k" := (bind m (fun _ => k))
  (at level 61, right associativity) : eff_scope.
Open Scope eff_scope.

(** Reading and replacing the global [marketData]. *)
Definition getData : Eff MarketData.t := fun s => Normal (marketData s) s.

Definition update (f : MarketData.t -> MarketData.t) : Eff unit :=
  fun s => Normal tt (mkServer (f (marketData s)) (pendingUpdates s)).

Definition queueUpdate (coin : string) (p : PriceState.t) : Eff unit :=
  fun s => Normal tt (mkServer (marketData s) (JS.setProp (pendingUpdates s) coin p)).

(** A property access on [undefined] raises a [TypeError]. *)
Definition defined {A : Type} (o : option A) : Eff A :=
  fun s => match o with Some a => Normal a s | None => Throw s end.

(** [try { m } catch (error) { console.error(...) }]. *)
Definition try_catch (m : Eff unit) : Eff unit :=
  fun s => match m s with
           | Normal _ s' => Normal tt s'
           | Throw s' => Normal tt s'
           end.

(** The globals a computation leaves behind, however it completes. *)
Definition final {A : Type} (c : Completion A) : Server :=
  match c with Normal _ s => s | Throw s => s end.

(* ================================================================== *)
(** * The tick pipeline *)
(* ================================================================== *)

(** A parsed feed message.  [price] is the Number [parseFloat(ticker.price)]
    evaluates to: NaN when the field is missing or is not numeric text. *)
Module Ticker.
Record t : Type := mk { type : string; product_id : string; price : float }.
End Ticker.

(** What [JSON.parse(data.toString())] makes of a frame. *)
Inductive Message : Type :=
| Unparseable
| Json (ticker : Ticker.t).

(** The new price record of a coin: [oldPrice], [priceChange] and
    [changePercent] of [processTickerUpdate]. *)
Definition priceUpdate (prev : PriceState.t) (price : float) (timestamp : Z)
  : PriceState.t :=
  let oldPrice := JS.or_else (PriceState.price prev) price in
  let priceChange := (price - oldPrice)%float in
  let changePercent :=
    if JS.gt oldPrice 0 then (priceChange / oldPrice * 100)%float else 0%float in
  PriceState.mk price priceChange changePercent timestamp.

(** The same three lines when [marketData.prices[coin]] is a value
    without a [price]: [undefined || price] is [price]. *)
Definition priceUpdateAfresh (price : float) (timestamp : Z) : PriceState.t :=
  let oldPrice := price in
  let priceChange := (price - oldPrice)%float in
  let changePercent :=
    if JS.gt oldPrice 0 then (priceChange / oldPrice * 100)%float else 0%float in
  PriceState.mk price priceChange changePercent timestamp.

(** What [marketData.prices[coin]] evaluates to. *)
Inductive PriceSlot : Type :=
| SlotRecord (prev : PriceState.t)
| SlotOther
| SlotUndefined.

(** The fields of a price record, which [marketData.prices] inherits
    once its prototype is one. *)
Definition priceFields : list string :=
  [ "price"; "change"; "changePercent"; "lastUpdate" ]%string.

(** [marketData.prices[coin]], along the prototype chain: an own record;
    under [__proto__] the prototype of the object, which is a price
    record once the server has made it one; under a name inherited from
    [Object.prototype] a built-in function, and under a field name of
    the prototype record a Number, neither of which has a [price]. *)
Definition readPrices (md : MarketData.t) (coin : string) : PriceSlot :=
  match JS.getProp (MarketData.prices md) coin with
  | Some prev => SlotRecord prev
  | None =>
      if String.eqb coin "__proto__" then
        match MarketData.pricesPrototype md with
        | Some r => SlotRecord r
        | None => SlotOther
        end
      else if JS.inherited coin then SlotOther
      else
        match MarketData.pricesPrototype md with
        | Some _ => if existsb (String.eqb coin) priceFields then SlotOther else SlotUndefined
        | None => SlotUndefined
        end
  end.

(** [marketData.prices[coin] = entry]: an own property is replaced or
    added, except that [__proto__] names no own property: the assignment
    makes [entry] the prototype of [marketData.prices] and leaves the own
    properties as they are. *)
Definition assignsPrototype (md : MarketData.t) (coin : string) : bool :=
  match JS.getProp (MarketData.prices md) coin with
  | Some _ => false
  | None => String.eqb coin "__proto__"
  end.

Definition writePrices (coin : string) (entry : PriceState.t) (md : MarketData.t)
  : MarketData.t :=
  MarketData.mk
    (if assignsPrototype md coin then MarketData.prices md
     else JS.setProp (MarketData.prices md) coin entry)
    (MarketData.priceHistory md) (MarketData.leaderEvents md)
    (MarketData.causalityMatrix md) (MarketData.statistics md)
    (if assignsPrototype md coin then Some entry else MarketData.pricesPrototype md).

(** [push(price)], then [shift()] once the array is longer than 1000. *)
Definition storeHistory (history : list float) (price : float) : list float :=
  let h := JS.push history price in
  if HISTORY_LIMIT <? List.length h then JS.shift h else h.

Definition isLeaderMove (changePercent : float) : bool :=
  JS.ge (abs changePercent) MOVE_THRESHOLD.

(** The filter predicate [e => timestamp - e.timestamp < LAG_WINDOW]. *)
Definition withinWindow (timestamp : Z) (e : LeaderEvent.t) : bool :=
  (timestamp - LeaderEvent.timestamp e <? LAG_WINDOW)%Z.

Definition newLeaderEvent (coin : string) (price changePercent : float) (timestamp : Z)
  : LeaderEvent.t :=
  LeaderEvent.mk timestamp coin price changePercent
    (if JS.gt changePercent 0 then pump else dump) [].

Definition sameDirection (changePercent leaderChange : float) : bool :=
  (JS.gt changePercent 0 && JS.gt leaderChange 0)
  || (JS.lt changePercent 0 && JS.lt leaderChange 0).

(** The success branch on a relation: two pushes, the counter, and the
    three derived fields recomputed from the whole arrays. *)
Definition recordFollow (rel : Relation.t) (lagTime : Z) (magnitudeRatio : float)
  : Relation.t :=
  let lagTimes := JS.push (Relation.lagTimes rel) lagTime in
  let magnitudeRatios := JS.push (Relation.magnitudeRatios rel) magnitudeRatio in
  let successfulFollows := S (Relation.successfulFollows rel) in
  Relation.mk lagTimes magnitudeRatios successfulFollows (Relation.missedFollows rel)
    (JS.of_Z (JS.sumZ lagTimes) / JS.of_nat (List.length lagTimes))%float
    (JS.sum magnitudeRatios / JS.of_nat (List.length magnitudeRatios))%float
    (JS.of_nat successfulFollows
       / JS.of_nat (successfulFollows + Relation.missedFollows rel))%float.

(** The else branch on a relation: [missedFollows++] and nothing else. *)
Definition recordMiss (rel : Relation.t) : Relation.t :=
  Relation.mk (Relation.lagTimes rel) (Relation.magnitudeRatios rel)
    (Relation.successfulFollows rel) (S (Relation.missedFollows rel))
    (Relation.avgLag rel) (Relation.avgMagnitude rel) (Relation.followRate rel).

Definition countDivergence (s : Statistics.t) : Statistics.t :=
  Statistics.mk (Statistics.totalTicks s) (S (Statistics.divergenceEvents s))
    (Statistics.startTime s).

Definition countTick (s : Statistics.t) : Statistics.t :=
  Statistics.mk (S (Statistics.totalTicks s)) (Statistics.divergenceEvents s)
    (Statistics.startTime s).

(** [marketData.causalityMatrix[leader][coin]] for own keys [leader] and
    [coin].  With any other index the branches of the follower check
    find [undefined], or a value that is not a relation, where they
    expect one; the model raises the [TypeError] of the first case.  The
    loop is only reached by a coin whose history is an own array, and
    the leaders are coins of stored events (see [tick_completes]). *)
Definition relationship (leader coin : string) : Eff (JS.obj Relation.t * Relation.t) :=
  md <- getData ;;
  row <- defined (JS.getProp (MarketData.causalityMatrix md) leader) ;;
  rel <- defined (JS.getProp row coin) ;;
  ret (row, rel).

Definition storeRelation (leader coin : string) (row : JS.obj Relation.t)
  (rel : Relation.t) (md : MarketData.t) : MarketData.t :=
  with_causalityMatrix
    (JS.setProp (MarketData.causalityMatrix md) leader (JS.setProp row coin rel)) md.

(** The body of [marketData.leaderEvents.forEach(leaderEvent => ...)] for
    the event [leaderEvent] found at index [i]. *)
Definition checkFollower (coin : string) (changePercent : float) (timestamp : Z)
  (i : nat) (leaderEvent : LeaderEvent.t) : Eff unit :=
  if negb (String.eqb (LeaderEvent.leader leaderEvent) coin) then
    let lagTime := (timestamp - LeaderEvent.timestamp leaderEvent)%Z in
    if (lagTime <? LAG_WINDOW)%Z && JS.ge (abs changePercent) FOLLOW_THRESHOLD then
      if sameDirection changePercent (LeaderEvent.changePercent leaderEvent) then
        let magnitudeRatio :=
          abs (changePercent / LeaderEvent.changePercent leaderEvent)%float in
        r <- relationship (LeaderEvent.leader leaderEvent) coin ;;
        update (storeRelation (LeaderEvent.leader leaderEvent) coin (fst r)
                  (recordFollow (snd r) lagTime magnitudeRatio)) ;;
        update (fun md =>
                  with_leaderEvents
                    (JS.setIndex (MarketData.leaderEvents md) i
                       (LeaderEvent.respond leaderEvent coin
                          (Response.mk lagTime changePercent magnitudeRatio))) md)
      else
        r <- relationship (LeaderEvent.leader leaderEvent) coin ;;
        update (storeRelation (LeaderEvent.leader leaderEvent) coin (fst r)
                  (recordMiss (snd r))) ;;
        update (fun md => with_statistics (countDivergence (MarketData.statistics md)) md)
    else ret tt
  else ret tt.

(** [forEach]: the indices [i, i+1, ...] of the array, [n] of them, each
    element read when its turn comes. *)
Fixpoint forEachFrom (n i : nat) (body : nat -> LeaderEvent.t -> Eff unit) : Eff unit :=
  match n with
  | O => ret tt
  | S n' =>
      md <- getData ;;
      match nth_error (MarketData.leaderEvents md) i with
      | Some e => body i e ;; forEachFrom n' (S i) body
      | None => ret tt
      end
  end.

Definition forEachLeaderEvent (body : nat -> LeaderEvent.t -> Eff unit) : Eff unit :=
  md <- getData ;;
  forEachFrom (List.length (MarketData.leaderEvents md)) 0 body.

(** The blocks of [processTickerUpdate], in source order. *)

(** The record lines 171-180 build for [coin]; [None] when
    [marketData.prices[coin]] is [undefined] and reading its [price]
    raises a [TypeError]. *)
Definition newEntry (md : MarketData.t) (coin : string) (price : float) (timestamp : Z)
  : option PriceState.t :=
  match readPrices md coin with
  | SlotRecord prev => Some (priceUpdate prev price timestamp)
  | SlotOther => Some (priceUpdateAfresh price timestamp)
  | SlotUndefined => None
  end.

(** "Update price data": the record of [coin] is replaced; the block
    hands [changePercent] to the ones after it. *)
Definition updatePriceData (coin : string) (price : float) (timestamp : Z) : Eff float :=
  md <- getData ;;
  entry <- defined (newEntry md coin price timestamp) ;;
  update (writePrices coin entry) ;;
  ret (PriceState.changePercent entry).

(** "Store price history (limit to 1000 entries)".  Nothing that
    [marketData.priceHistory] inherits has a [push], so the call raises a
    [TypeError] for every name that is not an own key. *)
Definition storePriceHistory (coin : string) (price : float) : Eff unit :=
  md <- getData ;;
  history <- defined (JS.getProp (MarketData.priceHistory md) coin) ;;
  update (with_priceHistory
            (JS.setProp (MarketData.priceHistory md) coin (storeHistory history price))).

(** "Detect leader events (significant moves)": the push and the
    "Clean old events" filter both sit inside the threshold test. *)
Definition detectLeaderEvent (coin : string) (price changePercent : float)
  (timestamp : Z) : Eff unit :=
  if isLeaderMove changePercent then
    update (fun md =>
              with_leaderEvents
                (filter (withinWindow timestamp)
                   (JS.push (MarketData.leaderEvents md)
                      (newLeaderEvent coin price changePercent timestamp))) md)
  else ret tt.

(** "Check for follower events". *)
Definition checkFollowers (coin : string) (changePercent : float) (timestamp : Z)
  : Eff unit :=
  forEachLeaderEvent (checkFollower coin changePercent timestamp).

(** [marketData.statistics.totalTicks++]. *)
Definition countTotalTick : Eff unit :=
  update (fun md => with_statistics (countTick (MarketData.statistics md)) md).

(** "Queue update for batch broadcast":
    [pendingUpdates[coin] = marketData.prices[coin]].  The record is an
    own property, stored by the first block, unless [coin] is
    [__proto__]: the assignment then adds no key to [pendingUpdates]. *)
Definition queuePendingUpdate (coin : string) : Eff unit :=
  md <- getData ;;
  match JS.getProp (MarketData.prices md) coin with
  | Some p => queueUpdate coin p
  | None => ret tt
  end.

(** [processTickerUpdate(ticker)], with [now] the value of [Date.now()]. *)
Definition processTickerUpdate (ticker : Ticker.t) (now : Z) : Eff unit :=
  let coin := Ticker.product_id ticker in
  let price := Ticker.price ticker in
  let timestamp := now in
  changePercent <- updatePriceData coin price timestamp ;;
  storePriceHistory coin price ;;
  detectLeaderEvent coin price changePercent timestamp ;;
  checkFollowers coin changePercent timestamp ;;
  countTotalTick ;;
  queuePendingUpdate coin.

(** [coinbaseWS.on('message', ...)]: a frame that does not parse throws
    inside the [try]; only messages of type ticker reach the pipeline. *)
Definition onMessage (data : Message) (now : Z) : Eff unit :=
  try_catch
    match data with
    | Unparseable => (fun s => Throw s)
    | Json ticker =>
        if String.eqb (Ticker.type ticker) "ticker"%string
        then processTickerUpdate ticker now
        else ret tt
    end.

(** The server after one frame, and after a sequence of frames, each with
    the clock value at which it is handled. *)
Definition step (s : Server) (m : Message * Z) : Server :=
  final (onMessage (fst m) (snd m) s).

Definition run (s : Server) (frames : list (Message * Z)) : Server :=
  fold_left step frames s.

(* ================================================================== *)
(** * The REST read handlers *)
(* ================================================================== *)

(** [parseInt(s)] with no radix: leading white space is skipped, one sign
    is read, a [0x] prefix selects base 16, and the longest prefix of
    digits is read in that base.  The value here is the integer read,
    with [None] for NaN; the Number the built-in returns is the one
    nearest to that integer, [JS.of_Z] of it, and the model rounds where
    the value is used ([qualifies]).  The sign of a zero is dropped, both
    zeros being falsy. *)

(** The white space and line terminators of one byte: TAB, LF, VT, FF,
    CR and SP. *)
Definition isWhiteSpace (c : ascii) : bool :=
  let n := nat_of_ascii c in
  (n =? 9) || (n =? 10) || (n =? 11) || (n =? 12) || (n =? 13) || (n =? 32).

(** The number of bytes of the white space character of more than one
    byte at the head of [s], 0 when there is none: U+00A0, U+1680,
    U+2000 to U+200A, U+2028, U+2029, U+202F, U+205F, U+3000 and
    U+FEFF in UTF-8. *)
Definition wideWhiteSpace (s : string) : nat :=
  match s with
  | String a r =>
      let a := nat_of_ascii a in
      if (a =? 194) || (a =? 225) || (a =? 226) || (a =? 227) || (a =? 239) then
        match r with
        | String b (String c _) =>
            let b := nat_of_ascii b in
            let c := nat_of_ascii c in
            if (a =? 194) && (b =? 160) then 2
            else if (a =? 225) && (b =? 154) && (c =? 128) then 3
            else if (a =? 226) && (b =? 128)
                    && (((128 <=? c) && (c <=? 138)) || (c =? 168) || (c =? 169)
                        || (c =? 175)) then 3
            else if (a =? 226) && (b =? 129) && (c =? 159) then 3
            else if (a =? 227) && (b =? 128) && (c =? 128) then 3
            else if (a =? 239) && (b =? 187) && (c =? 191) then 3
            else 0
        | String b EmptyString =>
            if (a =? 194) && (nat_of_ascii b =? 160) then 2 else 0
        | EmptyString => 0
        end
      else 0
  | EmptyString => 0
  end.

Fixpoint trimStart (s : string) : string :=
  match s with
  | String c s' =>
      if isWhiteSpace c then trimStart s'
      else
        match wideWhiteSpace s, s' with
        | 2, String _ r => trimStart r
        | 3, String _ (String _ r) => trimStart r
        | _, _ => s
        end
  | EmptyString => EmptyString
  end.

Definition digitValue (c : ascii) : option nat :=
  let n := nat_of_ascii c in
  if (48 <=? n) && (n <=? 57) then Some (n - 48)
  else if (97 <=? n) && (n <=? 122) then Some (n - 87)
  else if (65 <=? n) && (n <=? 90) then Some (n - 55)
  else None.

Fixpoint digitsPrefix (radix : nat) (s : string) (acc : option Z) : option Z :=
  match s with
  | String c s' =>
      match digitValue c with
      | Some d =>
          if d <? radix
          then digitsPrefix radix s'
                 (Some (match acc with Some a => a | None => 0 end
                        * Z.of_nat radix + Z.of_nat d)%Z)
          else acc
      | None => acc
      end
  | EmptyString => acc
  end.

Definition parseInt (s : string) : option Z :=
  let s1 := trimStart s in
  let '(sign, s2) :=
    match s1 with
    | String "-"%char r => ((-1)%Z, r)
    | String "+"%char r => (1%Z, r)
    | _ => (1%Z, s1)
    end in
  let '(radix, s3) :=
    match s2 with
    | String "0"%char (String x r) =>
        if Ascii.eqb x "x"%char || Ascii.eqb x "X"%char then (16, r) else (10, s2)
    | _ => (10, s2)
    end in
  option_map (Z.mul sign) (digitsPrefix radix s3 None).

(** [parseInt(req.query.minSamples) || 10], as the integer whose nearest
    Number the expression evaluates to.  The parameter is the text given
    in the query string; an absent parameter is [undefined], which
    [parseInt] reads as the text "undefined". *)
Definition minSampleSize (minSamples : option string) : Z :=
  let text := match minSamples with Some s => s | None => "undefined"%string end in
  match parseInt text with
  | None => 10%Z
  | Some z => if (z =? 0)%Z then 10%Z else z
  end.

(** One element of the best-pairs array. *)
Module Pair.
Record t : Type := mk
  { leader : string;
    follower : string;
    followRate : float;
    avgLag : float;
    avgMagnitude : float;
    sampleSize : nat;
    successfulFollows : nat;
    missedFollows : nat }.

Definition of_relation (leader follower : string) (rel : Relation.t) : t :=
  mk leader follower (Relation.followRate rel) (Relation.avgLag rel)
    (Relation.avgMagnitude rel) (List.length (Relation.lagTimes rel))
    (Relation.successfulFollows rel) (Relation.missedFollows rel).
End Pair.

(** One cell of the simplified matrix. *)
Module Cell.
Record t : Type := mk
  { followRate : float; avgLag : float; avgMagnitude : float; sampleSize : nat }.

Definition of_relation (rel : Relation.t) : t :=
  mk (Relation.followRate rel) (Relation.avgLag rel) (Relation.avgMagnitude rel)
    (List.length (Relation.lagTimes rel)).
End Cell.

(** The nested [Object.keys(...).forEach] over the matrix: every relation
    with its two keys, rows in key order and followers in key order. *)
Definition relations (matrix : JS.obj (JS.obj Relation.t))
  : list (string * string * Relation.t) :=
  flat_map (fun row => map (fun cell => (fst row, fst cell, snd cell)) (snd row)) matrix.

(** The filter of best-pairs on one relation:
    [totalEvents >= minSampleSize && rel.followRate > 0.6], a comparison
    of Numbers; [threshold] is the integer [minSampleSize] came from. *)
Definition qualifies (threshold : Z) (rel : Relation.t) : bool :=
  let totalEvents := Relation.successfulFollows rel + Relation.missedFollows rel in
  JS.ge (JS.of_nat totalEvents) (JS.of_Z threshold)
  && JS.gt (Relation.followRate rel) 0.6%float.

(** The comparator [(a, b) => b.followRate - a.followRate]. *)
Definition byFollowRate (a b : Pair.t) : float :=
  (Pair.followRate b - Pair.followRate a)%float.

Definition candidatePairs (threshold : Z) (md : MarketData.t) : list Pair.t :=
  map (fun r => Pair.of_relation (fst (fst r)) (snd (fst r)) (snd r))
    (filter (fun r => qualifies threshold (snd r))
       (relations (MarketData.causalityMatrix md))).

Record PricesBody : Type := mkPricesBody
  { pb_timestamp : Z;
    pb_prices : JS.obj PriceState.t;
    pb_statistics : Statistics.t }.

(** The answers of the history endpoint: the body with status 200, the
    404 of the handler, and the 500 Express answers with when the
    handler throws. *)
Inductive HistoryBody : Type :=
| HistoryOk (coin : string) (history : list float)
| HistoryNotFound
| HistoryError.

Record MatrixBody : Type := mkMatrixBody
  { mb_matrix : JS.obj (JS.obj Cell.t);
    mb_leaderEvents : list LeaderEvent.t }.

Record BestPairsBody : Type := mkBestPairsBody
  { pairs : list Pair.t; totalPairsAnalyzed : nat }.

(** [GET /api/market/prices]; [now] is [Date.now()] at the call. *)
Definition getMarketPrices (now : Z) : Eff PricesBody :=
  md <- getData ;;
  ret (mkPricesBody now (MarketData.prices md) (MarketData.statistics md)).

(** [GET /api/market/history/:coin].  An own array is truthy and is
    sliced.  A name inherited from [Object.prototype] finds a built-in
    that is truthy too and has no [slice]: the call raises a [TypeError]
    inside the handler, which writes nothing, and the client gets the
    500 of Express.  Any other name finds [undefined]. *)
Definition getMarketHistory (coin : string) : Eff HistoryBody :=
  md <- getData ;;
  match JS.getProp (MarketData.priceHistory md) coin with
  | Some history => ret (HistoryOk coin (JS.slice_last 100 history))
  | None => if JS.inherited coin then ret HistoryError else ret HistoryNotFound
  end.

(** [GET /api/causality/matrix]. *)
Definition simplifiedRow (row : JS.obj Relation.t) : JS.obj Cell.t :=
  map (fun cell => (fst cell, Cell.of_relation (snd cell)))
    (filter (fun cell => 0 <? Relation.successfulFollows (snd cell)) row).

Definition getCausalityMatrix : Eff MatrixBody :=
  md <- getData ;;
  ret (mkMatrixBody
         (map (fun row => (fst row, simplifiedRow (snd row)))
            (MarketData.causalityMatrix md))
         (MarketData.leaderEvents md)).

(** [GET /api/causality/best-pairs?minSamples=...]. *)
Definition getBestPairs (minSamples : option string) : Eff BestPairsBody :=
  md <- getData ;;
  let sorted := JS.sort byFollowRate (candidatePairs (minSampleSize minSamples) md) in
  ret (mkBestPairsBody (JS.slice_to 20 sorted) (List.length sorted)).

Section Csv.

(** [x.toFixed(digits)]: the decimal text of a Number, left to the
    JavaScript runtime. *)
Variable toFixed : nat -> float -> string.

Definition decimal (n : nat) : string := NilEmpty.string_of_uint (Nat.to_uint n).

Definition csvHeader : string :=
  "Leader,Follower,Successful_Follows,Missed_Follows,Follow_Rate,Avg_Lag_MS,Avg_Magnitude_Ratio,Sample_Size"
  ++ String (ascii_of_nat 10) EmptyString.

Definition csvRow (leader follower : string) (rel : Relation.t) : string :=
  (leader ++ "," ++ follower ++ ","
   ++ decimal (Relation.successfulFollows rel) ++ ","
   ++ decimal (Relation.missedFollows rel) ++ ","
   ++ toFixed 3 (Relation.followRate rel) ++ ","
   ++ toFixed 0 (Relation.avgLag rel) ++ ","
   ++ toFixed 3 (Relation.avgMagnitude rel) ++ ","
   ++ decimal (List.length (Relation.lagTimes rel))
   ++ String (ascii_of_nat 10) EmptyString)%string.

(** [GET /api/export/csv]. *)
Definition getExportCsv : Eff string :=
  md <- getData ;;
  ret (fold_left
         (fun csv r =>
            let rel := snd r in
            if 0 <? Relation.successfulFollows rel + Relation.missedFollows rel
            then (csv ++ csvRow (fst (fst r)) (snd (fst r)) rel)%string
            else csv)
         (relations (MarketData.causalityMatrix md)) csvHeader).

End Csv.

(* ================================================================== *)
(** * The batched broadcast *)
(* ================================================================== *)

(** The body of a [batch_update] message. *)
Record BatchUpdate : Type := mkBatchUpdate
  { bu_updates : JS.obj PriceState.t;
    bu_timestamp : Z;
    bu_leaderEvents : nat }.

(** The callback of [setInterval(..., BROADCAST_INTERVAL)]: when some
    update is pending, it is broadcast with the clock and the number of
    stored leader events, and the buffer is replaced by an empty object;
    the value is the message handed to [broadcastToClients], if any. *)
Definition broadcastPending (now : Z) : Eff (option BatchUpdate) :=
  fun s =>
    if 0 <? List.length (pendingUpdates s) then
      Normal
        (Some (mkBatchUpdate (pendingUpdates s) now
                 (List.length (MarketData.leaderEvents (marketData s)))))
        (mkServer (marketData s) [])
    else Normal None s.

(** What the server reacts to: a frame of the feed, or the broadcast
    timer, each at a clock value. *)
Inductive Activity : Type :=
| Frame (data : Message) (now : Z)
| Timer (now : Z).

Definition react (s : Server) (a : Activity) : Server :=
  match a with
  | Frame data now => step s (data, now)
  | Timer now => final (broadcastPending now s)
  end.

Definition serve (s : Server) (activities : list Activity) : Server :=
  fold_left react activities s.


(* ================================================================== *)
(** * The dashboard client *)
(* ================================================================== *)

(** What the server sends to a dashboard client: the [initial_state]
    message of [wss.on('connection', ...)] and the [batch_update]
    messages of the broadcast timer. *)
Inductive Push : Type :=
| InitialState (prices : JS.obj PriceState.t) (leaderEvents : list LeaderEvent.t)
    (statistics : Statistics.t) (coinConfig : list string)
| Batch (b : BatchUpdate).

(** [wss.on('connection', ...)]: the message sent to the new client. *)
Definition onConnection : Eff Push :=
  md <- getData ;;
  ret (InitialState (MarketData.prices md) (MarketData.leaderEvents md)
         (MarketData.statistics md) COINS).

(** The batches the timers of a sequence of activities broadcast, in
    order; a client that stays connected and open is sent each of them
    by [broadcastToClients]. *)
Fixpoint broadcasts (s : Server) (activities : list Activity) : list BatchUpdate :=
  match activities with
  | [] => []
  | Frame data now :: rest => broadcasts (step s (data, now)) rest
  | Timer now :: rest =>
      match broadcastPending now s with
      | Normal (Some b) s' => b :: broadcasts s' rest
      | Normal None s' => broadcasts s' rest
      | Throw s' => broadcasts s' rest
      end
  end.

(** The two variables of script.js that the messages of the server
    update: [prices] and [priceHistory].  [R] is what a price record is
    once parsed from the message, [F] what its [price] field is. *)
Module Client.
Record t (R F : Type) : Type := mk
  { prices : JS.obj R;
    priceHistory : JS.obj (list F) }.
Arguments mk {R F} _ _.
Arguments prices {R F} _.
Arguments priceHistory {R F} _.
End Client.

Section Dashboard.

(** A price record as [JSON.parse] gives it back from the text
    [JSON.stringify] made of it, and the [price] field of what is
    parsed. *)
Variables R F : Type.
Variable wire : PriceState.t -> R.
Variable priceOf : R -> F.

(** [let prices = {}; let priceHistory = {};] *)
Definition initialClient : Client.t R F := Client.mk [] [].

(** [handleBackendUpdate({coin, data})]. *)
Definition handleBackendUpdate (coin : string) (priceData : R) (c : Client.t R F)
  : Client.t R F :=
  let prices := JS.setProp (Client.prices c) coin priceData in
  let history :=
    match JS.getProp (Client.priceHistory c) coin with
    | Some h => h
    | None => []
    end in
  let pushed := JS.push history (priceOf priceData) in
  let kept := if 1000 <? List.length pushed then JS.shift pushed else pushed in
  Client.mk prices (JS.setProp (Client.priceHistory c) coin kept).

(** An object of price records at the receiving end: same keys, same
    order. *)
Definition received (o : JS.obj PriceState.t) : JS.obj R :=
  map (fun r => (fst r, wire (snd r))) o.

(** [ws.onmessage] of the dashboard, on the two variables. *)
Definition onPush (c : Client.t R F) (m : Push) : Client.t R F :=
  match m with
  | InitialState prices _ _ _ => Client.mk (received prices) (Client.priceHistory c)
  | Batch b =>
      let updates := received (bu_updates b) in
      fold_left
        (fun c coin =>
           match JS.getProp updates coin with
           | Some data => handleBackendUpdate coin data c
           | None => c
           end)
        (map fst updates) c
  end.

(** The client that connected when the server was in state [s], once it
    has handled what it was sent while the server went through
    [activities]. *)
Definition dashboardAfter (s : Server) (activities : list Activity) : Client.t R F :=
  match onConnection s with
  | Normal hello _ =>
      fold_left onPush (hello :: map Batch (broadcasts s activities)) initialClient
  | Throw _ => initialClient
  end.

End Dashboard.
(* ================================================================== *)
(** * Feeds used in the examples *)
(* ================================================================== *)

Definition tick (coin : string) (price : float) : Message :=
  Json (Ticker.mk "ticker" coin price).

(** BTC moves 100 -> 103 at t = 2000 (a leader event), then ETH ticks for
    the first time, five minutes later to the millisecond. *)
Definition quietFeed : list (Message * Z) :=
  [ (tick "BTC-USD" 100%float, 1000%Z);
    (tick "BTC-USD" 103%float, 2000%Z);
    (tick "ETH-USD" 1000%float, 302000%Z) ].

(** BTC pumps 3% at t = 0; ETH follows (+0.6%) at t = 100 and then falls
    back (-0.596%) at t = 200 while the BTC event is still live. *)
Definition followThenMissFeed : list (Message * Z) :=
  [ (tick "BTC-USD" 100%float, (-20)%Z);
    (tick "ETH-USD" 1000%float, (-10)%Z);
    (tick "BTC-USD" 103%float, 0%Z);
    (tick "ETH-USD" 1006%float, 100%Z);
    (tick "ETH-USD" 1000%float, 200%Z) ].

(** A ticker for a configured coin whose price text is not a number. *)
Definition nanFeed : list (Message * Z) :=
  [ (tick "BTC-USD" nan, 5%Z) ].


(** The scenario of the specification: BTC 100 -> 103 at t = 0, ETH +0.6%
    at t = 100, SOL -0.6% at t = 200. *)
Definition scenarioFeed : list (Message * Z) :=
  [ (tick "BTC-USD" 100%float, (-30)%Z);
    (tick "ETH-USD" 1000%float, (-20)%Z);
    (tick "SOL-USD" 1000%float, (-10)%Z);
    (tick "BTC-USD" 103%float, 0%Z);
    (tick "ETH-USD" 1006%float, 100%Z);
    (tick "SOL-USD" 994%float, 200%Z) ].

(** BTC pumps 3 percent at t = 0; ETH then moves up three times and down
    seven times, 0.6 percent each, all inside the lag window. *)
Definition threeOfTenFeed : list (Message * Z) :=
  [ (tick "BTC-USD" 100%float, (-20)%Z);
    (tick "ETH-USD" 1000%float, (-10)%Z);
    (tick "BTC-USD" 103%float, 0%Z);
    (tick "ETH-USD" 1006%float, 100%Z);
    (tick "ETH-USD" 1012%float, 200%Z);
    (tick "ETH-USD" 1018%float, 300%Z);
    (tick "ETH-USD" 1012%float, 400%Z);
    (tick "ETH-USD" 1006%float, 500%Z);
    (tick "ETH-USD" 1000%float, 600%Z);
    (tick "ETH-USD" 994%float, 700%Z);
    (tick "ETH-USD" 988%float, 800%Z);
    (tick "ETH-USD" 982%float, 900%Z);
    (tick "ETH-USD" 976%float, 1000%Z) ].

(** BTC pumps 3 percent at t = 0; ETH then moves up seven times, down
    once and up once more, 0.6 percent each: 8 successes and 1 miss. *)
Definition eightOfNineFeed : list (Message * Z) :=
  [ (tick "BTC-USD" 100%float, (-20)%Z);
    (tick "ETH-USD" 1000%float, (-10)%Z);
    (tick "BTC-USD" 103%float, 0%Z);
    (tick "ETH-USD" 1006%float, 100%Z);
    (tick "ETH-USD" 1012%float, 200%Z);
    (tick "ETH-USD" 1018%float, 300%Z);
    (tick "ETH-USD" 1024%float, 400%Z);
    (tick "ETH-USD" 1030%float, 500%Z);
    (tick "ETH-USD" 1036%float, 600%Z);
    (tick "ETH-USD" 1042%float, 700%Z);
    (tick "ETH-USD" 1036%float, 800%Z);
    (tick "ETH-USD" 1042%float, 900%Z) ].

(* ================================================================== *)
(** * Vocabulary of the statements *)
(* ================================================================== *)

(** [m] keeps the property [P] of the globals, however it completes. *)
Definition preserves {A : Type} (P : Server -> Prop) (m : Eff A) : Prop :=
  forall s, P s -> P (final (m s)).

(** The prices a feed delivers for [coin], in arrival order: those of the
    frames that parse, are of type ticker and name the coin. *)
Definition arrivals (coin : string) (frames : list (Message * Z)) : list float :=
  flat_map
    (fun m =>
       match fst m with
       | Json t =>
           if String.eqb (Ticker.type t) "ticker" && String.eqb (Ticker.product_id t) coin
           then [Ticker.price t]
           else []
       | Unparseable => []
       end)
    frames.

(** The counters of a relation agree with its two arrays. *)
Definition consistent (rel : Relation.t) : Prop :=
  Relation.successfulFollows rel = List.length (Relation.lagTimes rel)
  /\ Relation.successfulFollows rel = List.length (Relation.magnitudeRatios rel).

(** What [processTickerUpdate] still runs once the leader detection is
    over, and once the price and the history of the coin are stored. *)
Definition afterLeader (coin : string) (changePercent : float) (timestamp : Z)
  : Eff unit :=
  checkFollowers coin changePercent timestamp ;;
  countTotalTick ;;
  queuePendingUpdate coin.

Definition afterHistory (coin : string) (price changePercent : float) (timestamp : Z)
  : Eff unit :=
  detectLeaderEvent coin price changePercent timestamp ;;
  afterLeader coin changePercent timestamp.

(** The fields of a leader event that are written once, when it is
    created. *)
Definition occurrence (e : LeaderEvent.t) : Z * string * float * float * Direction :=
  (LeaderEvent.timestamp e, LeaderEvent.leader e, LeaderEvent.price e,
   LeaderEvent.changePercent e, LeaderEvent.direction e).


(** Two calls of a handler in a row, nothing in between, complete with
    the same value. *)
Definition sameTwice {A : Type} (m : Eff A) : Prop :=
  forall s, exists a s1 s2, m s = Normal a s1 /\ m s1 = Normal a s2.

(** The rank of a Number that is not NaN: an integer that grows with it.
    A finite [m * 2^e] is counted in units of the smallest subnormal,
    [2^-1074]; the infinities lie beyond every finite Number. *)
Definition ord (x : spec_float) : Z :=
  match x with
  | S754_zero _ => 0
  | S754_infinity s => cond_Zopp s (2 ^ 2098)
  | S754_nan => 0
  | S754_finite s m e => cond_Zopp s (Z.pos m * 2 ^ (e + 1074))
  end%Z.

Definition rank (a : float) : Z := ord (Prim2SF a).


(** [marketData.causalityMatrix[leader][follower]]. *)
Definition relationOf (s : Server) (leader follower : string) : option Relation.t :=
  match JS.getProp (MarketData.causalityMatrix (marketData s)) leader with
  | Some row => JS.getProp row follower
  | None => None
  end.




(** [marketData.statistics.divergenceEvents]. *)
Definition divergenceEvents (s : Server) : nat :=
  Statistics.divergenceEvents (MarketData.statistics (marketData s)).

(** The configured coins other than [coin], in configuration order. *)
Definition others (coin : string) : list string :=
  filter (fun c => negb (String.eqb coin c)) COINS.

(** The names other than the configured coins under which line 175 can
    store a record in [marketData.prices]: a name that line 171 reads
    through the prototype chain, where it finds something that is not
    [undefined]. *)
Definition strayName (k : string) : bool :=
  negb (String.eqb k "__proto__")
  && (JS.inherited k || existsb (String.eqb k) priceFields).

(** The shape the three dictionaries keep: the histories and the matrix
    have one entry per configured coin, as [initializeData] made them,
    and in the matrix a row per coin with one relation towards every
    other coin; the prices have the configured coins first, and after
    them only names read through the prototype chain. *)
Definition shaped (s : Server) : Prop :=
  (exists strays,
      map fst (MarketData.prices (marketData s)) = COINS ++ strays
      /\ Forall (fun k => strayName k = true) strays)
  /\ map fst (MarketData.priceHistory (marketData s)) = COINS
  /\ map fst (MarketData.causalityMatrix (marketData s)) = COINS
  /\ Forall (fun row => map fst (snd row) = others (fst row))
       (MarketData.causalityMatrix (marketData s)).

(** What a recorded response says of the follower tick that made it. *)
Definition responseOk (e : LeaderEvent.t) (entry : string * Response.t) : Prop :=
  fst entry <> LeaderEvent.leader e
  /\ (Response.lagTime (snd entry) < LAG_WINDOW)%Z
  /\ JS.ge (abs (Response.changePercent (snd entry))) FOLLOW_THRESHOLD = true
  /\ sameDirection (Response.changePercent (snd entry)) (LeaderEvent.changePercent e) = true
  /\ Response.magnitudeRatio (snd entry)
     = abs (Response.changePercent (snd entry) / LeaderEvent.changePercent e)%float.

(** What a stored leader event says of the tick that made it. *)
Definition eventOk (e : LeaderEvent.t) : Prop :=
  In (LeaderEvent.leader e) COINS
  /\ isLeaderMove (LeaderEvent.changePercent e) = true
  /\ LeaderEvent.direction e
     = (if JS.gt (LeaderEvent.changePercent e) 0 then pump else dump)
  /\ Forall (responseOk e) (LeaderEvent.followersResponded e).

(** The globals as [initializeData] shapes them, holding only events
    that ticks of configured coins create. *)
Definition wellFormed (s : Server) : Prop :=
  shaped s /\ Forall eventOk (MarketData.leaderEvents (marketData s)).

(** A property of every relation of the matrix. *)
Definition matrixAll (P : Relation.t -> Prop) (s : Server) : Prop :=
  Forall (fun row => Forall (fun cell => P (snd cell)) (snd row))
    (MarketData.causalityMatrix (marketData s)).

(** The two averages are those of the stored arrays. *)
Definition averaged (rel : Relation.t) : Prop :=
  match Relation.successfulFollows rel with
  | O => Relation.avgLag rel = 0%float /\ Relation.avgMagnitude rel = 0%float
  | S _ =>
      Relation.avgLag rel
      = (JS.of_Z (JS.sumZ (Relation.lagTimes rel))
         / JS.of_nat (List.length (Relation.lagTimes rel)))%float
      /\ Relation.avgMagnitude rel
         = (JS.sum (Relation.magnitudeRatios rel)
            / JS.of_nat (List.length (Relation.magnitudeRatios rel)))%float
  end.

(** The stored rate is the quotient as it was at the last success. *)
Definition rateOfLastSuccess (rel : Relation.t) : Prop :=
  match Relation.successfulFollows rel with
  | O => Relation.followRate rel = 0%float
  | S n =>
      exists missedThen,
        missedThen <= Relation.missedFollows rel
        /\ Relation.followRate rel
           = (JS.of_nat (S n) / JS.of_nat (S n + missedThen))%float
  end.

(** All the misses the matrix holds. *)
Definition totalMissed (s : Server) : nat :=
  list_sum
    (map (fun r => Relation.missedFollows (snd r))
       (relations (MarketData.causalityMatrix (marketData s)))).

(** A frame that reaches the pipeline with a configured coin. *)
Definition configuredTicker (m : Message * Z) : bool :=
  match fst m with
  | Json t =>
      String.eqb (Ticker.type t) "ticker"
      && existsb (String.eqb (Ticker.product_id t)) COINS
  | Unparseable => false
  end.

(** The globals after a success and after a miss of [coin] against the
    event [e] found at index [i]. *)
Definition afterFollow (coin : string) (cp : float) (ts : Z) (i : nat)
  (e : LeaderEvent.t) (row : JS.obj Relation.t) (rel : Relation.t) (s : Server) : Server :=
  let lagTime := (ts - LeaderEvent.timestamp e)%Z in
  let magnitudeRatio := abs (cp / LeaderEvent.changePercent e)%float in
  mkServer
    (with_leaderEvents
       (JS.setIndex (MarketData.leaderEvents (marketData s)) i
          (LeaderEvent.respond e coin (Response.mk lagTime cp magnitudeRatio)))
       (storeRelation (LeaderEvent.leader e) coin row
          (recordFollow rel lagTime magnitudeRatio) (marketData s)))
    (pendingUpdates s).

Definition afterMiss (coin : string) (e : LeaderEvent.t) (row : JS.obj Relation.t)
  (rel : Relation.t) (s : Server) : Server :=
  mkServer
    (with_statistics (countDivergence (MarketData.statistics (marketData s)))
       (storeRelation (LeaderEvent.leader e) coin row (recordMiss rel) (marketData s)))
    (pendingUpdates s).

(** The globals once the first three blocks of a tick are done: price
    record stored, price pushed on the history, leader event detected. *)
Definition detected (t : Ticker.t) (now : Z) (prev : PriceState.t) (h : list float)
  (s : Server) : Server :=
  let coin := Ticker.product_id t in
  let price := Ticker.price t in
  let entry := priceUpdate prev price now in
  let md :=
    with_priceHistory
      (JS.setProp (MarketData.priceHistory (marketData s)) coin (storeHistory h price))
      (with_prices (JS.setProp (MarketData.prices (marketData s)) coin entry)
         (marketData s)) in
  mkServer
    (if isLeaderMove (PriceState.changePercent entry)
     then with_leaderEvents
            (filter (withinWindow now)
               (JS.push (MarketData.leaderEvents md)
                  (newLeaderEvent coin price (PriceState.changePercent entry) now))) md
     else md)
    (pendingUpdates s).


(** [rel'] is [rel] with more samples: nothing counted or recorded in
    [rel] is gone from [rel']. *)
Definition extends (rel rel' : Relation.t) : Prop :=
  Relation.successfulFollows rel <= Relation.successfulFollows rel'
  /\ Relation.missedFollows rel <= Relation.missedFollows rel'
  /\ (exists more, Relation.lagTimes rel' = Relation.lagTimes rel ++ more)
  /\ (exists more, Relation.magnitudeRatios rel' = Relation.magnitudeRatios rel ++ more).



(** The ticks a sequence of activities delivers for [coin], each with
    the clock value at which it is handled, in arrival order. *)
Definition ticksOf (coin : string) (activities : list Activity) : list (float * Z) :=
  flat_map
    (fun a =>
       match a with
       | Frame (Json t) now =>
           if String.eqb (Ticker.type t) "ticker" && String.eqb (Ticker.product_id t) coin
           then [(Ticker.price t, now)]
           else []
       | _ => []
       end)
    activities.

(** The samples of a relation are lags below the window and ratios that
    are not negative. *)
Definition inBounds (rel : Relation.t) : Prop :=
  Forall (fun lag => (lag < LAG_WINDOW)%Z) (Relation.lagTimes rel)
  /\ Forall (fun ratio => PrimFloat.ltb ratio 0 = false) (Relation.magnitudeRatios rel).

(** The clock values at which the frames of a sequence of activities
    are handled. *)
Definition frameTimes (activities : list Activity) : list Z :=
  flat_map
    (fun a =>
       match a with
       | Frame _ now => [now]
       | Timer _ => []
       end)
    activities.

(** No stored event is later than [bound], and no stored lag is
    negative. *)
Definition inOrder (bound : Z) (s : Server) : Prop :=
  Forall (fun e => (LeaderEvent.timestamp e <= bound)%Z)
    (MarketData.leaderEvents (marketData s))
  /\ matrixAll (fun rel => Forall (fun lag => (0 <= lag)%Z) (Relation.lagTimes rel)) s.

(** What the batches of a list hold for [coin], one value per batch that
    has an update of the coin, in order. *)
Definition batchRecords {V : Type} (value : PriceState.t -> V) (coin : string)
  (batches : list BatchUpdate) : list V :=
  flat_map
    (fun b =>
       match JS.getProp (bu_updates b) coin with
       | Some p => [value p]
       | None => []
       end)
    batches.

(** [priceHistory] of one coin as the dashboard holds it: nothing, or
    the last thousand of the values pushed. *)
Definition seen {F : Type} (pushed : list F) : option (list F) :=
  match pushed with
  | [] => None
  | _ :: _ => Some (JS.slice_last 1000 pushed)
  end.
(* ================================================================== *)
(** * Objects and arrays *)
(* ================================================================== *)

Section ObjectFacts.

Context {V : Type}.

Lemma getProp_setProp_same (o : JS.obj V) (k : string) (v : V) :
  JS.getProp (JS.setProp o k v) k = Some v.
Proof.
  induction o as [|[k' v'] o IH]; simpl.
  - now rewrite String.eqb_refl.
  - destruct (String.eqb k' k) eqn:E; simpl; rewrite E; auto.
Qed.

Lemma getProp_setProp_other (o : JS.obj V) (k k' : string) (v : V) :
  k <> k' -> JS.getProp (JS.setProp o k v) k' = JS.getProp o k'.
Proof.
  intros Hne. induction o as [|[k0 v0] o IH]; simpl.
  - destruct (String.eqb k k') eqn:E; auto.
    apply String.eqb_eq in E. contradiction.
  - destruct (String.eqb k0 k) eqn:E; simpl.
    + apply String.eqb_eq in E. subst k0.
      destruct (String.eqb k k') eqn:E'; auto.
      apply String.eqb_eq in E'. contradiction.
    + destruct (String.eqb k0 k'); auto.
Qed.

Lemma getProp_In (o : JS.obj V) (k : string) (v : V) :
  JS.getProp o k = Some v -> In (k, v) o.
Proof.
  induction o as [|[k' v'] o IH]; simpl; [discriminate|].
  destruct (String.eqb k' k) eqn:E.
  - apply String.eqb_eq in E. intros [= ->]. subst. now left.
  - intros H. right. auto.
Qed.

Lemma In_setProp (o : JS.obj V) (k : string) (v : V) (x : string * V) :
  In x (JS.setProp o k v) -> x = (k, v) \/ In x o.
Proof.
  induction o as [|[k' v'] o IH]; simpl.
  - intros [H|[]]; auto.
  - destruct (String.eqb k' k) eqn:E; simpl.
    + apply String.eqb_eq in E. subst k'. intros [H|H]; auto.
    + intros [H|H]; auto. destruct (IH H); auto.
Qed.

Lemma Forall_setProp (P : string * V -> Prop) (o : JS.obj V) (k : string) (v : V) :
  Forall P o -> P (k, v) -> Forall P (JS.setProp o k v).
Proof.
  intros Ho Hv. apply Forall_forall. intros x Hx.
  destruct (In_setProp _ _ _ _ Hx) as [->|Hin]; auto.
  rewrite Forall_forall in Ho. auto.
Qed.

End ObjectFacts.

Section ArrayFacts.

Context {A : Type}.

Lemma slice_last_all (n : nat) (l : list A) :
  List.length l <= n -> JS.slice_last n l = l.
Proof.
  intros H. unfold JS.slice_last.
  replace (List.length l - n) with 0 by lia. reflexivity.
Qed.

Lemma slice_last_length (n : nat) (l : list A) :
  List.length (JS.slice_last n l) = Nat.min n (List.length l).
Proof. unfold JS.slice_last. rewrite length_skipn. lia. Qed.

Lemma shift_is_slice (l : list A) : JS.shift l = skipn 1 l.
Proof. now destruct l. Qed.


End ArrayFacts.

(** One step of the history as a slice: a push followed by the bounded
    shift keeps exactly the last 1000 entries. *)
Lemma storeHistory_slice (h : list float) (p : float) :
  List.length h <= HISTORY_LIMIT ->
  storeHistory h p = JS.slice_last HISTORY_LIMIT (h ++ [p]).
Proof.
  intros Hle. unfold storeHistory, JS.push.
  destruct (HISTORY_LIMIT <? List.length (h ++ [p])) eqn:E.
  - apply Nat.ltb_lt in E. rewrite length_app in E. simpl in E.
    rewrite shift_is_slice. unfold JS.slice_last. f_equal.
    rewrite length_app. simpl. lia.
  - apply Nat.ltb_ge in E. now rewrite slice_last_all.
Qed.

(* ================================================================== *)
(** * Reasoning about effects *)
(* ================================================================== *)

Lemma final_bind {A B : Type} (m : Eff A) (k : A -> Eff B) (s : Server) :
  final (bind m k s) =
  match m s with Normal a s' => final (k a s') | Throw s' => s' end.
Proof. unfold bind. now destruct (m s). Qed.

Section Preservation.

Variable P : Server -> Prop.

Lemma preserves_ret {A : Type} (a : A) : preserves P (ret a).
Proof. intros s H. exact H. Qed.

Lemma preserves_getData : preserves P getData.
Proof. intros s H. exact H. Qed.

Lemma preserves_defined {A : Type} (o : option A) : preserves P (defined o).
Proof. intros s H. unfold defined. now destruct o. Qed.

Lemma preserves_bind {A B : Type} (m : Eff A) (k : A -> Eff B) :
  preserves P m -> (forall a, preserves P (k a)) -> preserves P (bind m k).
Proof.
  intros Hm Hk s H. rewrite final_bind.
  specialize (Hm s H). destruct (m s) as [a s'|s']; simpl in Hm; auto.
  now apply Hk.
Qed.

Lemma preserves_update (f : MarketData.t -> MarketData.t) :
  (forall s, P s -> P (mkServer (f (marketData s)) (pendingUpdates s))) ->
  preserves P (update f).
Proof. intros Hf s H. simpl. auto. Qed.

Lemma preserves_queueUpdate (coin : string) (p : PriceState.t) :
  (forall s, P s -> P (mkServer (marketData s) (JS.setProp (pendingUpdates s) coin p))) ->
  preserves P (queueUpdate coin p).
Proof. intros Hf s H. simpl. auto. Qed.


(** A loop keeps what its body keeps; the body may rely on having been
    handed the element stored at its index. *)
Lemma preserves_forEachFrom (body : nat -> LeaderEvent.t -> Eff unit) :
  (forall i e s,
      nth_error (MarketData.leaderEvents (marketData s)) i = Some e ->
      P s -> P (final (body i e s))) ->
  forall n i, preserves P (forEachFrom n i body).
Proof.
  intros Hbody. induction n as [|n IH]; intros i s H; simpl.
  - exact H.
  - rewrite final_bind. simpl.
    destruct (nth_error (MarketData.leaderEvents (marketData s)) i) as [e|] eqn:E;
      [|exact H].
    rewrite final_bind. specialize (Hbody i e s E H).
    destruct (body i e s) as [[] s'|s']; simpl in Hbody; auto.
    now apply IH.
Qed.

Lemma preserves_forEachLeaderEvent (body : nat -> LeaderEvent.t -> Eff unit) :
  (forall i e s,
      nth_error (MarketData.leaderEvents (marketData s)) i = Some e ->
      P s -> P (final (body i e s))) ->
  preserves P (forEachLeaderEvent body).
Proof.
  intros Hbody. unfold forEachLeaderEvent.
  apply preserves_bind; [apply preserves_getData|intros md].
  now apply preserves_forEachFrom.
Qed.

End Preservation.

Lemma relationship_eq (leader coin : string) (s : Server) :
  relationship leader coin s =
  match JS.getProp (MarketData.causalityMatrix (marketData s)) leader with
  | Some row =>
      match JS.getProp row coin with
      | Some rel => Normal (row, rel) s
      | None => Throw s
      end
  | None => Throw s
  end.
Proof.
  unfold relationship, bind, getData, defined, ret.
  destruct (JS.getProp _ leader) as [row|]; auto.
  destruct (JS.getProp row coin); auto.
Qed.

(** What the follower check touches: the relation of the pair, the
    responses of the event at its index, and the divergence counter. *)
Lemma preserves_checkFollower (P : Server -> Prop) (coin : string) (cp : float)
  (ts : Z) (i : nat) (e : LeaderEvent.t) :
  (forall s row rel rel',
      JS.getProp (MarketData.causalityMatrix (marketData s)) (LeaderEvent.leader e) = Some row ->
      JS.getProp row coin = Some rel ->
      rel' = recordFollow rel (ts - LeaderEvent.timestamp e)
               (abs (cp / LeaderEvent.changePercent e)) \/
      rel' = recordMiss rel ->
      P s ->
      P (mkServer (storeRelation (LeaderEvent.leader e) coin row rel' (marketData s))
           (pendingUpdates s))) ->
  (forall s r, P s ->
      P (mkServer (with_leaderEvents
                     (JS.setIndex (MarketData.leaderEvents (marketData s)) i
                        (LeaderEvent.respond e coin r)) (marketData s))
           (pendingUpdates s))) ->
  (forall s, P s ->
      P (mkServer (with_statistics (countDivergence (MarketData.statistics (marketData s)))
                     (marketData s)) (pendingUpdates s))) ->
  preserves P (checkFollower coin cp ts i e).
Proof.
  intros Hrel Hev Hst s H. unfold checkFollower.
  destruct (negb _); [|exact H].
  destruct (_ && _); [|exact H].
  destruct (sameDirection _ _); unfold bind; rewrite relationship_eq;
    destruct (JS.getProp (MarketData.causalityMatrix (marketData s)) _) as [row|] eqn:Er;
    try exact H;
    (destruct (JS.getProp row coin) as [rel|] eqn:Ec; [|exact H]); simpl.
  - pose proof (Hrel s row rel _ Er Ec (or_introl eq_refl) H) as H1.
    exact (Hev _ _ H1).
  - pose proof (Hrel s row rel _ Er Ec (or_intror eq_refl) H) as H1.
    exact (Hst _ H1).
Qed.

(* ================================================================== *)
(** * The blocks of the tick pipeline *)
(* ================================================================== *)

(** An own record is what the first block reads and replaces. *)
Lemma readPrices_own (md : MarketData.t) (coin : string) (prev : PriceState.t) :
  JS.getProp (MarketData.prices md) coin = Some prev ->
  readPrices md coin = SlotRecord prev.
Proof. intros H. unfold readPrices. now rewrite H. Qed.

Lemma newEntry_own (md : MarketData.t) (coin : string) (prev : PriceState.t)
  (price : float) (ts : Z) :
  JS.getProp (MarketData.prices md) coin = Some prev ->
  newEntry md coin price ts = Some (priceUpdate prev price ts).
Proof. intros H. unfold newEntry. now rewrite (readPrices_own _ _ _ H). Qed.

Lemma writePrices_own (md : MarketData.t) (coin : string) (prev entry : PriceState.t) :
  JS.getProp (MarketData.prices md) coin = Some prev ->
  writePrices coin entry md
  = with_prices (JS.setProp (MarketData.prices md) coin entry) md.
Proof. intros H. unfold writePrices, assignsPrototype. now rewrite H. Qed.

(** What the assignment leaves alone. *)
Lemma writePrices_frame (coin : string) (entry : PriceState.t) (md : MarketData.t) :
  MarketData.priceHistory (writePrices coin entry md) = MarketData.priceHistory md
  /\ MarketData.leaderEvents (writePrices coin entry md) = MarketData.leaderEvents md
  /\ MarketData.causalityMatrix (writePrices coin entry md) = MarketData.causalityMatrix md
  /\ MarketData.statistics (writePrices coin entry md) = MarketData.statistics md.
Proof. repeat split. Qed.

Lemma writePrices_priceHistory (coin : string) (entry : PriceState.t) (md : MarketData.t) :
  MarketData.priceHistory (writePrices coin entry md) = MarketData.priceHistory md.
Proof. apply writePrices_frame. Qed.

Lemma writePrices_leaderEvents (coin : string) (entry : PriceState.t) (md : MarketData.t) :
  MarketData.leaderEvents (writePrices coin entry md) = MarketData.leaderEvents md.
Proof. apply writePrices_frame. Qed.

Lemma writePrices_causalityMatrix (coin : string) (entry : PriceState.t)
  (md : MarketData.t) :
  MarketData.causalityMatrix (writePrices coin entry md) = MarketData.causalityMatrix md.
Proof. apply writePrices_frame. Qed.

Lemma writePrices_statistics (coin : string) (entry : PriceState.t) (md : MarketData.t) :
  MarketData.statistics (writePrices coin entry md) = MarketData.statistics md.
Proof. apply writePrices_frame. Qed.

Lemma writePrices_other (coin k : string) (entry : PriceState.t) (md : MarketData.t) :
  coin <> k ->
  JS.getProp (MarketData.prices (writePrices coin entry md)) k
  = JS.getProp (MarketData.prices md) k.
Proof.
  intros Hne. unfold writePrices. cbn [MarketData.prices].
  destruct (assignsPrototype md coin); [reflexivity|].
  now apply getProp_setProp_other.
Qed.

Lemma updatePriceData_eq (coin : string) (price : float) (ts : Z) (s : Server) :
  updatePriceData coin price ts s =
  match newEntry (marketData s) coin price ts with
  | Some entry =>
      Normal (PriceState.changePercent entry)
        (mkServer (writePrices coin entry (marketData s)) (pendingUpdates s))
  | None => Throw s
  end.
Proof.
  unfold updatePriceData, bind, getData, defined, update, ret.
  now destruct (newEntry _ coin price ts).
Qed.

Lemma storePriceHistory_eq (coin : string) (price : float) (s : Server) :
  storePriceHistory coin price s =
  match JS.getProp (MarketData.priceHistory (marketData s)) coin with
  | Some h =>
      Normal tt
        (mkServer
           (with_priceHistory
              (JS.setProp (MarketData.priceHistory (marketData s)) coin
                 (storeHistory h price)) (marketData s))
           (pendingUpdates s))
  | None => Throw s
  end.
Proof.
  unfold storePriceHistory, bind, getData, defined, update.
  now destruct (JS.getProp _ coin).
Qed.

(** The tick, block by block: it throws on a coin without a price record
    or without a history, and otherwise runs to the end of whatever
    [afterHistory] does. *)
Lemma processTickerUpdate_any (t : Ticker.t) (now : Z) (s : Server) :
  processTickerUpdate t now s =
  match newEntry (marketData s) (Ticker.product_id t) (Ticker.price t) now with
  | None => Throw s
  | Some entry =>
      let s1 := mkServer (writePrices (Ticker.product_id t) entry (marketData s))
                  (pendingUpdates s) in
      match JS.getProp (MarketData.priceHistory (marketData s)) (Ticker.product_id t) with
      | None => Throw s1
      | Some h =>
          afterHistory (Ticker.product_id t) (Ticker.price t)
            (PriceState.changePercent entry) now
            (mkServer
               (with_priceHistory
                  (JS.setProp (MarketData.priceHistory (marketData s))
                     (Ticker.product_id t) (storeHistory h (Ticker.price t)))
                  (marketData s1))
               (pendingUpdates s))
      end
  end.
Proof.
  unfold processTickerUpdate. cbv zeta. unfold bind at 1.
  rewrite updatePriceData_eq.
  destruct (newEntry (marketData s) _ _ _) as [entry|]; [|reflexivity].
  unfold bind at 1. rewrite storePriceHistory_eq. cbn [marketData pendingUpdates].
  destruct (writePrices_frame (Ticker.product_id t) entry (marketData s)) as (-> & _).
  destruct (JS.getProp (MarketData.priceHistory (marketData s)) _) as [h|]; reflexivity.
Qed.

(** The tick of a coin that has a price record of its own. *)
Lemma processTickerUpdate_eq (t : Ticker.t) (now : Z) (s : Server) (prev : PriceState.t) :
  JS.getProp (MarketData.prices (marketData s)) (Ticker.product_id t) = Some prev ->
  processTickerUpdate t now s =
  let entry := priceUpdate prev (Ticker.price t) now in
  let s1 := mkServer
              (with_prices
                 (JS.setProp (MarketData.prices (marketData s))
                    (Ticker.product_id t) entry) (marketData s))
              (pendingUpdates s) in
  match JS.getProp (MarketData.priceHistory (marketData s)) (Ticker.product_id t) with
  | None => Throw s1
  | Some h =>
      afterHistory (Ticker.product_id t) (Ticker.price t)
        (PriceState.changePercent entry) now
        (mkServer
           (with_priceHistory
              (JS.setProp (MarketData.priceHistory (marketData s))
                 (Ticker.product_id t) (storeHistory h (Ticker.price t)))
              (marketData s1))
           (pendingUpdates s))
  end.
Proof.
  intros Hp. rewrite processTickerUpdate_any, (newEntry_own _ _ _ _ _ Hp).
  cbv zeta. rewrite (writePrices_own _ _ _ _ Hp). reflexivity.
Qed.

Section AfterHistory.

Variable P : Server -> Prop.
Variables (coin : string) (price cp : float) (ts : Z).

Hypothesis keeps_check :
  forall i e s,
    nth_error (MarketData.leaderEvents (marketData s)) i = Some e ->
    P s -> P (final (checkFollower coin cp ts i e s)).

Hypothesis keeps_count :
  forall s, P s ->
    P (mkServer (with_statistics (countTick (MarketData.statistics (marketData s)))
                   (marketData s)) (pendingUpdates s)).

Hypothesis keeps_queue :
  forall s p, P s ->
    P (mkServer (marketData s) (JS.setProp (pendingUpdates s) coin p)).

Lemma preserves_afterLeader : preserves P (afterLeader coin cp ts).
Proof.
  unfold afterLeader.
  apply preserves_bind; [|intros _].
  { unfold checkFollowers. now apply preserves_forEachLeaderEvent. }
  apply preserves_bind; [|intros _].
  { unfold countTotalTick. apply preserves_update. intros s' H. cbv beta. auto. }
  unfold queuePendingUpdate.
  apply preserves_bind; [apply preserves_getData|intros md].
  destruct (JS.getProp _ coin).
  - apply preserves_queueUpdate. intros s' H. auto.
  - apply preserves_ret.
Qed.

Hypothesis keeps_leader :
  forall s, isLeaderMove cp = true -> P s ->
    P (mkServer
         (with_leaderEvents
            (filter (withinWindow ts)
               (JS.push (MarketData.leaderEvents (marketData s))
                  (newLeaderEvent coin price cp ts))) (marketData s))
         (pendingUpdates s)).

Lemma preserves_afterHistory : preserves P (afterHistory coin price cp ts).
Proof.
  unfold afterHistory.
  apply preserves_bind; [|intros _; apply preserves_afterLeader].
  unfold detectLeaderEvent. destruct (isLeaderMove cp) eqn:E.
  - apply preserves_update. intros s' H. cbv beta. auto.
  - apply preserves_ret.
Qed.

End AfterHistory.

(** The blocks after the history never write a price record or a
    history. *)
Lemma afterHistory_keeps_prices (coin : string) (price cp : float) (ts : Z) (s : Server) :
  MarketData.prices (marketData (final (afterHistory coin price cp ts s)))
  = MarketData.prices (marketData s)
  /\ MarketData.priceHistory (marketData (final (afterHistory coin price cp ts s)))
     = MarketData.priceHistory (marketData s).
Proof.
  apply (preserves_afterHistory
           (fun s' => MarketData.prices (marketData s') = MarketData.prices (marketData s)
                      /\ MarketData.priceHistory (marketData s')
                         = MarketData.priceHistory (marketData s)));
    auto.
  intros i e s' _. apply preserves_checkFollower; auto.
Qed.

(* ================================================================== *)
(** * The price history *)
(* ================================================================== *)

Lemma slice_last_app {A : Type} (n : nat) (l l' : list A) :
  JS.slice_last n (JS.slice_last n l ++ l') = JS.slice_last n (l ++ l').
Proof.
  unfold JS.slice_last.
  rewrite !length_app, length_skipn.
  destruct (Nat.le_gt_cases (List.length l) n) as [Hle|Hgt].
  - replace (List.length l - n) with 0 by lia. simpl.
    now replace (List.length l - 0) with (List.length l) by lia.
  - set (k := List.length l - n).
    replace (skipn k l ++ l') with (skipn k (l ++ l')).
    + rewrite skipn_skipn. f_equal. lia.
    + rewrite skipn_app. replace (k - List.length l) with 0 by lia. reflexivity.
Qed.

(** Feeding prices one by one through [storeHistory] leaves the last
    1000 of everything that was ever pushed. *)
Lemma storeHistory_fold (ps h : list float) :
  List.length h <= HISTORY_LIMIT ->
  fold_left storeHistory ps h = JS.slice_last HISTORY_LIMIT (h ++ ps)
  /\ List.length (fold_left storeHistory ps h) <= HISTORY_LIMIT.
Proof.
  revert h. induction ps as [|p ps IH]; intros h Hle; simpl.
  - rewrite app_nil_r, slice_last_all by exact Hle. auto.
  - assert (Hs : storeHistory h p = JS.slice_last HISTORY_LIMIT (h ++ [p]))
      by now apply storeHistory_slice.
    assert (Hl : List.length (storeHistory h p) <= HISTORY_LIMIT).
    { rewrite Hs, slice_last_length. lia. }
    destruct (IH _ Hl) as [E L]. split; [|exact L].
    rewrite E, Hs, slice_last_app, <- app_assoc. reflexivity.
Qed.

Lemma final_try_catch (m : Eff unit) (s : Server) : final (try_catch m s) = final (m s).
Proof. unfold try_catch. now destruct (m s). Qed.

(** The globals after a tick, block by block. *)
Lemma processTickerUpdate_final_any (t : Ticker.t) (now : Z) (s : Server) :
  final (processTickerUpdate t now s) =
  match newEntry (marketData s) (Ticker.product_id t) (Ticker.price t) now with
  | None => s
  | Some entry =>
      let s1 := mkServer (writePrices (Ticker.product_id t) entry (marketData s))
                  (pendingUpdates s) in
      match JS.getProp (MarketData.priceHistory (marketData s)) (Ticker.product_id t) with
      | None => s1
      | Some h =>
          final (afterHistory (Ticker.product_id t) (Ticker.price t)
                   (PriceState.changePercent entry) now
                   (mkServer
                      (with_priceHistory
                         (JS.setProp (MarketData.priceHistory (marketData s))
                            (Ticker.product_id t) (storeHistory h (Ticker.price t)))
                         (marketData s1))
                      (pendingUpdates s)))
      end
  end.
Proof.
  rewrite processTickerUpdate_any.
  destruct (newEntry (marketData s) _ _ _); [|reflexivity].
  cbv zeta.
  destruct (JS.getProp (MarketData.priceHistory (marketData s)) _); reflexivity.
Qed.

Lemma processTickerUpdate_final (t : Ticker.t) (now : Z) (s : Server) (prev : PriceState.t) :
  JS.getProp (MarketData.prices (marketData s)) (Ticker.product_id t) = Some prev ->
  final (processTickerUpdate t now s) =
  let entry := priceUpdate prev (Ticker.price t) now in
  let s1 := mkServer
              (with_prices
                 (JS.setProp (MarketData.prices (marketData s))
                    (Ticker.product_id t) entry) (marketData s))
              (pendingUpdates s) in
  match JS.getProp (MarketData.priceHistory (marketData s)) (Ticker.product_id t) with
  | None => s1
  | Some h =>
      final (afterHistory (Ticker.product_id t) (Ticker.price t)
               (PriceState.changePercent entry) now
               (mkServer
                  (with_priceHistory
                     (JS.setProp (MarketData.priceHistory (marketData s))
                        (Ticker.product_id t) (storeHistory h (Ticker.price t)))
                     (marketData s1))
                  (pendingUpdates s)))
  end.
Proof.
  intros Hp. rewrite (processTickerUpdate_eq _ _ _ _ Hp). cbv zeta.
  destruct (JS.getProp (MarketData.priceHistory (marketData s)) _); reflexivity.
Qed.

(** One frame, seen from the history of one coin that has a price record
    and a history: a ticker for the coin pushes its price, anything else
    leaves the history alone. *)
Lemma step_history (s : Server) (m : Message * Z) (coin : string)
  (ps : PriceState.t) (h : list float) :
  JS.getProp (MarketData.prices (marketData s)) coin = Some ps ->
  JS.getProp (MarketData.priceHistory (marketData s)) coin = Some h ->
  (exists ps', JS.getProp (MarketData.prices (marketData (step s m))) coin = Some ps')
  /\ JS.getProp (MarketData.priceHistory (marketData (step s m))) coin
     = Some (fold_left storeHistory (arrivals coin [m]) h).
Proof.
  intros Hp Hh. destruct m as [[|t] now]; unfold step, onMessage; simpl fst; simpl snd;
    rewrite final_try_catch.
  - simpl. eauto.
  - unfold arrivals. simpl flat_map. rewrite app_nil_r.
    destruct (String.eqb (Ticker.type t) "ticker") eqn:Et; [|simpl; eauto].
    simpl andb.
    destruct (String.eqb (Ticker.product_id t) coin) eqn:Ec.
    + apply String.eqb_eq in Ec. rewrite <- Ec in Hp, Hh.
      rewrite (processTickerUpdate_final _ _ _ _ Hp). cbv zeta. rewrite Hh, <- Ec.
      match goal with |- context [final (afterHistory ?c ?p ?cp ?n ?s0)] =>
        destruct (afterHistory_keeps_prices c p cp n s0) as [-> ->] end.
      simpl. rewrite !getProp_setProp_same. eauto.
    + assert (Hne : Ticker.product_id t <> coin)
        by (intros E; rewrite E, String.eqb_refl in Ec; discriminate).
      rewrite processTickerUpdate_final_any.
      destruct (newEntry (marketData s) (Ticker.product_id t) (Ticker.price t) now)
        as [entry|]; [|simpl; eauto].
      cbv zeta.
      destruct (JS.getProp (MarketData.priceHistory (marketData s)) (Ticker.product_id t))
        as [h'|].
      * match goal with |- context [final (afterHistory ?c ?p ?cp ?n ?s0)] =>
          destruct (afterHistory_keeps_prices c p cp n s0) as [-> ->] end.
        cbn [marketData with_priceHistory MarketData.prices MarketData.priceHistory].
        rewrite (writePrices_other _ _ _ _ Hne), Hp.
        rewrite getProp_setProp_other by exact Hne. eauto.
      * cbn [marketData].
        destruct (writePrices_frame (Ticker.product_id t) entry (marketData s)) as (-> & _).
        rewrite (writePrices_other _ _ _ _ Hne), Hp. eauto.
Qed.

Lemma arrivals_cons (coin : string) (m : Message * Z) (frames : list (Message * Z)) :
  arrivals coin (m :: frames) = arrivals coin [m] ++ arrivals coin frames.
Proof. unfold arrivals. simpl. now rewrite app_nil_r. Qed.

Lemma run_cons (s : Server) (m : Message * Z) (frames : list (Message * Z)) :
  run s (m :: frames) = run (step s m) frames.
Proof. reflexivity. Qed.

Lemma run_history (frames : list (Message * Z)) (s : Server) (coin : string)
  (ps : PriceState.t) (h : list float) :
  JS.getProp (MarketData.prices (marketData s)) coin = Some ps ->
  JS.getProp (MarketData.priceHistory (marketData s)) coin = Some h ->
  JS.getProp (MarketData.priceHistory (marketData (run s frames))) coin
  = Some (fold_left storeHistory (arrivals coin frames) h).
Proof.
  revert s ps h. induction frames as [|m frames IH]; intros s ps h Hp Hh.
  - exact Hh.
  - destruct (step_history s m coin ps h Hp Hh) as [[ps' Hp'] Hh'].
    rewrite run_cons, (IH _ _ _ Hp' Hh'), (arrivals_cons coin m frames), fold_left_app.
    reflexivity.
Qed.

(** Every configured coin starts with a price record and an empty
    history. *)
Lemma initial_coin (start : Z) (coin : string) :
  In coin COINS ->
  (exists ps,
      JS.getProp (MarketData.prices (marketData (initialServer start))) coin = Some ps)
  /\ JS.getProp (MarketData.priceHistory (marketData (initialServer start))) coin = Some [].
Proof.
  intros Hin.
  assert (H : forallb
                (fun c =>
                   match JS.getProp (MarketData.prices (marketData (initialServer start))) c,
                         JS.getProp (MarketData.priceHistory (marketData (initialServer start))) c
                   with
                   | Some _, Some [] => true
                   | _, _ => false
                   end) COINS = true) by (vm_compute; reflexivity).
  rewrite forallb_forall in H. specialize (H coin Hin).
  destruct (JS.getProp (MarketData.prices _) coin) as [ps|]; [|discriminate].
  destruct (JS.getProp (MarketData.priceHistory _) coin) as [[|]|]; try discriminate.
  eauto.
Qed.

(** C5.  For every configured coin and every feed, the stored history
    has at most 1000 entries, and they are the most recent prices that
    arrived for the coin, in arrival order. *)
Theorem history_bound (start : Z) (frames : list (Message * Z)) (coin : string) :
  In coin COINS ->
  exists h,
    JS.getProp (MarketData.priceHistory (marketData (run (initialServer start) frames))) coin
    = Some h
    /\ List.length h <= 1000
    /\ h = JS.slice_last 1000 (arrivals coin frames).
Proof.
  intros Hin. destruct (initial_coin start coin Hin) as [[ps Hp] Hh].
  exists (fold_left storeHistory (arrivals coin frames) []). split.
  - exact (run_history frames _ coin _ _ Hp Hh).
  - assert (Hl : @List.length float [] <= HISTORY_LIMIT) by (simpl; lia).
    destruct (storeHistory_fold (arrivals coin frames) [] Hl) as [E L].
    split; [exact L | exact E].
Qed.

(* ================================================================== *)
(** * Invariants of the feed *)
(* ================================================================== *)

Section TickInvariant.

Variable P : Server -> Prop.
Variables (t : Ticker.t) (now : Z).

Hypothesis keeps_price :
  forall s entry,
    P s ->
    P (mkServer (writePrices (Ticker.product_id t) entry (marketData s))
         (pendingUpdates s)).

Hypothesis keeps_history :
  forall s h, P s ->
    P (mkServer
         (with_priceHistory
            (JS.setProp (MarketData.priceHistory (marketData s)) (Ticker.product_id t) h)
            (marketData s))
         (pendingUpdates s)).

Hypothesis keeps_rest :
  forall cp, preserves P (afterHistory (Ticker.product_id t) (Ticker.price t) cp now).


End TickInvariant.

(** A property every tick keeps is kept by every frame and every feed. *)
Lemma preserves_step (P : Server -> Prop) :
  (forall t now, preserves P (processTickerUpdate t now)) ->
  forall s m, P s -> P (step s m).
Proof.
  intros Htick s [[|t] now] H; unfold step, onMessage; simpl fst; simpl snd;
    rewrite final_try_catch.
  - exact H.
  - destruct (String.eqb _ _); [now apply Htick | exact H].
Qed.


(* ================================================================== *)
(** * Counters and samples *)
(* ================================================================== *)







Lemma In_relations (matrix : JS.obj (JS.obj Relation.t)) (leader follower : string)
  (rel : Relation.t) :
  In (leader, follower, rel) (relations matrix) <->
  exists row, In (leader, row) matrix /\ In (follower, rel) row.
Proof.
  unfold relations. rewrite in_flat_map. split.
  - intros [[l row] [Hrow Hin]]. simpl in Hin. rewrite in_map_iff in Hin.
    destruct Hin as [[f r] [[= -> -> ->] Hc]]. eauto.
  - intros [row [Hrow Hc]]. exists (leader, row). split; [exact Hrow|].
    simpl. rewrite in_map_iff. exists (follower, rel). auto.
Qed.


(** The sort only rearranges. *)
Lemma insert_perm {A : Type} (cmp : A -> A -> float) (x : A) (l : list A) :
  Permutation (JS.insert cmp x l) (x :: l).
Proof.
  induction l as [|y l IH]; simpl; [reflexivity|].
  destruct (JS.gt _ _); [|reflexivity].
  rewrite IH. apply perm_swap.
Qed.

Lemma sort_perm {A : Type} (cmp : A -> A -> float) (l : list A) :
  Permutation (JS.sort cmp l) l.
Proof.
  induction l as [|x l IH]; simpl; [reflexivity|].
  unfold JS.sort in *. simpl. rewrite insert_perm. now constructor.
Qed.

Lemma In_candidatePairs (threshold : Z) (md : MarketData.t) (p : Pair.t) :
  In p (candidatePairs threshold md) <->
  exists leader follower rel,
    In (leader, follower, rel) (relations (MarketData.causalityMatrix md))
    /\ qualifies threshold rel = true
    /\ p = Pair.of_relation leader follower rel.
Proof.
  unfold candidatePairs. rewrite in_map_iff. split.
  - intros [[[l f] rel] [<- Hin]]. apply filter_In in Hin. simpl in *.
    destruct Hin. eauto 6.
  - intros (l & f & rel & Hin & Hq & ->). exists (l, f, rel). split; [reflexivity|].
    apply filter_In. auto.
Qed.

(** The read handlers return without touching the globals. *)
Lemma getBestPairs_eq (q : option string) (s : Server) :
  getBestPairs q s =
  Normal
    (mkBestPairsBody
       (JS.slice_to 20
          (JS.sort byFollowRate (candidatePairs (minSampleSize q) (marketData s))))
       (List.length
          (JS.sort byFollowRate (candidatePairs (minSampleSize q) (marketData s)))))
    s.
Proof. reflexivity. Qed.

Lemma getCausalityMatrix_eq (s : Server) :
  getCausalityMatrix s =
  Normal
    (mkMatrixBody
       (map (fun row => (fst row, simplifiedRow (snd row)))
          (MarketData.causalityMatrix (marketData s)))
       (MarketData.leaderEvents (marketData s)))
    s.
Proof. reflexivity. Qed.

Lemma In_slice_to {A : Type} (n : nat) (l : list A) (x : A) :
  In x (JS.slice_to n l) -> In x l.
Proof.
  unfold JS.slice_to. revert l. induction n as [|n IH]; intros [|y l]; simpl;
    try tauto.
  intros [H|H]; auto.
Qed.

Lemma In_bestPairs (q : option string) (s : Server) (p : Pair.t) :
  In p (JS.slice_to 20
          (JS.sort byFollowRate (candidatePairs (minSampleSize q) (marketData s)))) ->
  exists leader follower rel,
    In (leader, follower, rel) (relations (MarketData.causalityMatrix (marketData s)))
    /\ qualifies (minSampleSize q) rel = true
    /\ p = Pair.of_relation leader follower rel.
Proof.
  intros Hin. apply In_slice_to in Hin.
  apply (Permutation_in _ (sort_perm _ _)) in Hin.
  now apply In_candidatePairs.
Qed.


(* ================================================================== *)
(** * The live leader events *)
(* ================================================================== *)

Lemma setIndex_keeps {A B : Type} (f : A -> B) (l : list A) (i : nat) (x : A) :
  nth_error (map f l) i = Some (f x) -> map f (JS.setIndex l i x) = map f l.
Proof.
  revert i. induction l as [|y l IH]; intros [|i]; simpl; try discriminate.
  - intros [= ->]. reflexivity.
  - intros H. f_equal. auto.
Qed.

Lemma occurrence_respond (e : LeaderEvent.t) (coin : string) (r : Response.t) :
  occurrence (LeaderEvent.respond e coin r) = occurrence e.
Proof. reflexivity. Qed.

(** The follower loop and what follows it only ever add responses to the
    stored events: no event is added, dropped or re-dated. *)
Lemma afterLeader_keeps_events (coin : string) (cp : float) (ts : Z) (s : Server) :
  map occurrence (MarketData.leaderEvents (marketData (final (afterLeader coin cp ts s))))
  = map occurrence (MarketData.leaderEvents (marketData s)).
Proof.
  set (L := map occurrence (MarketData.leaderEvents (marketData s))).
  apply (preserves_afterLeader
           (fun s' => map occurrence (MarketData.leaderEvents (marketData s')) = L));
    auto.
  intros i e s' Hnth HL.
  assert (HLi : nth_error L i = Some (occurrence e)).
  { rewrite <- HL. now apply map_nth_error. }
  refine (preserves_checkFollower
            (fun s0 => map occurrence (MarketData.leaderEvents (marketData s0)) = L)
            coin cp ts i e _ _ _ s' HL); auto.
  intros s0 r H0. simpl. rewrite <- H0. apply setIndex_keeps.
  rewrite occurrence_respond, H0. exact HLi.
Qed.

Lemma afterHistory_final (coin : string) (price cp : float) (ts : Z) (s : Server) :
  final (afterHistory coin price cp ts s) =
  final (afterLeader coin cp ts
           (if isLeaderMove cp
            then mkServer
                   (with_leaderEvents
                      (filter (withinWindow ts)
                         (JS.push (MarketData.leaderEvents (marketData s))
                            (newLeaderEvent coin price cp ts))) (marketData s))
                   (pendingUpdates s)
            else s)).
Proof.
  unfold afterHistory. rewrite final_bind. unfold detectLeaderEvent.
  now destruct (isLeaderMove cp).
Qed.

(** An event outside the window is skipped by the follower check. *)
Lemma checkFollower_expired (coin : string) (cp : float) (ts : Z) (i : nat)
  (e : LeaderEvent.t) (s : Server) :
  (LAG_WINDOW <= ts - LeaderEvent.timestamp e)%Z ->
  checkFollower coin cp ts i e s = Normal tt s.
Proof.
  intros H. unfold checkFollower.
  destruct (negb _); [|reflexivity].
  replace (ts - LeaderEvent.timestamp e <? LAG_WINDOW)%Z with false; [reflexivity|].
  symmetry. apply Z.ltb_ge. exact H.
Qed.

(** C1, as the server implements it.  A tick whose move reaches the
    leader threshold leaves no stored event as old as the lag window;
    any other tick leaves the stored events as they were, expired ones
    included, and the follower check passes over those; in both cases an
    event still inside the window stays stored. *)
Theorem prune_on_leader_ticks (t : Ticker.t) (now : Z) (s : Server)
  (prev : PriceState.t) (h : list float) :
  JS.getProp (MarketData.prices (marketData s)) (Ticker.product_id t) = Some prev ->
  JS.getProp (MarketData.priceHistory (marketData s)) (Ticker.product_id t) = Some h ->
  let changePercent := PriceState.changePercent (priceUpdate prev (Ticker.price t) now) in
  let before := MarketData.leaderEvents (marketData s) in
  let after := MarketData.leaderEvents (marketData (final (processTickerUpdate t now s))) in
  (isLeaderMove changePercent = true ->
   Forall (fun e => (now - LeaderEvent.timestamp e < LAG_WINDOW)%Z) after)
  /\ (isLeaderMove changePercent = false ->
      map occurrence after = map occurrence before)
  /\ (forall e, In e before -> (now - LeaderEvent.timestamp e < LAG_WINDOW)%Z ->
                In (occurrence e) (map occurrence after))
  /\ (forall coin cp i e s0, (LAG_WINDOW <= now - LeaderEvent.timestamp e)%Z ->
                             checkFollower coin cp now i e s0 = Normal tt s0).
Proof.
  intros Hp Hh cp before after.
  assert (E : map occurrence after
              = map occurrence
                  (if isLeaderMove cp
                   then filter (withinWindow now)
                          (JS.push before
                             (newLeaderEvent (Ticker.product_id t) (Ticker.price t) cp now))
                   else before)).
  { unfold after. rewrite (processTickerUpdate_final _ _ _ _ Hp). cbv zeta. rewrite Hh.
    rewrite afterHistory_final, afterLeader_keeps_events. fold cp.
    destruct (isLeaderMove cp); reflexivity. }
  split; [|split; [|split]].
  - intros Hl. rewrite Hl in E.
    assert (F : Forall (fun o => (now - fst (fst (fst (fst o))) < LAG_WINDOW)%Z)
                  (map occurrence after)).
    { rewrite E. apply Forall_forall. intros o Ho. rewrite in_map_iff in Ho.
      destruct Ho as [e [<- He]]. apply filter_In in He. destruct He as [_ He].
      unfold withinWindow in He. apply Z.ltb_lt in He. exact He. }
    rewrite Forall_forall in F. apply Forall_forall. intros e He.
    exact (F (occurrence e) (in_map occurrence _ _ He)).
  - intros Hl. rewrite Hl in E. exact E.
  - intros e He Hw. rewrite E. apply in_map.
    destruct (isLeaderMove cp); [|exact He].
    apply filter_In. split.
    + unfold JS.push. apply in_or_app. now left.
    + unfold withinWindow. now apply Z.ltb_lt.
  - intros coin cp0 i e s0. apply checkFollower_expired.
Qed.

(** C1 as stated fails: five minutes after BTC's leader event, a first
    ETH tick (no move, hence no pruning) leaves the event stored. *)
Lemma stale_event_after_quiet_tick :
  exists e,
    In e (MarketData.leaderEvents (marketData (run (initialServer 0) quietFeed)))
    /\ (302000 - LeaderEvent.timestamp e >= LAG_WINDOW)%Z.
Proof.
  exists (LeaderEvent.mk 2000 "BTC-USD" 103 3 pump []).
  split.
  - assert (E : MarketData.leaderEvents (marketData (run (initialServer 0) quietFeed))
                = [LeaderEvent.mk 2000 "BTC-USD" 103 3 pump []])
      by (vm_compute; reflexivity).
    rewrite E. now left.
  - vm_compute. discriminate.
Qed.

Lemma prune_on_leader_ticks_witness :
  Forall (fun e => (2000 - LeaderEvent.timestamp e < LAG_WINDOW)%Z)
    (MarketData.leaderEvents
       (marketData
          (final (processTickerUpdate (Ticker.mk "ticker" "BTC-USD" 103) 2000
                    (run (initialServer 0) [(tick "BTC-USD" 100, 1000%Z)]))))).
Proof.
  refine (proj1 (prune_on_leader_ticks (Ticker.mk "ticker" "BTC-USD" 103) 2000
                   (run (initialServer 0) [(tick "BTC-USD" 100, 1000%Z)])
                   (PriceState.mk 100 0 0 1000) [100%float] _ _) _);
    vm_compute; reflexivity.
Defined.

(* ================================================================== *)
(** * Numbers *)
(* ================================================================== *)

Open Scope float_scope.


(** A Number is not on both sides of zero. *)
Lemma lt_zero_not_gt (x : float) : JS.lt x 0 = true -> JS.gt x 0 = false.
Proof.
  unfold JS.lt, JS.gt. rewrite !ltb_spec. change (Prim2SF 0) with (S754_zero false).
  destruct (Prim2SF x) as [s|s| |s m e]; cbn; try destruct s; cbn; congruence.
Qed.

Lemma gt_zero_not_lt (x : float) : JS.gt x 0 = true -> JS.lt x 0 = false.
Proof.
  intros H. destruct (JS.lt x 0) eqn:E; [|reflexivity].
  apply lt_zero_not_gt in E. congruence.
Qed.




Close Scope float_scope.

(* ================================================================== *)
(** * Direction of a follower move *)
(* ================================================================== *)

(** Opposite moves are never counted as the same direction. *)
Lemma opposite_not_same (cp lead : float) :
  (JS.gt cp 0 = true /\ JS.lt lead 0 = true)
  \/ (JS.lt cp 0 = true /\ JS.gt lead 0 = true) ->
  sameDirection cp lead = false.
Proof.
  unfold sameDirection. intros [[H1 H2]|[H1 H2]].
  - rewrite (lt_zero_not_gt _ H2), (gt_zero_not_lt _ H1), H1. reflexivity.
  - rewrite (lt_zero_not_gt _ H1), (gt_zero_not_lt _ H2), H1. reflexivity.
Qed.

(* ================================================================== *)
(** * The price record of a tick *)
(* ================================================================== *)

Lemma zero_not_gt (x : float) : is_zero x = true -> JS.gt x 0 = false.
Proof.
  unfold is_zero, JS.gt. rewrite eqb_spec, ltb_spec.
  change (Prim2SF 0%float) with (S754_zero false).
  destruct (Prim2SF x) as [s|s| |s m e]; cbn; try destruct s; cbn; congruence.
Qed.



(* ================================================================== *)
(** * The read handlers *)
(* ================================================================== *)


Lemma getMarketPrices_eq (now : Z) (s : Server) :
  getMarketPrices now s =
  Normal (mkPricesBody now (MarketData.prices (marketData s))
            (MarketData.statistics (marketData s))) s.
Proof. reflexivity. Qed.

Lemma getMarketHistory_eq (coin : string) (s : Server) :
  getMarketHistory coin s =
  Normal
    match JS.getProp (MarketData.priceHistory (marketData s)) coin with
    | Some history => HistoryOk coin (JS.slice_last 100 history)
    | None => if JS.inherited coin then HistoryError else HistoryNotFound
    end s.
Proof.
  unfold getMarketHistory, bind, getData, ret.
  destruct (JS.getProp _ coin); [reflexivity|].
  now destruct (JS.inherited coin).
Qed.

Lemma getExportCsv_eq (toFixed : nat -> float -> string) (s : Server) :
  exists csv, getExportCsv toFixed s = Normal csv s.
Proof. eexists. reflexivity. Qed.

(** C4 as stated fails: the prices body carries the clock of the call. *)
Lemma prices_body_changes_with_clock :
  exists b1 s1 b2 s2,
    getMarketPrices 1 (initialServer 0) = Normal b1 s1
    /\ getMarketPrices 2 s1 = Normal b2 s2
    /\ b1 <> b2.
Proof.
  eexists _, _, _, _. split; [reflexivity|]. split; [reflexivity|].
  intros E. apply (f_equal pb_timestamp) in E. discriminate E.
Qed.

(** C4, as the server implements it.  A second call of a read handler
    with no tick in between returns what the first returned: the same
    history, matrix, best-pairs and CSV bodies, and a prices body with
    the same prices and statistics, whose [timestamp] is the clock of
    each call (so the same body when the clock has not moved). *)
Theorem reads_repeat :
  (forall coin, sameTwice (getMarketHistory coin))
  /\ sameTwice getCausalityMatrix
  /\ (forall minSamples, sameTwice (getBestPairs minSamples))
  /\ (forall toFixed, sameTwice (getExportCsv toFixed))
  /\ (forall now, sameTwice (getMarketPrices now))
  /\ (forall now1 now2 s, exists b1 s1 b2 s2,
         getMarketPrices now1 s = Normal b1 s1
         /\ getMarketPrices now2 s1 = Normal b2 s2
         /\ pb_prices b2 = pb_prices b1
         /\ pb_statistics b2 = pb_statistics b1
         /\ pb_timestamp b1 = now1 /\ pb_timestamp b2 = now2).
Proof.
  split; [|split; [|split; [|split; [|split]]]].
  - intros coin s. eexists _, s, s. rewrite getMarketHistory_eq. split; reflexivity.
  - intros s. eexists _, s, s. rewrite getCausalityMatrix_eq. split; reflexivity.
  - intros q s. eexists _, s, s. rewrite getBestPairs_eq. split; reflexivity.
  - intros toFixed s. destruct (getExportCsv_eq toFixed s) as [csv E].
    exists csv, s, s. split; exact E.
  - intros now s. eexists _, s, s. rewrite getMarketPrices_eq. split; reflexivity.
  - intros now1 now2 s. eexists _, s, _, s. rewrite !getMarketPrices_eq.
    repeat split.
Qed.

(* ================================================================== *)
(** * Frames the feed handler drops, and one it does not *)
(* ================================================================== *)

(** A frame that does not parse, a message of another type and a ticker
    whose [product_id] finds nothing in [marketData.prices], own or
    inherited, leave the globals untouched. *)
Lemma dropped_frames (s : Server) (now : Z) :
  step s (Unparseable, now) = s
  /\ (forall t, Ticker.type t <> "ticker"%string -> step s (Json t, now) = s)
  /\ (forall t, readPrices (marketData s) (Ticker.product_id t) = SlotUndefined ->
                step s (Json t, now) = s).
Proof.
  split; [reflexivity|split].
  - intros t Ht. unfold step, onMessage. simpl fst. simpl snd. rewrite final_try_catch.
    replace (String.eqb (Ticker.type t) "ticker") with false
      by (symmetry; now apply String.eqb_neq).
    reflexivity.
  - intros t Hp. unfold step, onMessage. simpl fst. simpl snd. rewrite final_try_catch.
    destruct (String.eqb _ _); [|reflexivity].
    rewrite processTickerUpdate_final_any. unfold newEntry. now rewrite Hp.
Qed.

(** C3 fails on a ticker of BTC-USD whose price is not a number: the
    tick is counted and NaN is stored as price, as change, in the
    history and in the pending broadcast. *)
Lemma nan_price_is_processed :
  let s := run (initialServer 0) nanFeed in
  Statistics.totalTicks (MarketData.statistics (marketData s)) = 1
  /\ JS.getProp (MarketData.prices (marketData s)) "BTC-USD"
     = Some (PriceState.mk nan nan 0 5)
  /\ JS.getProp (MarketData.priceHistory (marketData s)) "BTC-USD" = Some [nan]
  /\ JS.getProp (pendingUpdates s) "BTC-USD" = Some (PriceState.mk nan nan 0 5)
  /\ s <> initialServer 0.
Proof.
  cbv zeta. repeat split; try (vm_compute; reflexivity).
  intros E.
  apply (f_equal (fun s => Statistics.totalTicks (MarketData.statistics (marketData s)))) in E.
  vm_compute in E. discriminate E.
Qed.

(** C2 fails after a follow and a miss: the relation (BTC-USD, ETH-USD)
    has one success and one miss, its quotient is 0.5, and the stored
    [followRate], which is what the matrix snapshot and the best-pairs
    list return, is still the 1 computed at the success. *)
Lemma followRate_stale_after_miss :
  let s := run (initialServer 0) followThenMissFeed in
  exists row rel body best,
    JS.getProp (MarketData.causalityMatrix (marketData s)) "BTC-USD" = Some row
    /\ JS.getProp row "ETH-USD" = Some rel
    /\ Relation.successfulFollows rel = 1
    /\ Relation.missedFollows rel = 1
    /\ (JS.of_nat 1 / JS.of_nat (1 + 1))%float = 0.5%float
    /\ Relation.followRate rel = 1%float
    /\ getCausalityMatrix s = Normal body s
    /\ option_map (fun r => option_map Cell.followRate (JS.getProp r "ETH-USD"))
         (JS.getProp (mb_matrix body) "BTC-USD") = Some (Some 1%float)
    /\ getBestPairs (Some "2"%string) s = Normal best s
    /\ map (fun p => (Pair.leader p, Pair.follower p, Pair.followRate p,
                      Pair.successfulFollows p, Pair.missedFollows p)) (pairs best)
       = [("BTC-USD"%string, "ETH-USD"%string, 1%float, 1, 1)].
Proof.
  cbv zeta. eexists _, _, _, _.
  split; [vm_compute; reflexivity|].
  split; [vm_compute; reflexivity|].
  repeat split; vm_compute; reflexivity.
Qed.

(* ================================================================== *)
(** * The order of Numbers *)
(* ================================================================== *)

Section FloatOrder.

Open Scope Z_scope.

Lemma digits2_bounds (m : positive) :
  2 ^ (Z.pos (digits2_pos m) - 1) <= Z.pos m < 2 ^ Z.pos (digits2_pos m).
Proof.
  induction m as [m IH|m IH|]; simpl digits2_pos.
  - rewrite Pos2Z.inj_succ. replace (Z.succ (Z.pos (digits2_pos m)) - 1)
      with (Z.succ (Z.pos (digits2_pos m) - 1)) by lia.
    rewrite !Z.pow_succ_r by lia. lia.
  - rewrite Pos2Z.inj_succ. replace (Z.succ (Z.pos (digits2_pos m)) - 1)
      with (Z.succ (Z.pos (digits2_pos m) - 1)) by lia.
    rewrite !Z.pow_succ_r by lia. lia.
  - simpl. lia.
Qed.

(** What validity says of a finite Number. *)
Lemma valid_finite (s : bool) (m : positive) (e : Z) :
  valid_binary (S754_finite s m e) = true ->
  -1074 <= e <= 971 /\ Z.pos m < 2 ^ 53 /\ (-1074 < e -> 2 ^ 52 <= Z.pos m).
Proof.
  unfold valid_binary, SpecFloat.valid_binary, bounded, canonical_mantissa, fexp, emin, prec, emax.
  intros H. apply andb_prop in H. destruct H as [H1 H2].
  apply Z.eqb_eq in H1. apply Z.leb_le in H2.
  pose proof (digits2_bounds m) as [Hlo Hhi].
  set (d := Z.pos (digits2_pos m)) in *.
  assert (Hd : 1 <= d) by (unfold d; lia).
  split; [lia|]. split.
  - eapply Z.lt_le_trans; [exact Hhi|]. apply Z.pow_le_mono_r; lia.
  - intros He. assert (d = 53) by lia. subst d.
    replace 52 with (Z.pos (digits2_pos m) - 1) by lia. exact Hlo.
Qed.

Lemma finite_below_infinity (s : bool) (m : positive) (e : Z) :
  valid_binary (S754_finite s m e) = true ->
  0 < Z.pos m * 2 ^ (e + 1074) < 2 ^ 2098.
Proof.
  intros H. destruct (valid_finite _ _ _ H) as [He [Hm _]].
  assert (Hp : 0 < 2 ^ (e + 1074)) by (apply Z.pow_pos_nonneg; lia).
  split; [apply Z.mul_pos_pos; lia|].
  replace 2098 with (53 + 2045) by lia. rewrite (Z.pow_add_r 2 53 2045) by lia.
  assert (2 ^ (e + 1074) <= 2 ^ 2045) by (apply Z.pow_le_mono_r; lia).
  assert (0 < 2 ^ 53) by (apply Z.pow_pos_nonneg; lia).
  nia.
Qed.

Lemma finite_lt_by_exponent (s1 s2 : bool) (m1 m2 : positive) (e1 e2 : Z) :
  valid_binary (S754_finite s1 m1 e1) = true ->
  valid_binary (S754_finite s2 m2 e2) = true ->
  e1 < e2 ->
  Z.pos m1 * 2 ^ (e1 + 1074) < Z.pos m2 * 2 ^ (e2 + 1074).
Proof.
  intros H1 H2 He.
  destruct (valid_finite _ _ _ H1) as [He1 [Hm1 _]].
  destruct (valid_finite _ _ _ H2) as [He2 [_ Hm2]].
  specialize (Hm2 ltac:(lia)).
  replace (e2 + 1074) with ((e2 - e1) + (e1 + 1074)) by lia.
  rewrite (Z.pow_add_r 2 (e2 - e1) (e1 + 1074)) by lia.
  assert (Hp : 0 < 2 ^ (e1 + 1074)) by (apply Z.pow_pos_nonneg; lia).
  assert (Hq : 2 ^ 1 <= 2 ^ (e2 - e1)) by (apply Z.pow_le_mono_r; lia).
  change (2 ^ 1) with 2 in Hq.
  change (2 ^ 53) with (2 * 2 ^ 52) in Hm1.
  assert (0 < 2 ^ 52) by (apply Z.pow_pos_nonneg; lia).
  assert (Z.pos m1 < Z.pos m2 * 2 ^ (e2 - e1)) by nia.
  nia.
Qed.

Lemma SFcompare_ord_finite (sx sy : bool) (mx my : positive) (ex ey : Z) :
  valid_binary (S754_finite sx mx ex) = true ->
  valid_binary (S754_finite sy my ey) = true ->
  SFcompare (S754_finite sx mx ex) (S754_finite sy my ey)
  = Some (ord (S754_finite sx mx ex) ?= ord (S754_finite sy my ey)).
Proof.
  intros Vx Vy.
  pose proof (finite_below_infinity _ _ _ Vx) as Bx.
  pose proof (finite_below_infinity _ _ _ Vy) as By.
  assert (Hp : 0 < 2 ^ (ex + 1074))
    by (apply Z.pow_pos_nonneg; destruct (valid_finite _ _ _ Vx); lia).
  unfold SFcompare, ord. f_equal. symmetry.
  destruct sx, sy; cbn [cond_Zopp]; cbv iota.
  - destruct (Z.compare_spec ex ey) as [E|E|E].
    + subst ey. rewrite Pos.compare_cont_spec. cbn [Pos.switch_Eq].
      destruct (Pos.compare_spec mx my) as [E|E|E]; cbn [CompOpp];
        [apply Z.compare_eq_iff; subst; reflexivity
        |apply Z.compare_gt_iff|apply Z.compare_lt_iff];
        apply Pos2Z.pos_lt_pos in E;
        apply (Z.mul_lt_mono_pos_r _ _ _ Hp) in E; lia.
    + apply Z.compare_gt_iff.
      pose proof (finite_lt_by_exponent _ _ _ _ _ _ Vx Vy E). lia.
    + apply Z.compare_lt_iff.
      pose proof (finite_lt_by_exponent _ _ _ _ _ _ Vy Vx E). lia.
  - apply Z.compare_lt_iff. lia.
  - apply Z.compare_gt_iff. lia.
  - destruct (Z.compare_spec ex ey) as [E|E|E].
    + subst ey. rewrite Pos.compare_cont_spec. cbn [Pos.switch_Eq].
      destruct (Pos.compare_spec mx my) as [E|E|E];
        [apply Z.compare_eq_iff; subst; reflexivity
        |apply Z.compare_lt_iff|apply Z.compare_gt_iff];
        apply Pos2Z.pos_lt_pos in E;
        apply (Z.mul_lt_mono_pos_r _ _ _ Hp) in E; lia.
    + apply Z.compare_lt_iff.
      exact (finite_lt_by_exponent _ _ _ _ _ _ Vx Vy E).
    + apply Z.compare_gt_iff.
      exact (finite_lt_by_exponent _ _ _ _ _ _ Vy Vx E).
Qed.

(** On valid Numbers other than NaN the comparison is the comparison
    of their ranks. *)
Lemma SFcompare_ord (x y : spec_float) :
  valid_binary x = true -> valid_binary y = true ->
  x <> S754_nan -> y <> S754_nan ->
  SFcompare x y = Some (ord x ?= ord y).
Proof.
  intros Vx Vy Nx Ny.
  assert (I : 0 < 2 ^ 2098) by (apply Z.pow_pos_nonneg; lia).
  destruct x as [sx|sx| |sx mx ex]; [| |congruence|];
    (destruct y as [sy|sy| |sy my ey]; [| |congruence|]);
    try (now apply SFcompare_ord_finite);
    try pose proof (finite_below_infinity _ _ _ Vx) as Bx;
    try pose proof (finite_below_infinity _ _ _ Vy) as By;
    unfold SFcompare, ord; f_equal; symmetry;
    try destruct sx; try destruct sy; cbn [cond_Zopp];
    first [ reflexivity
          | apply Z.compare_lt_iff; lia
          | apply Z.compare_gt_iff; lia ].
Qed.

(** Rounding a positive integer at an exponent that is not too small
    gives a positive Number; rounding never changes the sign. *)
Lemma shr_1_half (mrs : shr_record) :
  0 <= shr_m mrs -> shr_m (shr_1 mrs) = shr_m mrs / 2.
Proof.
  destruct mrs as [m r s]. simpl shr_m at 1 3. intros Hm.
  rewrite <- Z.div2_div. unfold shr_1.
  destruct m as [|[p|p|]|p]; try reflexivity; lia.
Qed.

Lemma shr_m_iter (q : positive) (mrs : shr_record) :
  0 <= shr_m mrs -> shr_m (iter_pos shr_1 q mrs) = shr_m mrs / 2 ^ Z.pos q.
Proof.
  revert mrs. induction q as [q IH|q IH|]; intros mrs Hm; simpl iter_pos.
  - assert (H1 : 0 <= shr_m (shr_1 mrs))
      by (rewrite shr_1_half by exact Hm; apply Z.div_pos; lia).
    assert (Hq : 0 < 2 ^ Z.pos q) by (apply Z.pow_pos_nonneg; lia).
    assert (H2 : 0 <= shr_m (iter_pos shr_1 q (shr_1 mrs)))
      by (rewrite IH by exact H1; apply Z.div_pos; lia).
    rewrite IH by exact H2. rewrite IH by exact H1. rewrite shr_1_half by exact Hm.
    rewrite !Z.div_div by lia. f_equal.
    replace (Z.pos q~1) with (1 + (Z.pos q + Z.pos q)) by lia.
    rewrite (Z.pow_add_r 2 1), (Z.pow_add_r 2 (Z.pos q)) by lia.
    change (2 ^ 1) with 2. ring.
  - assert (Hq : 0 < 2 ^ Z.pos q) by (apply Z.pow_pos_nonneg; lia).
    assert (H2 : 0 <= shr_m (iter_pos shr_1 q mrs))
      by (rewrite IH by exact Hm; apply Z.div_pos; lia).
    rewrite IH by exact H2. rewrite IH by exact Hm.
    rewrite !Z.div_div by lia. f_equal.
    rewrite <- Z.pow_add_r by lia. f_equal. lia.
  - now apply shr_1_half.
Qed.

Lemma shr_m_of_loc (m : Z) (l : location) : shr_m (shr_record_of_loc m l) = m.
Proof. destruct l as [|[]]; reflexivity. Qed.

Lemma shr_fexp_pos (m e : Z) (l : location) :
  0 < m -> -1074 <= e ->
  0 < shr_m (fst (shr_fexp prec emax m e l))
  /\ -1074 <= snd (shr_fexp prec emax m e l).
Proof.
  intros Hm He. unfold shr_fexp, shr.
  destruct m as [|p|p]; try lia. simpl Zdigits2.
  pose proof (digits2_bounds p) as [Hlo _].
  set (d := Z.pos (digits2_pos p)) in *.
  assert (Hd : 1 <= d) by (unfold d; lia).
  unfold fexp, emin, prec, emax.
  destruct (Z.max (d + e - 53) (3 - 1024 - 53) - e) as [|q|q] eqn:En; simpl fst; simpl snd;
    rewrite ?shr_m_of_loc; try (split; lia).
  split; [|lia].
  rewrite shr_m_iter by (rewrite shr_m_of_loc; lia).
  rewrite shr_m_of_loc. apply Z.div_str_pos. split.
  - apply Z.pow_pos_nonneg; lia.
  - eapply Z.le_trans; [|exact Hlo]. apply Z.pow_le_mono_r; lia.
Qed.

Lemma round_nearest_even_ge (m : Z) (l : location) : m <= round_nearest_even m l.
Proof. destruct l as [|[]]; simpl; try destruct (Z.even m); lia. Qed.

Lemma binary_round_aux_pos (m e : Z) (l : location) :
  0 < m -> -1074 <= e ->
  SFltb (S754_zero false) (binary_round_aux prec emax false m e l) = true.
Proof.
  intros Hm He. unfold binary_round_aux.
  destruct (shr_fexp_pos m e l Hm He) as [H1 H2].
  destruct (shr_fexp prec emax m e l) as [mrs' e']. simpl in H1, H2.
  pose proof (round_nearest_even_ge (shr_m mrs') (loc_of_shr_record mrs')) as Hr.
  set (m1 := round_nearest_even (shr_m mrs') (loc_of_shr_record mrs')) in *.
  destruct (shr_fexp_pos m1 e' loc_Exact ltac:(lia) H2) as [H3 _].
  destruct (shr_fexp prec emax m1 e' loc_Exact) as [mrs'' e'']. simpl in H3.
  destruct (shr_m mrs'') as [|p|p]; try lia.
  destruct (e'' <=? emax - prec); reflexivity.
Qed.

Lemma binary_round_pos (p : positive) (e : Z) :
  -1074 <= e -> SFltb (S754_zero false) (binary_round prec emax false p e) = true.
Proof.
  intros He. unfold binary_round.
  destruct (shl_align p e (fexp prec emax (Z.pos (digits2_pos p) + e))) as [mz ez] eqn:E.
  apply binary_round_aux_pos; [lia|].
  unfold shl_align in E.
  destruct (fexp prec emax (Z.pos (digits2_pos p) + e) - e);
    injection E as _ <-; try exact He.
  unfold fexp, emin, prec, emax. lia.
Qed.

Lemma binary_round_neg (p : positive) (e : Z) :
  SFltb (S754_zero false) (binary_round prec emax true p e) = false.
Proof.
  unfold binary_round.
  destruct (shl_align p e (fexp prec emax (Z.pos (digits2_pos p) + e))) as [mz ez].
  unfold binary_round_aux.
  destruct (shr_fexp prec emax (Z.pos mz) ez loc_Exact) as [mrs' e'].
  destruct (shr_fexp prec emax _ e' loc_Exact) as [mrs'' e''].
  destruct (shr_m mrs''); try reflexivity.
  destruct (e'' <=? emax - prec); reflexivity.
Qed.

Lemma shl_align_value (m : positive) (e e' : Z) :
  e' <= e -> Z.pos (fst (shl_align m e e')) = Z.pos m * 2 ^ (e - e').
Proof.
  intros He. unfold shl_align.
  destruct (e' - e) as [|d|d] eqn:Ed; try lia.
  - replace (e - e') with 0 by lia. simpl. lia.
  - replace (e - e') with (Z.pos d) by lia. simpl fst. clear.
    induction d as [|d IH] using Pos.peano_ind.
    + simpl. lia.
    + rewrite Pos.iter_succ, Pos2Z.inj_xO, IH, Pos2Z.inj_succ, Z.pow_succ_r by lia.
      lia.
Qed.

(** The sign of a difference is the order of the ranks. *)
Lemma SFsub_positive (x y : spec_float) :
  valid_binary x = true -> valid_binary y = true ->
  x <> S754_nan -> y <> S754_nan ->
  SFltb (S754_zero false) (SF64sub x y) = (ord y <? ord x).
Proof.
  intros Vx Vy Nx Ny.
  assert (I : 0 < 2 ^ 2098) by (apply Z.pow_pos_nonneg; lia).
  destruct x as [sx|sx| |sx mx ex]; [| |congruence|];
    (destruct y as [sy|sy| |sy my ey]; [| |congruence|]);
    try pose proof (finite_below_infinity _ _ _ Vx) as Bx;
    try pose proof (finite_below_infinity _ _ _ Vy) as By.
  9: {
    destruct (valid_finite _ _ _ Vx) as [Hex _].
    destruct (valid_finite _ _ _ Vy) as [Hey _].
    unfold SF64sub, SFsub, ord. cbv zeta.
    set (ez := Z.min ex ey).
    rewrite !shl_align_value by (unfold ez; lia).
    assert (Hk : 0 < 2 ^ (ez + 1074)) by (apply Z.pow_pos_nonneg; unfold ez; lia).
    assert (Ex : Z.pos mx * 2 ^ (ex + 1074)
                 = Z.pos mx * 2 ^ (ex - ez) * 2 ^ (ez + 1074)).
    { rewrite <- Z.mul_assoc, <- Z.pow_add_r by (unfold ez; lia). do 2 f_equal. lia. }
    assert (Ey : Z.pos my * 2 ^ (ey + 1074)
                 = Z.pos my * 2 ^ (ey - ez) * 2 ^ (ez + 1074)).
    { rewrite <- Z.mul_assoc, <- Z.pow_add_r by (unfold ez; lia). do 2 f_equal. lia. }
    rewrite Ex, Ey.
    set (X := Z.pos mx * 2 ^ (ex - ez)).
    set (Y := Z.pos my * 2 ^ (ey - ez)).
    set (K := 2 ^ (ez + 1074)) in *.
    assert (C : forall s A, cond_Zopp s (A * K) = cond_Zopp s A * K)
      by (intros [] A; simpl; ring).
    rewrite !C.
    assert (R : (cond_Zopp sy Y * K <? cond_Zopp sx X * K)
                = (0 <? cond_Zopp sx X - cond_Zopp sy Y)).
    { destruct (Z.ltb_spec (cond_Zopp sy Y * K) (cond_Zopp sx X * K)),
        (Z.ltb_spec 0 (cond_Zopp sx X - cond_Zopp sy Y)); try reflexivity; nia. }
    rewrite R.
    destruct (cond_Zopp sx X - cond_Zopp sy Y) as [|p|p]; unfold binary_normalize.
    - reflexivity.
    - apply binary_round_pos. unfold ez. lia.
    - apply binary_round_neg. }
  all: unfold SF64sub, SFsub, ord; destruct sx; try destruct sy;
    cbn [cond_Zopp negb SFltb SFcompare];
    first [ reflexivity
          | symmetry; apply Z.ltb_lt; lia
          | symmetry; apply Z.ltb_ge; lia ].
Qed.

End FloatOrder.

(* ================================================================== *)
(** * Sorting by a Number *)
(* ================================================================== *)

Lemma compared_not_nan (c a : float) : JS.gt a c = true -> Prim2SF a <> S754_nan.
Proof.
  unfold JS.gt. rewrite ltb_spec. intros H E. rewrite E in H.
  destruct (Prim2SF c); discriminate H.
Qed.

Lemma leb_rank (a b : float) :
  Prim2SF a <> S754_nan -> Prim2SF b <> S754_nan ->
  PrimFloat.leb a b = (rank a <=? rank b)%Z.
Proof.
  intros Na Nb. unfold rank. rewrite leb_spec. unfold SFleb.
  rewrite (SFcompare_ord _ _ (Prim2SF_valid a) (Prim2SF_valid b) Na Nb).
  destruct (Z.compare_spec (ord (Prim2SF a)) (ord (Prim2SF b)));
    symmetry; [apply Z.leb_le|apply Z.leb_le|apply Z.leb_gt]; lia.
Qed.

Lemma gt_sub_rank (a b : float) :
  Prim2SF a <> S754_nan -> Prim2SF b <> S754_nan ->
  JS.gt (b - a) 0 = (rank a <? rank b)%Z.
Proof.
  intros Na Nb. unfold JS.gt, rank. rewrite ltb_spec, sub_spec.
  change (Prim2SF 0) with (S754_zero false).
  apply (SFsub_positive _ _ (Prim2SF_valid b) (Prim2SF_valid a) Nb Na).
Qed.

Section SortByKey.

Context {A : Type}.
Variable key : A -> float.

Let cmp (a b : A) : float := (key b - key a)%float.
Let descending (a b : A) : Prop := PrimFloat.leb (key b) (key a) = true.
Let numeric (a : A) : Prop := Prim2SF (key a) <> S754_nan.

Lemma insert_descending (x : A) (l : list A) :
  numeric x -> Forall numeric l ->
  StronglySorted descending l ->
  StronglySorted descending (JS.insert cmp x l).
Proof.
  intros Nx Nl Hs. induction l as [|y l IH]; simpl.
  - repeat constructor.
  - apply Forall_cons_iff in Nl. destruct Nl as [Ny Nl].
    apply StronglySorted_inv in Hs. destruct Hs as [Hs Hy].
    unfold cmp at 1. rewrite (gt_sub_rank _ _ Nx Ny).
    destruct (Z.ltb_spec (rank (key x)) (rank (key y))) as [Hlt|Hge].
    + constructor; [auto|].
      apply (Permutation_Forall (Permutation_sym (insert_perm cmp x l))).
      constructor; [|exact Hy].
      unfold descending. rewrite (leb_rank _ _ Nx Ny). apply Z.leb_le. lia.
    + constructor; [now constructor|].
      constructor.
      * unfold descending. rewrite (leb_rank _ _ Ny Nx). now apply Z.leb_le.
      * rewrite Forall_forall in *. intros z Hz.
        specialize (Hy z Hz). specialize (Nl z Hz). unfold descending in *.
        rewrite (leb_rank _ _ Nl Ny) in Hy. apply Z.leb_le in Hy.
        rewrite (leb_rank _ _ Nl Nx). apply Z.leb_le. lia.
Qed.

(** Sorting with the comparator [(a, b) => key(b) - key(a)] puts every
    element before all those whose key is smaller or equal, provided no
    key is NaN. *)
Lemma sort_descending (l : list A) :
  Forall numeric l -> StronglySorted descending (JS.sort cmp l).
Proof.
  induction l as [|x l IH]; intros Nl; unfold JS.sort; simpl.
  - constructor.
  - apply Forall_cons_iff in Nl. destruct Nl as [Nx Nl].
    apply insert_descending; auto.
    apply (Permutation_Forall (Permutation_sym (sort_perm cmp l))). exact Nl.
Qed.

End SortByKey.

(* ================================================================== *)
(** * The best-pairs list *)
(* ================================================================== *)

Lemma candidatePairs_numeric (threshold : Z) (md : MarketData.t) :
  Forall (fun p => Prim2SF (Pair.followRate p) <> S754_nan) (candidatePairs threshold md).
Proof.
  apply Forall_forall. intros p Hp. apply In_candidatePairs in Hp.
  destruct Hp as (l & f & rel & _ & Hq & ->). simpl.
  unfold qualifies in Hq. apply andb_prop in Hq. destruct Hq as [_ Hq].
  exact (compared_not_nan _ _ Hq).
Qed.

Lemma slice_to_length {A : Type} (n : nat) (l : list A) :
  List.length (JS.slice_to n l) <= n.
Proof. unfold JS.slice_to. apply firstn_le_length. Qed.

(* ================================================================== *)
(** * Instances *)
(* ================================================================== *)

Lemma history_bound_witness :
  exists h,
    JS.getProp (MarketData.priceHistory (marketData (run (initialServer 0) scenarioFeed)))
      "ETH-USD" = Some h
    /\ List.length h <= 1000
    /\ h = JS.slice_last 1000 (arrivals "ETH-USD" scenarioFeed).
Proof.
  apply (history_bound 0 scenarioFeed "ETH-USD"). right. left. reflexivity.
Defined.

(** The scenario of the specification, run on the model: one leader
    event for BTC, a success for (BTC, ETH) with lag 100 and average lag
    100, a miss for (BTC, SOL) and one divergence. *)
Example scenario_relations :
  let md := marketData (run (initialServer 0) scenarioFeed) in
  map occurrence (MarketData.leaderEvents md) = [(0%Z, "BTC-USD"%string, 103%float, 3%float, pump)]
  /\ option_map (fun row => option_map
                   (fun rel => (Relation.successfulFollows rel, Relation.missedFollows rel,
                                Relation.lagTimes rel, Relation.avgLag rel))
                   (JS.getProp row "ETH-USD"))
       (JS.getProp (MarketData.causalityMatrix md) "BTC-USD")
     = Some (Some (1, 0, [100%Z], 100%float))
  /\ option_map (fun row => option_map
                   (fun rel => (Relation.successfulFollows rel, Relation.missedFollows rel))
                   (JS.getProp row "SOL-USD"))
       (JS.getProp (MarketData.causalityMatrix md) "BTC-USD")
     = Some (Some (0, 1))
  /\ Statistics.divergenceEvents (MarketData.statistics md) = 1
  /\ Statistics.totalTicks (MarketData.statistics md) = 6.
Proof. cbv zeta. repeat split; vm_compute; reflexivity. Qed.

(* ================================================================== *)
(** * The follower check, case by case *)
(* ================================================================== *)

Lemma checkFollower_eq (coin : string) (cp : float) (ts : Z) (i : nat)
  (e : LeaderEvent.t) (s : Server) :
  checkFollower coin cp ts i e s =
  if negb (String.eqb (LeaderEvent.leader e) coin)
     && ((ts - LeaderEvent.timestamp e <? LAG_WINDOW)%Z
         && JS.ge (abs cp) FOLLOW_THRESHOLD)
  then
    match JS.getProp (MarketData.causalityMatrix (marketData s)) (LeaderEvent.leader e) with
    | None => Throw s
    | Some row =>
        match JS.getProp row coin with
        | None => Throw s
        | Some rel =>
            if sameDirection cp (LeaderEvent.changePercent e)
            then Normal tt (afterFollow coin cp ts i e row rel s)
            else Normal tt (afterMiss coin e row rel s)
        end
    end
  else Normal tt s.
Proof.
  unfold checkFollower.
  destruct (negb _); [|reflexivity].
  destruct (_ && _); [|reflexivity]. cbn [andb].
  destruct (sameDirection _ _); unfold bind; rewrite relationship_eq;
    destruct (JS.getProp (MarketData.causalityMatrix (marketData s)) _) as [row|];
    try reflexivity; destruct (JS.getProp row coin); reflexivity.
Qed.

Section FollowerRule.

Variable P : Server -> Prop.
Variables (coin : string) (cp : float) (ts : Z) (i : nat) (e : LeaderEvent.t).
Variable s : Server.

Hypothesis on_follow :
  forall row rel,
    LeaderEvent.leader e <> coin ->
    (ts - LeaderEvent.timestamp e < LAG_WINDOW)%Z ->
    JS.ge (abs cp) FOLLOW_THRESHOLD = true ->
    sameDirection cp (LeaderEvent.changePercent e) = true ->
    JS.getProp (MarketData.causalityMatrix (marketData s)) (LeaderEvent.leader e) = Some row ->
    JS.getProp row coin = Some rel ->
    P s -> P (afterFollow coin cp ts i e row rel s).

Hypothesis on_miss :
  forall row rel,
    LeaderEvent.leader e <> coin ->
    (ts - LeaderEvent.timestamp e < LAG_WINDOW)%Z ->
    JS.ge (abs cp) FOLLOW_THRESHOLD = true ->
    sameDirection cp (LeaderEvent.changePercent e) = false ->
    JS.getProp (MarketData.causalityMatrix (marketData s)) (LeaderEvent.leader e) = Some row ->
    JS.getProp row coin = Some rel ->
    P s -> P (afterMiss coin e row rel s).

(** Whatever holds before the check and survives a success and a miss
    holds after it, thrown or not. *)
Lemma checkFollower_rule :
  P s -> P (final (checkFollower coin cp ts i e s)).
Proof.
  intros H. rewrite checkFollower_eq.
  destruct (negb _) eqn:En; [|exact H].
  destruct ((ts - LeaderEvent.timestamp e <? LAG_WINDOW)%Z) eqn:El; [|exact H].
  destruct (JS.ge (abs cp) FOLLOW_THRESHOLD) eqn:Eg; [|exact H]. cbn [andb].
  assert (Hne : LeaderEvent.leader e <> coin).
  { apply String.eqb_neq. now destruct (String.eqb _ _). }
  apply Z.ltb_lt in El.
  destruct (JS.getProp (MarketData.causalityMatrix (marketData s)) _) as [row|] eqn:Er;
    [|exact H].
  destruct (JS.getProp row coin) as [rel|] eqn:Ec; [|exact H].
  destruct (sameDirection _ _) eqn:Ed; simpl; eauto.
Qed.

End FollowerRule.

(* ================================================================== *)
(** * A rule for the whole tick *)
(* ================================================================== *)

Section TickRule.

Variable P : Server -> Prop.
Variables (t : Ticker.t) (now : Z).

Let coin := Ticker.product_id t.
Let price := Ticker.price t.

Hypothesis on_price :
  forall s entry,
    newEntry (marketData s) coin price now = Some entry ->
    P s ->
    P (mkServer (writePrices coin entry (marketData s)) (pendingUpdates s)).

Hypothesis on_history :
  forall s h,
    JS.getProp (MarketData.priceHistory (marketData s)) coin = Some h ->
    P s ->
    P (mkServer
         (with_priceHistory
            (JS.setProp (MarketData.priceHistory (marketData s)) coin
               (storeHistory h price)) (marketData s))
         (pendingUpdates s)).

Hypothesis on_leader :
  forall s cp, isLeaderMove cp = true ->
    (exists h, JS.getProp (MarketData.priceHistory (marketData s)) coin = Some h) ->
    P s ->
    P (mkServer
         (with_leaderEvents
            (filter (withinWindow now)
               (JS.push (MarketData.leaderEvents (marketData s))
                  (newLeaderEvent coin price cp now))) (marketData s))
         (pendingUpdates s)).

Hypothesis on_follow :
  forall cp i e s row rel,
    nth_error (MarketData.leaderEvents (marketData s)) i = Some e ->
    LeaderEvent.leader e <> coin ->
    (now - LeaderEvent.timestamp e < LAG_WINDOW)%Z ->
    JS.ge (abs cp) FOLLOW_THRESHOLD = true ->
    sameDirection cp (LeaderEvent.changePercent e) = true ->
    JS.getProp (MarketData.causalityMatrix (marketData s)) (LeaderEvent.leader e) = Some row ->
    JS.getProp row coin = Some rel ->
    P s -> P (afterFollow coin cp now i e row rel s).

Hypothesis on_miss :
  forall cp e s row rel,
    LeaderEvent.leader e <> coin ->
    (now - LeaderEvent.timestamp e < LAG_WINDOW)%Z ->
    JS.ge (abs cp) FOLLOW_THRESHOLD = true ->
    sameDirection cp (LeaderEvent.changePercent e) = false ->
    JS.getProp (MarketData.causalityMatrix (marketData s)) (LeaderEvent.leader e) = Some row ->
    JS.getProp row coin = Some rel ->
    P s -> P (afterMiss coin e row rel s).

Hypothesis on_count :
  forall s, P s ->
    P (mkServer (with_statistics (countTick (MarketData.statistics (marketData s)))
                   (marketData s)) (pendingUpdates s)).

Hypothesis on_queue :
  forall s p, P s ->
    P (mkServer (marketData s) (JS.setProp (pendingUpdates s) coin p)).

Lemma tick_rule : preserves P (processTickerUpdate t now).
Proof.
  intros s H. rewrite processTickerUpdate_final_any. fold coin price.
  destruct (newEntry (marketData s) coin price now) as [entry|] eqn:Ep;
    [|exact H].
  cbv zeta. pose proof (on_price s entry Ep H) as H1.
  set (s1 := mkServer (writePrices coin entry (marketData s)) (pendingUpdates s)) in *.
  destruct (JS.getProp (MarketData.priceHistory (marketData s)) coin) as [h|] eqn:Eh;
    [|exact H1].
  pose proof (on_history s1 h Eh H1) as H2.
  set (known := fun s' : Server =>
                  exists h', JS.getProp (MarketData.priceHistory (marketData s')) coin
                             = Some h').
  refine (proj1 (preserves_afterHistory (fun s' => P s' /\ known s') coin price _ now
                   _ _ _ _ _ (conj H2 _))).
  - intros i e s' Hn [HP Hq]. split.
    + apply checkFollower_rule;
        [intros; eapply on_follow; eassumption
        |intros; eapply on_miss; eassumption
        |exact HP].
    + apply (checkFollower_rule known); auto.
  - intros s' [HP Hq]. split; auto.
  - intros s' p [HP Hq]. split; auto.
  - intros s' Hl [HP Hq]. split; auto.
  - unfold known, s1. simpl. rewrite getProp_setProp_same. eauto.
Qed.

End TickRule.

(* ================================================================== *)
(** * Keys *)
(* ================================================================== *)

Section KeyFacts.

Context {V : Type}.

Lemma keys_setProp (o : JS.obj V) (k : string) (v0 v : V) :
  JS.getProp o k = Some v0 -> map fst (JS.setProp o k v) = map fst o.
Proof.
  induction o as [|[k' v'] o IH]; simpl; [discriminate|].
  destruct (String.eqb k' k) eqn:E; simpl; [reflexivity|].
  intros H. f_equal. auto.
Qed.

Lemma keys_setProp_new (o : JS.obj V) (k : string) (v : V) :
  JS.getProp o k = None -> map fst (JS.setProp o k v) = map fst o ++ [k].
Proof.
  induction o as [|[k' v'] o IH]; simpl; [reflexivity|].
  destruct (String.eqb k' k) eqn:E; simpl; [discriminate|].
  intros H. f_equal. auto.
Qed.

Lemma getProp_key (o : JS.obj V) (k : string) (v : V) :
  JS.getProp o k = Some v -> In k (map fst o).
Proof. intros H. apply getProp_In in H. now apply (in_map fst) in H. Qed.

Lemma key_getProp (o : JS.obj V) (k : string) :
  In k (map fst o) -> exists v, JS.getProp o k = Some v.
Proof.
  induction o as [|[k' v'] o IH]; simpl; [tauto|].
  destruct (String.eqb k' k) eqn:E; [eauto|].
  intros [H|H]; [|auto]. subst k'. rewrite String.eqb_refl in E. discriminate.
Qed.

Lemma getProp_none (o : JS.obj V) (k : string) :
  ~ In k (map fst o) -> JS.getProp o k = None.
Proof.
  intros H. destruct (JS.getProp o k) eqn:E; [|reflexivity].
  apply getProp_key in E. contradiction.
Qed.

End KeyFacts.

Lemma fold_left_keeps {A B : Type} (P : A -> Prop) (f : A -> B -> A) (l : list B) (a : A) :
  (forall a x, P a -> P (f a x)) -> P a -> P (fold_left f l a).
Proof.
  intros Hf. revert a. induction l as [|x l IH]; intros a H; simpl; auto.
Qed.

Lemma In_others (leader coin : string) :
  In coin (others leader) <-> In coin COINS /\ leader <> coin.
Proof.
  unfold others. rewrite filter_In. split; intros [H1 H2]; split; auto.
  - intros E. subst. rewrite String.eqb_refl in H2. discriminate.
  - apply String.eqb_neq in H2. now rewrite H2.
Qed.

(* ================================================================== *)
(** * The globals after initializeData *)
(* ================================================================== *)

Lemma initialRow_empty (coin : string) :
  Forall (fun cell => snd cell = Relation.empty) (initialRow coin).
Proof.
  unfold initialRow.
  apply (fold_left_keeps
           (fun row : JS.obj Relation.t => Forall (fun cell => snd cell = Relation.empty) row));
    [|constructor].
  intros row follower H. destruct (negb _); [|exact H].
  now apply Forall_setProp.
Qed.

Lemma initializeData_relations (md : MarketData.t) :
  Forall (fun row => Forall (fun cell : string * Relation.t =>
                               snd cell = Relation.empty) (snd row))
    (MarketData.causalityMatrix md) ->
  Forall (fun row => Forall (fun cell : string * Relation.t =>
                               snd cell = Relation.empty) (snd row))
    (MarketData.causalityMatrix (initializeData md)).
Proof.
  intros H0. unfold initializeData.
  apply (fold_left_keeps
           (fun md =>
              Forall (fun row => Forall (fun cell : string * Relation.t =>
                                           snd cell = Relation.empty) (snd row))
                (MarketData.causalityMatrix md))); [|exact H0].
  intros md' coin H. cbn [MarketData.causalityMatrix with_causalityMatrix].
  apply Forall_setProp; [exact H|]. apply initialRow_empty.
Qed.

Lemma initial_relations_empty (start : Z) :
  matrixAll (fun rel => rel = Relation.empty) (initialServer start).
Proof.
  unfold matrixAll.
  change (marketData (initialServer start))
    with (initializeData (MarketData.mk [] [] [] [] (Statistics.mk 0 0 start) None)).
  apply initializeData_relations. constructor.
Qed.

Lemma matrixAll_weaken (P Q : Relation.t -> Prop) (s : Server) :
  (forall rel, P rel -> Q rel) -> matrixAll P s -> matrixAll Q s.
Proof.
  intros H. unfold matrixAll. intros HP.
  eapply Forall_impl; [|exact HP]. intros row Hrow.
  eapply Forall_impl; [|exact Hrow]. intros cell. apply H.
Qed.

Lemma initial_shaped (start : Z) : shaped (initialServer start).
Proof.
  unfold shaped.
  split; [exists []; split; [vm_compute; reflexivity|constructor]|].
  split; [vm_compute; reflexivity|].
  split; [vm_compute; reflexivity|].
  assert (H : forallb
                (fun row : string * JS.obj Relation.t =>
                   if list_eq_dec string_dec (map fst (snd row)) (others (fst row))
                   then true else false)
                (MarketData.causalityMatrix (marketData (initialServer start))) = true)
    by (vm_compute; reflexivity).
  rewrite forallb_forall in H. apply Forall_forall. intros row Hrow.
  specialize (H row Hrow). clear Hrow. cbv beta in H.
  revert H.
  match goal with
  | |- context [list_eq_dec ?d ?a ?b] => destruct (list_eq_dec d a b) as [E|E]
  end; intros H; [exact E|discriminate H].
Qed.

Lemma initial_wellFormed (start : Z) : wellFormed (initialServer start).
Proof.
  split; [apply initial_shaped|].
  assert (E : MarketData.leaderEvents (marketData (initialServer start)) = [])
    by (vm_compute; reflexivity).
  rewrite E. constructor.
Qed.

(* ================================================================== *)
(** * Invariants of the server *)
(* ================================================================== *)

Lemma final_onMessage (data : Message) (now : Z) (s : Server) :
  final (onMessage data now s) =
  match data with
  | Unparseable => s
  | Json t =>
      if String.eqb (Ticker.type t) "ticker"
      then final (processTickerUpdate t now s)
      else s
  end.
Proof.
  unfold onMessage. rewrite final_try_catch.
  destruct data as [|t]; [reflexivity|]. now destruct (String.eqb _ _).
Qed.

(** What every tick keeps, and the broadcast keeps, every activity of
    the server keeps. *)
Lemma serve_keeps (P : Server -> Prop) :
  (forall t now, preserves P (processTickerUpdate t now)) ->
  (forall s, P s -> P (mkServer (marketData s) [])) ->
  forall activities s, P s -> P (serve s activities).
Proof.
  intros Htick Htimer. induction activities as [|a l IH]; intros s H; [exact H|].
  unfold serve. simpl fold_left. apply IH. destruct a as [data now|now]; simpl.
  - now apply preserves_step.
  - unfold broadcastPending. destruct (0 <? _); simpl; auto.
Qed.

Lemma run_is_serve (s : Server) (frames : list (Message * Z)) :
  run s frames = serve s (map (fun m => Frame (fst m) (snd m)) frames).
Proof.
  revert s. induction frames as [|[data now] l IH]; intros s; [reflexivity|].
  rewrite run_cons. simpl map. unfold serve. simpl fold_left. apply IH.
Qed.

Lemma Forall_setIndex {A : Type} (P : A -> Prop) (l : list A) (i : nat) (x : A) :
  Forall P l -> P x -> Forall P (JS.setIndex l i x).
Proof.
  intros Hl Hx. revert i. induction Hl as [|y l Hy Hl IH]; intros [|i]; simpl;
    constructor; auto.
Qed.

Lemma storeRelation_shape (s : Server) (leader coin : string)
  (row : JS.obj Relation.t) (rel rel' : Relation.t) :
  JS.getProp (MarketData.causalityMatrix (marketData s)) leader = Some row ->
  JS.getProp row coin = Some rel ->
  map fst (MarketData.causalityMatrix (marketData s)) = COINS
  /\ Forall (fun r => map fst (snd r) = others (fst r))
       (MarketData.causalityMatrix (marketData s)) ->
  map fst (JS.setProp (MarketData.causalityMatrix (marketData s)) leader
             (JS.setProp row coin rel')) = COINS
  /\ Forall (fun r => map fst (snd r) = others (fst r))
       (JS.setProp (MarketData.causalityMatrix (marketData s)) leader
          (JS.setProp row coin rel')).
Proof.
  intros Hr Hc [Hk Hrows]. split.
  - now rewrite (keys_setProp _ _ _ _ Hr).
  - apply Forall_setProp; [exact Hrows|]. simpl.
    rewrite (keys_setProp _ _ _ _ Hc).
    rewrite Forall_forall in Hrows. exact (Hrows _ (getProp_In _ _ _ Hr)).
Qed.

Lemma newEntry_stray (md : MarketData.t) (coin : string) (price : float) (now : Z)
  (entry : PriceState.t) :
  newEntry md coin price now = Some entry ->
  JS.getProp (MarketData.prices md) coin = None ->
  assignsPrototype md coin = false ->
  strayName coin = true.
Proof.
  unfold newEntry, readPrices, assignsPrototype, strayName. intros H Hp. rewrite Hp in *.
  intros Ha. rewrite Ha in *. cbn [negb andb].
  destruct (JS.inherited coin); [reflexivity|]. cbn [orb].
  destruct (MarketData.pricesPrototype md); [|discriminate H].
  destruct (existsb (String.eqb coin) priceFields); [reflexivity|discriminate H].
Qed.

Lemma writePrices_keys (md : MarketData.t) (coin : string) (price : float) (now : Z)
  (entry : PriceState.t) (strays : list string) :
  newEntry md coin price now = Some entry ->
  map fst (MarketData.prices md) = COINS ++ strays ->
  Forall (fun k => strayName k = true) strays ->
  exists strays',
    map fst (MarketData.prices (writePrices coin entry md)) = COINS ++ strays'
    /\ Forall (fun k => strayName k = true) strays'.
Proof.
  intros Hn Hk Hs. unfold writePrices. cbn [MarketData.prices].
  destruct (JS.getProp (MarketData.prices md) coin) as [prev|] eqn:Hp.
  - exists strays. unfold assignsPrototype. rewrite Hp.
    rewrite (keys_setProp _ _ _ _ Hp). auto.
  - destruct (assignsPrototype md coin) eqn:Ha; [exists strays; auto|].
    exists (strays ++ [coin]). rewrite (keys_setProp_new _ _ _ Hp), Hk, app_assoc.
    split; [reflexivity|]. apply Forall_app. split; [exact Hs|].
    constructor; [|constructor]. exact (newEntry_stray _ _ _ _ _ Hn Hp Ha).
Qed.

Lemma shaped_writePrices (s : Server) (coin : string) (price : float) (now : Z)
  (entry : PriceState.t) :
  newEntry (marketData s) coin price now = Some entry ->
  shaped s ->
  shaped (mkServer (writePrices coin entry (marketData s)) (pendingUpdates s)).
Proof.
  intros Hn ((strays & Hk & Hs) & H2 & H3 & H4). unfold shaped.
  cbn [marketData]. split; [exact (writePrices_keys _ _ _ _ _ _ Hn Hk Hs)|].
  now rewrite writePrices_priceHistory, writePrices_causalityMatrix.
Qed.

Lemma shaped_tick (t : Ticker.t) (now : Z) : preserves shaped (processTickerUpdate t now).
Proof.
  apply tick_rule; try (unfold shaped; simpl; tauto).
  - intros s entry Hn. now apply (shaped_writePrices _ _ _ _ _ Hn).
  - intros s h Hh (H1 & H2 & H3 & H4). unfold shaped. simpl.
    rewrite (keys_setProp _ _ _ _ Hh). auto.
  - intros cp i e s row rel _ _ _ _ _ Hr Hc (H1 & H2 & H3 & H4).
    destruct (storeRelation_shape s _ _ _ _
                (recordFollow rel (now - LeaderEvent.timestamp e)
                   (abs (cp / LeaderEvent.changePercent e))) Hr Hc (conj H3 H4)).
    unfold shaped. simpl. auto.
  - intros cp e s row rel _ _ _ _ Hr Hc (H1 & H2 & H3 & H4).
    destruct (storeRelation_shape s _ _ _ _ (recordMiss rel) Hr Hc (conj H3 H4)).
    unfold shaped. simpl. auto.
Qed.

Lemma eventOk_new (coin : string) (price cp : float) (now : Z) :
  In coin COINS -> isLeaderMove cp = true -> eventOk (newLeaderEvent coin price cp now).
Proof. intros Hc Hl. unfold eventOk, newLeaderEvent. simpl. auto. Qed.

Lemma eventOk_respond (e : LeaderEvent.t) (coin : string) (r : Response.t) :
  eventOk e -> responseOk e (coin, r) -> eventOk (LeaderEvent.respond e coin r).
Proof.
  intros (H1 & H2 & H3 & H4) Hr. unfold eventOk. simpl. repeat split; auto.
  apply Forall_setProp; [exact H4|exact Hr].
Qed.

Lemma wellFormed_tick (t : Ticker.t) (now : Z) :
  preserves wellFormed (processTickerUpdate t now).
Proof.
  intros s [Hs He]. split; [now apply shaped_tick|].
  revert He. revert s Hs.
  assert (R : preserves (fun s => shaped s /\ Forall eventOk (MarketData.leaderEvents (marketData s)))
                (processTickerUpdate t now)).
  { apply tick_rule.
    - intros s entry Hn [Hs He]. split; [now apply (shaped_writePrices _ _ _ _ _ Hn)|].
      cbn [marketData]. now rewrite writePrices_leaderEvents.
    - intros s h Hh [Hs He]. split; [|exact He].
      destruct Hs as (H1 & H2 & H3 & H4). unfold shaped. simpl.
      rewrite (keys_setProp _ _ _ _ Hh). auto.
    - intros s cp Hl [p Hp] [Hs He]. split; [exact Hs|]. simpl.
      apply Forall_forall. intros e Hin. apply filter_In in Hin. destruct Hin as [Hin _].
      unfold JS.push in Hin. apply in_app_or in Hin. destruct Hin as [Hin|[<-|[]]].
      + rewrite Forall_forall in He. auto.
      + apply eventOk_new; [|exact Hl].
        destruct Hs as (_ & H2 & _). rewrite <- H2. exact (getProp_key _ _ _ Hp).
    - intros cp i e s row rel Hn Hne Hlag Hge Hsd Hr Hc [Hs He]. split.
      + destruct Hs as (H1 & H2 & H3 & H4). unfold shaped. simpl.
        destruct (storeRelation_shape s _ _ _ _
                    (recordFollow rel (now - LeaderEvent.timestamp e)
                       (abs (cp / LeaderEvent.changePercent e))) Hr Hc (conj H3 H4)).
        auto.
      + simpl. apply Forall_setIndex; [exact He|].
        apply eventOk_respond.
        * rewrite Forall_forall in He. exact (He _ (nth_error_In _ _ Hn)).
        * unfold responseOk. simpl. repeat split; auto.
    - intros cp e s row rel Hne Hlag Hge Hsd Hr Hc [Hs He]. split; [|exact He].
      destruct Hs as (H1 & H2 & H3 & H4). unfold shaped. simpl.
      destruct (storeRelation_shape s _ _ _ _ (recordMiss rel) Hr Hc (conj H3 H4)). auto.
    - intros s H. exact H.
    - intros s p H. exact H. }
  intros s Hs He. exact (proj2 (R s (conj Hs He))).
Qed.

Lemma wellFormed_serve (start : Z) (activities : list Activity) :
  wellFormed (serve (initialServer start) activities).
Proof.
  apply serve_keeps; [exact wellFormed_tick| |apply initial_wellFormed].
  intros s H. exact H.
Qed.

(** A property of relations that a success and a miss keep holds of
    every relation, whatever the server has been through. *)
Lemma matrixAll_tick (P : Relation.t -> Prop) (t : Ticker.t) (now : Z) :
  (forall rel lag ratio, P rel -> P (recordFollow rel lag ratio)) ->
  (forall rel, P rel -> P (recordMiss rel)) ->
  preserves (matrixAll P) (processTickerUpdate t now).
Proof.
  intros Hf Hm.
  assert (R : forall s leader coin row rel rel',
             JS.getProp (MarketData.causalityMatrix (marketData s)) leader = Some row ->
             JS.getProp row coin = Some rel ->
             (P rel -> P rel') ->
             matrixAll P s ->
             Forall (fun r => Forall (fun cell => P (snd cell)) (snd r))
               (JS.setProp (MarketData.causalityMatrix (marketData s)) leader
                  (JS.setProp row coin rel'))).
  { intros s leader coin row rel rel' Hr Hc Hrel HP. unfold matrixAll in HP.
    pose proof HP as HP'. rewrite Forall_forall in HP'.
    pose proof (HP' _ (getProp_In _ _ _ Hr)) as Hrow. simpl in Hrow.
    apply Forall_setProp; [exact HP|]. simpl.
    apply Forall_setProp; [exact Hrow|]. simpl. apply Hrel.
    rewrite Forall_forall in Hrow. exact (Hrow _ (getProp_In _ _ _ Hc)). }
  apply tick_rule; unfold matrixAll; simpl; auto.
  - intros cp i e s row rel _ _ _ _ _ Hr Hc HP. eapply R; eauto.
  - intros cp e s row rel _ _ _ _ Hr Hc HP. eapply R; eauto.
Qed.

Lemma matrixAll_serve (P : Relation.t -> Prop) (start : Z) (activities : list Activity) :
  P Relation.empty ->
  (forall rel lag ratio, P rel -> P (recordFollow rel lag ratio)) ->
  (forall rel, P rel -> P (recordMiss rel)) ->
  matrixAll P (serve (initialServer start) activities).
Proof.
  intros H0 Hf Hm. apply serve_keeps.
  - intros t now. now apply matrixAll_tick.
  - intros s H. exact H.
  - eapply matrixAll_weaken; [|apply initial_relations_empty].
    intros rel ->. exact H0.
Qed.

Lemma matrixAll_relationOf (P : Relation.t -> Prop) (s : Server)
  (leader follower : string) (rel : Relation.t) :
  matrixAll P s -> relationOf s leader follower = Some rel -> P rel.
Proof.
  unfold matrixAll, relationOf. intros HP H.
  destruct (JS.getProp (MarketData.causalityMatrix (marketData s)) leader) as [row|] eqn:Er;
    [|discriminate].
  rewrite Forall_forall in HP. pose proof (HP _ (getProp_In _ _ _ Er)) as Hrow.
  simpl in Hrow. rewrite Forall_forall in Hrow. exact (Hrow _ (getProp_In _ _ _ H)).
Qed.

(* ================================================================== *)
(** * Ticks that complete *)
(* ================================================================== *)

Section FollowersRule.

Variable P : Server -> Prop.
Variables (coin : string) (cp : float) (ts : Z).

Hypothesis on_follow :
  forall i e s row rel,
    nth_error (MarketData.leaderEvents (marketData s)) i = Some e ->
    LeaderEvent.leader e <> coin ->
    (ts - LeaderEvent.timestamp e < LAG_WINDOW)%Z ->
    JS.ge (abs cp) FOLLOW_THRESHOLD = true ->
    sameDirection cp (LeaderEvent.changePercent e) = true ->
    JS.getProp (MarketData.causalityMatrix (marketData s)) (LeaderEvent.leader e) = Some row ->
    JS.getProp row coin = Some rel ->
    P s -> P (afterFollow coin cp ts i e row rel s).

Hypothesis on_miss :
  forall e s row rel,
    LeaderEvent.leader e <> coin ->
    (ts - LeaderEvent.timestamp e < LAG_WINDOW)%Z ->
    JS.ge (abs cp) FOLLOW_THRESHOLD = true ->
    sameDirection cp (LeaderEvent.changePercent e) = false ->
    JS.getProp (MarketData.causalityMatrix (marketData s)) (LeaderEvent.leader e) = Some row ->
    JS.getProp row coin = Some rel ->
    P s -> P (afterMiss coin e row rel s).

Lemma checkFollowers_rule : preserves P (checkFollowers coin cp ts).
Proof.
  unfold checkFollowers. apply preserves_forEachLeaderEvent.
  intros i e s Hn H. apply checkFollower_rule; eauto.
Qed.

End FollowersRule.

Lemma wellFormed_relation (s : Server) (leader coin : string) :
  wellFormed s -> In leader COINS -> In coin COINS -> leader <> coin ->
  exists row rel,
    JS.getProp (MarketData.causalityMatrix (marketData s)) leader = Some row
    /\ JS.getProp row coin = Some rel.
Proof.
  intros [(_ & _ & Hk & Hrows) _] Hl Hc Hne.
  rewrite <- Hk in Hl. destruct (key_getProp _ _ Hl) as [row Hr].
  rewrite Forall_forall in Hrows. pose proof (Hrows _ (getProp_In _ _ _ Hr)) as Hrow.
  simpl in Hrow.
  assert (Hin : In coin (map fst row)) by (rewrite Hrow; now apply In_others).
  destruct (key_getProp _ _ Hin) as [rel Hrel]. eauto.
Qed.

Lemma wellFormed_checkFollowers (coin : string) (cp : float) (ts : Z) :
  preserves wellFormed (checkFollowers coin cp ts).
Proof.
  apply checkFollowers_rule.
  - intros i e s row rel Hn Hne Hlag Hge Hsd Hr Hc [Hs He]. split.
    + destruct Hs as (H1 & H2 & H3 & H4). unfold shaped. simpl.
      destruct (storeRelation_shape s _ _ _ _
                  (recordFollow rel (ts - LeaderEvent.timestamp e)
                     (abs (cp / LeaderEvent.changePercent e))) Hr Hc (conj H3 H4)).
      auto.
    + simpl. apply Forall_setIndex; [exact He|].
      apply eventOk_respond.
      * rewrite Forall_forall in He. exact (He _ (nth_error_In _ _ Hn)).
      * unfold responseOk. simpl. repeat split; auto.
  - intros e s row rel Hne Hlag Hge Hsd Hr Hc [Hs He]. split; [|exact He].
    destruct Hs as (H1 & H2 & H3 & H4). unfold shaped. simpl.
    destruct (storeRelation_shape s _ _ _ _ (recordMiss rel) Hr Hc (conj H3 H4)). auto.
Qed.

Lemma checkFollower_completes (coin : string) (cp : float) (ts : Z) (i : nat)
  (e : LeaderEvent.t) (s : Server) :
  wellFormed s -> In coin COINS ->
  nth_error (MarketData.leaderEvents (marketData s)) i = Some e ->
  exists s', checkFollower coin cp ts i e s = Normal tt s'.
Proof.
  intros Hw Hc Hn. rewrite checkFollower_eq.
  destruct (negb _) eqn:En; [|eexists; reflexivity]. cbn [andb].
  destruct (_ && _); [|eexists; reflexivity].
  assert (Hne : LeaderEvent.leader e <> coin).
  { apply String.eqb_neq. now destruct (String.eqb _ _). }
  assert (Hl : In (LeaderEvent.leader e) COINS).
  { destruct Hw as [_ He]. rewrite Forall_forall in He.
    exact (proj1 (He _ (nth_error_In _ _ Hn))). }
  destruct (wellFormed_relation s _ _ Hw Hl Hc Hne) as (row & rel & Hr & Hrel).
  rewrite Hr, Hrel. destruct (sameDirection _ _); eexists; reflexivity.
Qed.

Lemma wellFormed_checkFollower (coin : string) (cp : float) (ts : Z) (i : nat)
  (e : LeaderEvent.t) (s : Server) :
  nth_error (MarketData.leaderEvents (marketData s)) i = Some e ->
  wellFormed s -> wellFormed (final (checkFollower coin cp ts i e s)).
Proof.
  intros Hn. apply checkFollower_rule.
  - intros row rel Hne Hlag Hge Hsd Hr Hc [Hs He]. split.
    + destruct Hs as (H1 & H2 & H3 & H4). unfold shaped. simpl.
      destruct (storeRelation_shape s _ _ _ _
                  (recordFollow rel (ts - LeaderEvent.timestamp e)
                     (abs (cp / LeaderEvent.changePercent e))) Hr Hc (conj H3 H4)).
      auto.
    + simpl. apply Forall_setIndex; [exact He|].
      apply eventOk_respond.
      * rewrite Forall_forall in He. exact (He _ (nth_error_In _ _ Hn)).
      * unfold responseOk. simpl. repeat split; auto.
  - intros row rel Hne Hlag Hge Hsd Hr Hc [Hs He]. split; [|exact He].
    destruct Hs as (H1 & H2 & H3 & H4). unfold shaped. simpl.
    destruct (storeRelation_shape s _ _ _ _ (recordMiss rel) Hr Hc (conj H3 H4)). auto.
Qed.

Lemma forEachFrom_completes (coin : string) (cp : float) (ts : Z) (n i : nat) (s : Server) :
  wellFormed s -> In coin COINS ->
  exists s', forEachFrom n i (checkFollower coin cp ts) s = Normal tt s'.
Proof.
  intros Hw Hc. revert i s Hw. induction n as [|n IH]; intros i s Hw; simpl;
    [eexists; reflexivity|].
  unfold bind at 1. unfold getData at 1.
  destruct (nth_error (MarketData.leaderEvents (marketData s)) i) as [e|] eqn:Hn;
    [|eexists; reflexivity].
  destruct (checkFollower_completes coin cp ts i e s Hw Hc Hn) as [s' E].
  pose proof (wellFormed_checkFollower coin cp ts i e s Hn Hw) as Hw'.
  unfold bind. rewrite E in *. simpl in Hw'. now apply IH.
Qed.

Lemma checkFollowers_completes (coin : string) (cp : float) (ts : Z) (s : Server) :
  wellFormed s -> In coin COINS ->
  exists s', checkFollowers coin cp ts s = Normal tt s'.
Proof.
  intros Hw Hc. unfold checkFollowers, forEachLeaderEvent.
  unfold bind, getData. now apply forEachFrom_completes.
Qed.

(** What the follower loop never writes. *)
Lemma checkFollowers_frame (coin : string) (cp : float) (ts : Z) (s : Server) :
  let s' := final (checkFollowers coin cp ts s) in
  MarketData.prices (marketData s') = MarketData.prices (marketData s)
  /\ MarketData.priceHistory (marketData s') = MarketData.priceHistory (marketData s)
  /\ pendingUpdates s' = pendingUpdates s
  /\ Statistics.totalTicks (MarketData.statistics (marketData s'))
     = Statistics.totalTicks (MarketData.statistics (marketData s))
  /\ Statistics.startTime (MarketData.statistics (marketData s'))
     = Statistics.startTime (MarketData.statistics (marketData s))
  /\ map occurrence (MarketData.leaderEvents (marketData s'))
     = map occurrence (MarketData.leaderEvents (marketData s)).
Proof.
  cbv zeta.
  apply (checkFollowers_rule
           (fun s' =>
              MarketData.prices (marketData s') = MarketData.prices (marketData s)
              /\ MarketData.priceHistory (marketData s')
                 = MarketData.priceHistory (marketData s)
              /\ pendingUpdates s' = pendingUpdates s
              /\ Statistics.totalTicks (MarketData.statistics (marketData s'))
                 = Statistics.totalTicks (MarketData.statistics (marketData s))
              /\ Statistics.startTime (MarketData.statistics (marketData s'))
                 = Statistics.startTime (MarketData.statistics (marketData s))
              /\ map occurrence (MarketData.leaderEvents (marketData s'))
                 = map occurrence (MarketData.leaderEvents (marketData s))));
    simpl; auto 10.
  intros i e s0 row rel Hn _ _ _ _ _ _ (H1 & H2 & H3 & H4 & H5 & H6).
  repeat (split; [assumption|]).
  rewrite <- H6. apply setIndex_keeps. rewrite occurrence_respond.
  now apply map_nth_error.
Qed.

Lemma detected_prices (t : Ticker.t) (now : Z) (prev : PriceState.t) (h : list float)
  (s : Server) :
  MarketData.prices (marketData (detected t now prev h s))
  = JS.setProp (MarketData.prices (marketData s)) (Ticker.product_id t)
      (priceUpdate prev (Ticker.price t) now)
  /\ MarketData.priceHistory (marketData (detected t now prev h s))
     = JS.setProp (MarketData.priceHistory (marketData s)) (Ticker.product_id t)
         (storeHistory h (Ticker.price t))
  /\ MarketData.causalityMatrix (marketData (detected t now prev h s))
     = MarketData.causalityMatrix (marketData s)
  /\ MarketData.statistics (marketData (detected t now prev h s))
     = MarketData.statistics (marketData s)
  /\ pendingUpdates (detected t now prev h s) = pendingUpdates s.
Proof. unfold detected. cbv zeta. destruct (isLeaderMove _); simpl; auto. Qed.

Lemma shaped_price (s : Server) (coin : string) :
  shaped s -> In coin COINS ->
  exists prev, JS.getProp (MarketData.prices (marketData s)) coin = Some prev.
Proof.
  intros ((strays & Hk & _) & _) Hc. apply key_getProp. rewrite Hk.
  apply in_or_app. now left.
Qed.

Lemma wellFormed_detected (t : Ticker.t) (now : Z) (prev : PriceState.t) (h : list float)
  (s : Server) :
  JS.getProp (MarketData.prices (marketData s)) (Ticker.product_id t) = Some prev ->
  JS.getProp (MarketData.priceHistory (marketData s)) (Ticker.product_id t) = Some h ->
  wellFormed s -> wellFormed (detected t now prev h s).
Proof.
  intros Hp Hh [(H1 & H2 & H3 & H4) He].
  destruct (detected_prices t now prev h s) as (E1 & E2 & E3 & _).
  split.
  - unfold shaped. rewrite E1, E2, E3.
    rewrite (keys_setProp _ _ _ _ Hp), (keys_setProp _ _ _ _ Hh). auto.
  - unfold detected. cbv zeta. destruct (isLeaderMove _) eqn:El; simpl; [|exact He].
    apply Forall_forall. intros e Hin. apply filter_In in Hin. destruct Hin as [Hin _].
    unfold JS.push in Hin. apply in_app_or in Hin. destruct Hin as [Hin|[<-|[]]].
    + rewrite Forall_forall in He. auto.
    + apply eventOk_new; [|exact El]. rewrite <- H2. exact (getProp_key _ _ _ Hh).
Qed.

(** A tick of a configured coin on well-formed globals runs to its end:
    the first three blocks, the follower loop from there, the counter
    and the queued update. *)
Lemma tick_completes (t : Ticker.t) (now : Z) (s : Server) :
  wellFormed s -> In (Ticker.product_id t) COINS ->
  exists prev h s3,
    JS.getProp (MarketData.prices (marketData s)) (Ticker.product_id t) = Some prev
    /\ JS.getProp (MarketData.priceHistory (marketData s)) (Ticker.product_id t) = Some h
    /\ checkFollowers (Ticker.product_id t)
         (PriceState.changePercent (priceUpdate prev (Ticker.price t) now)) now
         (detected t now prev h s) = Normal tt s3
    /\ processTickerUpdate t now s
       = Normal tt
           (mkServer
              (with_statistics (countTick (MarketData.statistics (marketData s3)))
                 (marketData s3))
              (JS.setProp (pendingUpdates s) (Ticker.product_id t)
                 (priceUpdate prev (Ticker.price t) now))).
Proof.
  intros Hw Hc.
  assert (Hp : exists prev, JS.getProp (MarketData.prices (marketData s))
                              (Ticker.product_id t) = Some prev).
  { exact (shaped_price s _ (proj1 Hw) Hc). }
  assert (Hh : exists h, JS.getProp (MarketData.priceHistory (marketData s))
                           (Ticker.product_id t) = Some h).
  { apply key_getProp. destruct Hw as [(_ & H2 & _) _]. now rewrite H2. }
  destruct Hp as [prev Hp]. destruct Hh as [h Hh]. exists prev, h.
  set (cp := PriceState.changePercent (priceUpdate prev (Ticker.price t) now)).
  pose proof (wellFormed_detected t now prev h s Hp Hh Hw) as Hd.
  destruct (checkFollowers_completes (Ticker.product_id t) cp now _ Hd Hc) as [s3 E3].
  exists s3. split; [exact Hp|]. split; [exact Hh|]. split; [exact E3|].
  rewrite (processTickerUpdate_eq _ _ _ _ Hp). cbv zeta. rewrite Hh. fold cp.
  unfold afterHistory. unfold bind at 1.
  assert (Ed : detectLeaderEvent (Ticker.product_id t) (Ticker.price t) cp now
                 (mkServer
                    (with_priceHistory
                       (JS.setProp (MarketData.priceHistory (marketData s))
                          (Ticker.product_id t) (storeHistory h (Ticker.price t)))
                       (marketData
                          (mkServer
                             (with_prices
                                (JS.setProp (MarketData.prices (marketData s))
                                   (Ticker.product_id t)
                                   (priceUpdate prev (Ticker.price t) now)) (marketData s))
                             (pendingUpdates s))))
                    (pendingUpdates s))
               = Normal tt (detected t now prev h s)).
  { unfold detectLeaderEvent, detected. cbv zeta. fold cp.
    destruct (isLeaderMove cp); reflexivity. }
  rewrite Ed. unfold afterLeader. unfold bind at 1. rewrite E3.
  unfold bind at 1. unfold countTotalTick at 1. unfold update at 1.
  unfold queuePendingUpdate, bind, getData. cbn [marketData pendingUpdates].
  pose proof (checkFollowers_frame (Ticker.product_id t) cp now (detected t now prev h s))
    as F. cbv zeta in F. rewrite E3 in F. simpl final in F.
  destruct F as (F1 & _ & F3 & _).
  destruct (detected_prices t now prev h s) as (D1 & _ & _ & _ & D5).
  cbn [MarketData.prices with_statistics].
  rewrite F1, D1, getProp_setProp_same. unfold queueUpdate.
  cbn [marketData pendingUpdates]. rewrite F3, D5. reflexivity.
Qed.

(* ================================================================== *)
(** * The shape of the globals *)
(* ================================================================== *)

Lemma shaped_relationOf (s : Server) (leader follower : string) :
  shaped s ->
  (relationOf s leader follower <> None
   <-> In leader COINS /\ In follower COINS /\ leader <> follower).
Proof.
  intros (_ & _ & Hk & Hrows). unfold relationOf. split.
  - destruct (JS.getProp (MarketData.causalityMatrix (marketData s)) leader) as [row|] eqn:Er;
      [|congruence].
    intros H. destruct (JS.getProp row follower) as [rel|] eqn:Ef; [|congruence].
    rewrite Forall_forall in Hrows. pose proof (Hrows _ (getProp_In _ _ _ Er)) as Hrow.
    simpl in Hrow. apply getProp_key in Ef. rewrite Hrow in Ef.
    apply In_others in Ef. split; [|tauto].
    rewrite <- Hk. exact (getProp_key _ _ _ Er).
  - intros (Hl & Hf & Hne). rewrite <- Hk in Hl.
    destruct (key_getProp _ _ Hl) as [row Hr]. rewrite Hr.
    rewrite Forall_forall in Hrows. pose proof (Hrows _ (getProp_In _ _ _ Hr)) as Hrow.
    simpl in Hrow.
    assert (Hin : In follower (map fst row)) by (rewrite Hrow; now apply In_others).
    destruct (key_getProp _ _ Hin) as [rel Hrel]. congruence.
Qed.

Lemma keys_getProp_iff {V : Type} (o : JS.obj V) (k : string) :
  JS.getProp o k <> None <-> In k (map fst o).
Proof.
  split.
  - destruct (JS.getProp o k) eqn:E; [|congruence]. intros _. exact (getProp_key _ _ _ E).
  - intros H. destruct (key_getProp _ _ H) as [v E]. congruence.
Qed.

Lemma length_relations (matrix : JS.obj (JS.obj Relation.t)) :
  List.length (relations matrix)
  = list_sum (map (fun row => List.length (snd row)) matrix).
Proof.
  unfold relations. induction matrix as [|row m IH]; simpl; [reflexivity|].
  now rewrite length_app, length_map, IH.
Qed.

(** X1.  Whatever frames and timers the server has handled, the
    histories are those of the configured coins and the matrix holds a
    relation for exactly the ordered pairs of two different configured
    coins: nothing is added to them or removed from them after
    [initializeData].  The price records are those of the configured
    coins, in configuration order, followed at most by records stored
    under names that line 171 read through the prototype chain. *)
Theorem matrix_stays_dense (start : Z) (activities : list Activity) :
  let s := serve (initialServer start) activities in
  (exists strays,
      map fst (MarketData.prices (marketData s)) = COINS ++ strays
      /\ Forall (fun k => strayName k = true) strays)
  /\ (forall coin,
         JS.getProp (MarketData.priceHistory (marketData s)) coin <> None <-> In coin COINS)
  /\ (forall leader follower,
         relationOf s leader follower <> None
         <-> In leader COINS /\ In follower COINS /\ leader <> follower)
  /\ List.length (relations (MarketData.causalityMatrix (marketData s)))
     = List.length COINS * (List.length COINS - 1).
Proof.
  intros s. destruct (wellFormed_serve start activities) as [Hs _]. fold s in Hs.
  pose proof Hs as (H1 & H2 & H3 & H4).
  split; [|split; [|split]].
  - exact H1.
  - intros coin. rewrite keys_getProp_iff, H2. tauto.
  - intros leader follower. now apply shaped_relationOf.
  - rewrite length_relations.
    transitivity (list_sum (map (fun c => List.length (others c)) COINS));
      [|vm_compute; reflexivity].
    f_equal. rewrite <- H3, map_map. apply map_ext_in. intros row Hrow.
    rewrite Forall_forall in H4. cbv beta.
    transitivity (List.length (map fst (snd row))); [symmetry; apply length_map|].
    exact (f_equal (@List.length string) (H4 row Hrow)).
Qed.

(* ================================================================== *)
(** * Which frames count *)
(* ================================================================== *)

Lemma configuredTicker_true (data : Message) (now : Z) :
  configuredTicker (data, now) = true ->
  exists t, data = Json t /\ Ticker.type t = "ticker"%string /\ In (Ticker.product_id t) COINS.
Proof.
  unfold configuredTicker. simpl fst. destruct data as [|t]; [discriminate|].
  cbv beta iota. intros H. apply andb_prop in H. destruct H as [H1 H2].
  apply String.eqb_eq in H1. apply existsb_exists in H2. destruct H2 as [c [Hc E]].
  apply String.eqb_eq in E. subst c. eauto.
Qed.

Lemma configuredTicker_false (t : Ticker.t) (now : Z) :
  configuredTicker (Json t, now) = false ->
  Ticker.type t <> "ticker"%string \/ ~ In (Ticker.product_id t) COINS.
Proof.
  unfold configuredTicker. cbn [fst].
  destruct (String.eqb (Ticker.type t) "ticker") eqn:Et;
    [|intros _; left; now apply String.eqb_neq].
  cbn [andb]. intros Hc. right. intros Hin.
  assert (existsb (String.eqb (Ticker.product_id t)) COINS = true); [|congruence].
  apply existsb_exists. exists (Ticker.product_id t). split; [exact Hin|].
  apply String.eqb_refl.
Qed.

(** A frame that is not a ticker of a configured coin either changes
    nothing, or stores a price record under its name, which line 171
    found through the prototype chain, and stops at line 183. *)
Lemma step_unconfigured (s : Server) (data : Message) (now : Z) :
  shaped s -> configuredTicker (data, now) = false ->
  step s (data, now) = s
  \/ exists t entry,
       data = Json t
       /\ ~ In (Ticker.product_id t) COINS
       /\ newEntry (marketData s) (Ticker.product_id t) (Ticker.price t) now = Some entry
       /\ step s (data, now)
          = mkServer (writePrices (Ticker.product_id t) entry (marketData s))
              (pendingUpdates s).
Proof.
  intros (_ & H2 & _) Hc. unfold step. simpl fst. simpl snd. rewrite final_onMessage.
  destruct data as [|t]; [now left|].
  destruct (String.eqb (Ticker.type t) "ticker") eqn:Et; [|now left].
  destruct (configuredTicker_false t now Hc) as [Hn|Hn];
    [apply String.eqb_eq in Et; contradiction|].
  rewrite processTickerUpdate_final_any.
  destruct (newEntry (marketData s) _ _ _) as [entry|] eqn:En; [|now left].
  right. exists t, entry. cbv zeta.
  rewrite getProp_none; [auto|]. now rewrite H2.
Qed.

(** What such a frame leaves as it was. *)
Lemma step_unconfigured_frame (s : Server) (data : Message) (now : Z) :
  shaped s -> configuredTicker (data, now) = false ->
  let s' := step s (data, now) in
  pendingUpdates s' = pendingUpdates s
  /\ MarketData.priceHistory (marketData s') = MarketData.priceHistory (marketData s)
  /\ MarketData.leaderEvents (marketData s') = MarketData.leaderEvents (marketData s)
  /\ MarketData.causalityMatrix (marketData s') = MarketData.causalityMatrix (marketData s)
  /\ MarketData.statistics (marketData s') = MarketData.statistics (marketData s)
  /\ (forall coin, In coin COINS ->
        JS.getProp (MarketData.prices (marketData s')) coin
        = JS.getProp (MarketData.prices (marketData s)) coin).
Proof.
  intros Hs Hc. cbv zeta.
  destruct (step_unconfigured s data now Hs Hc) as [->|(t & entry & _ & Hn & _ & ->)];
    [repeat split; reflexivity|].
  cbn [marketData pendingUpdates].
  rewrite writePrices_priceHistory, writePrices_leaderEvents, writePrices_causalityMatrix,
    writePrices_statistics.
  repeat split. intros coin Hin. apply writePrices_other. intros E. subst coin. auto.
Qed.

(** A ticker under a name that is not configured but has a price
    record updates that record and stops at line 183. *)
Lemma stray_tick_final (t : Ticker.t) (now : Z) (s : Server) (prev : PriceState.t) :
  shaped s -> ~ In (Ticker.product_id t) COINS ->
  JS.getProp (MarketData.prices (marketData s)) (Ticker.product_id t) = Some prev ->
  final (processTickerUpdate t now s)
  = mkServer
      (with_prices
         (JS.setProp (MarketData.prices (marketData s)) (Ticker.product_id t)
            (priceUpdate prev (Ticker.price t) now)) (marketData s))
      (pendingUpdates s).
Proof.
  intros (_ & Hk & _) Hn Hp. rewrite (processTickerUpdate_final _ _ _ _ Hp). cbv zeta.
  rewrite getProp_none; [reflexivity|]. now rewrite Hk.
Qed.



(* ================================================================== *)
(** * Misses and divergences *)
(* ================================================================== *)

Lemma sum_setProp {V : Type} (g : V -> nat) (o : JS.obj V) (k : string) (old v : V) :
  JS.getProp o k = Some old ->
  list_sum (map (fun c => g (snd c)) (JS.setProp o k v)) + g old
  = list_sum (map (fun c => g (snd c)) o) + g v.
Proof.
  induction o as [|[k' v'] o IH]; simpl; [discriminate|].
  destruct (String.eqb k' k); simpl.
  - intros [= ->]. lia.
  - intros H. specialize (IH H). lia.
Qed.

Lemma totalMissed_rows (s : Server) :
  totalMissed s
  = list_sum
      (map (fun row : string * JS.obj Relation.t =>
              list_sum (map (fun c : string * Relation.t =>
                               Relation.missedFollows (snd c)) (snd row)))
         (MarketData.causalityMatrix (marketData s))).
Proof.
  unfold totalMissed, relations.
  induction (MarketData.causalityMatrix (marketData s)) as [|row m IH]; simpl;
    [reflexivity|].
  rewrite map_app, list_sum_app, IH, map_map. reflexivity.
Qed.

(** Replacing the relation of a pair moves the total by the difference
    of the two miss counts. *)
Lemma totalMissed_store (s : Server) (leader coin : string) (row : JS.obj Relation.t)
  (rel rel' : Relation.t) (others' : JS.obj PriceState.t) (f : MarketData.t -> MarketData.t) :
  JS.getProp (MarketData.causalityMatrix (marketData s)) leader = Some row ->
  JS.getProp row coin = Some rel ->
  (forall md, MarketData.causalityMatrix (f md) = MarketData.causalityMatrix md) ->
  totalMissed (mkServer (f (storeRelation leader coin row rel' (marketData s))) others')
  + Relation.missedFollows rel
  = totalMissed s + Relation.missedFollows rel'.
Proof.
  intros Hr Hc Hf. rewrite !totalMissed_rows. simpl marketData. rewrite Hf.
  unfold storeRelation. simpl MarketData.causalityMatrix.
  pose proof (sum_setProp
                (fun r : JS.obj Relation.t =>
                   list_sum (map (fun c => Relation.missedFollows (snd c)) r))
                _ leader row (JS.setProp row coin rel') Hr) as H1.
  pose proof (sum_setProp Relation.missedFollows row coin rel rel' Hc) as H2.
  cbv beta in H1, H2. lia.
Qed.

Lemma divergence_tick (t : Ticker.t) (now : Z) :
  preserves
    (fun s => Statistics.divergenceEvents (MarketData.statistics (marketData s))
              = totalMissed s)
    (processTickerUpdate t now).
Proof.
  apply tick_rule; auto.
  - intros cp i e s row rel _ _ _ _ _ Hr Hc H.
    pose proof (totalMissed_store s _ _ row rel
                  (recordFollow rel (now - LeaderEvent.timestamp e)
                     (abs (cp / LeaderEvent.changePercent e)))
                  (pendingUpdates s)
                  (with_leaderEvents
                     (JS.setIndex (MarketData.leaderEvents (marketData s)) i
                        (LeaderEvent.respond e (Ticker.product_id t)
                           (Response.mk (now - LeaderEvent.timestamp e) cp
                              (abs (cp / LeaderEvent.changePercent e))))))
                  Hr Hc (fun md => eq_refl)) as E.
    unfold afterFollow. cbv zeta. simpl Relation.missedFollows in E.
    simpl Statistics.divergenceEvents. simpl in H. lia.
  - intros cp e s row rel _ _ _ _ Hr Hc H.
    pose proof (totalMissed_store s _ _ row rel (recordMiss rel) (pendingUpdates s)
                  (with_statistics (countDivergence (MarketData.statistics (marketData s))))
                  Hr Hc (fun md => eq_refl)) as E.
    unfold afterMiss. simpl Relation.missedFollows in E.
    simpl Statistics.divergenceEvents. simpl in H. lia.
Qed.

(** X3.  [divergenceEvents] is the sum of [missedFollows] over the whole
    matrix: the two are only ever incremented together. *)
Theorem divergence_is_total_missed (start : Z) (activities : list Activity) :
  let s := serve (initialServer start) activities in
  Statistics.divergenceEvents (MarketData.statistics (marketData s))
  = list_sum
      (map (fun r => Relation.missedFollows (snd r))
         (relations (MarketData.causalityMatrix (marketData s)))).
Proof.
  intros s. change (Statistics.divergenceEvents (MarketData.statistics (marketData s))
                    = totalMissed s).
  unfold s.
  apply (serve_keeps
           (fun s => Statistics.divergenceEvents (MarketData.statistics (marketData s))
                     = totalMissed s)).
  - exact divergence_tick.
  - intros s0 H. exact H.
  - vm_compute. reflexivity.
Qed.

(* ================================================================== *)
(** * The derived fields of a relation *)
(* ================================================================== *)

(** X4.  Whatever the server has handled, the stored [avgLag] and
    [avgMagnitude] of every relation are the means of its stored
    [lagTimes] and [magnitudeRatios] (and 0 while it has no success): a
    miss does not touch the arrays, so these two averages never go
    stale. *)
Theorem averages_match_arrays (start : Z) (activities : list Activity)
  (leader follower : string) (rel : Relation.t) :
  relationOf (serve (initialServer start) activities) leader follower = Some rel ->
  match Relation.successfulFollows rel with
  | O => Relation.avgLag rel = 0%float /\ Relation.avgMagnitude rel = 0%float
  | S _ =>
      Relation.avgLag rel
      = (JS.of_Z (JS.sumZ (Relation.lagTimes rel))
         / JS.of_nat (List.length (Relation.lagTimes rel)))%float
      /\ Relation.avgMagnitude rel
         = (JS.sum (Relation.magnitudeRatios rel)
            / JS.of_nat (List.length (Relation.magnitudeRatios rel)))%float
  end.
Proof.
  intros H. change (averaged rel).
  refine (matrixAll_relationOf averaged _ _ _ _ _ H).
  apply matrixAll_serve.
  - split; reflexivity.
  - intros r lag ratio _. unfold averaged, recordFollow. simpl. auto.
  - intros r Hr. exact Hr.
Qed.

Lemma averages_match_arrays_witness :
  match Relation.successfulFollows
          (Relation.mk [100%Z] [(0.6 / 3)%float] 1 1 100 (0.6 / 3) 1) with
  | O => True
  | S _ =>
      Relation.avgLag (Relation.mk [100%Z] [(0.6 / 3)%float] 1 1 100 (0.6 / 3) 1)
      = (JS.of_Z (JS.sumZ [100%Z]) / JS.of_nat 1)%float
  end.
Proof.
  assert (E : relationOf
                (serve (initialServer 0)
                   (map (fun m => Frame (fst m) (snd m)) followThenMissFeed))
                "BTC-USD" "ETH-USD"
              = Some (Relation.mk [100%Z] [(0.6 / 3)%float] 1 1 100 (0.6 / 3) 1))
    by (vm_compute; reflexivity).
  exact (proj1 (averages_match_arrays 0 _ _ _ _ E)).
Defined.

Lemma rateOfLastSuccess_serve (start : Z) (activities : list Activity) :
  matrixAll rateOfLastSuccess (serve (initialServer start) activities).
Proof.
  apply matrixAll_serve.
  - reflexivity.
  - intros r lag ratio _. unfold rateOfLastSuccess, recordFollow. simpl.
    exists (Relation.missedFollows r). split; [lia|reflexivity].
  - intros r Hr. unfold rateOfLastSuccess in *. simpl.
    destruct (Relation.successfulFollows r); [exact Hr|].
    destruct Hr as [m [Hm E]]. exists m. split; [lia|exact E].
Qed.

(** X5.  The stored [followRate] of a relation is 0 while it has no
    success, and otherwise the quotient
    [successfulFollows / (successfulFollows + m)] for the number [m] of
    misses it had at its last success: misses counted since are not in
    it. *)
Theorem followRate_is_of_last_success (start : Z) (activities : list Activity)
  (leader follower : string) (rel : Relation.t) :
  relationOf (serve (initialServer start) activities) leader follower = Some rel ->
  match Relation.successfulFollows rel with
  | O => Relation.followRate rel = 0%float
  | S n =>
      exists missedThen,
        missedThen <= Relation.missedFollows rel
        /\ Relation.followRate rel
           = (JS.of_nat (S n) / JS.of_nat (S n + missedThen))%float
  end.
Proof.
  intros H. change (rateOfLastSuccess rel).
  exact (matrixAll_relationOf rateOfLastSuccess _ _ _ _
           (rateOfLastSuccess_serve start activities) H).
Qed.

Lemma followRate_is_of_last_success_witness :
  exists missedThen,
    missedThen <= 1
    /\ 1%float = (JS.of_nat 1 / JS.of_nat (1 + missedThen))%float.
Proof.
  assert (E : relationOf
                (serve (initialServer 0)
                   (map (fun m => Frame (fst m) (snd m)) followThenMissFeed))
                "BTC-USD" "ETH-USD"
              = Some (Relation.mk [100%Z] [(0.6 / 3)%float] 1 1 100 (0.6 / 3) 1))
    by (vm_compute; reflexivity).
  exact (followRate_is_of_last_success 0 _ _ _ _ E).
Defined.

(* ================================================================== *)
(** * What the stored events record *)
(* ================================================================== *)



(* ================================================================== *)
(** * What a tick touches *)
(* ================================================================== *)

Lemma relationOf_store (s : Server) (leader coin : string) (row : JS.obj Relation.t)
  (rel' : Relation.t) (f : MarketData.t -> MarketData.t) (p : JS.obj PriceState.t)
  (l c : string) :
  JS.getProp (MarketData.causalityMatrix (marketData s)) leader = Some row ->
  (forall md, MarketData.causalityMatrix (f md) = MarketData.causalityMatrix md) ->
  relationOf (mkServer (f (storeRelation leader coin row rel' (marketData s))) p) l c
  = if String.eqb leader l && String.eqb coin c then Some rel' else relationOf s l c.
Proof.
  intros Hr Hf. unfold relationOf. simpl marketData. rewrite Hf.
  unfold storeRelation. simpl MarketData.causalityMatrix.
  destruct (String.eqb leader l) eqn:El.
  - apply String.eqb_eq in El. subst l. rewrite getProp_setProp_same, Hr.
    destruct (String.eqb coin c) eqn:Ec; simpl.
    + apply String.eqb_eq in Ec. subst c. apply getProp_setProp_same.
    + apply getProp_setProp_other. now apply String.eqb_neq.
  - simpl. rewrite getProp_setProp_other by now apply String.eqb_neq. reflexivity.
Qed.

(** X7.  A tick of a coin leaves alone the price record and the history
    of every other coin, and every relation except those in which the
    coin is the follower of another coin. *)
Theorem tick_touches_its_column (t : Ticker.t) (now : Z) (s : Server)
  (leader follower : string) :
  follower <> Ticker.product_id t \/ leader = Ticker.product_id t ->
  let s' := final (processTickerUpdate t now s) in
  relationOf s' leader follower = relationOf s leader follower
  /\ (forall coin, coin <> Ticker.product_id t ->
        JS.getProp (MarketData.prices (marketData s')) coin
        = JS.getProp (MarketData.prices (marketData s)) coin
        /\ JS.getProp (MarketData.priceHistory (marketData s')) coin
           = JS.getProp (MarketData.priceHistory (marketData s)) coin).
Proof.
  intros Hpair. cbv zeta.
  apply (tick_rule
           (fun s' =>
              relationOf s' leader follower = relationOf s leader follower
              /\ (forall coin, coin <> Ticker.product_id t ->
                    JS.getProp (MarketData.prices (marketData s')) coin
                    = JS.getProp (MarketData.prices (marketData s)) coin
                    /\ JS.getProp (MarketData.priceHistory (marketData s')) coin
                       = JS.getProp (MarketData.priceHistory (marketData s)) coin)));
    auto.
  - intros s0 entry _ [H1 H2]. split; [exact H1|]. intros coin Hc. cbn [marketData].
    rewrite writePrices_other by congruence. rewrite writePrices_priceHistory. auto.
  - intros s0 h _ [H1 H2]. split; [exact H1|]. intros coin Hc. simpl.
    rewrite getProp_setProp_other by congruence. auto.
  - intros cp i e s0 row rel _ Hne _ _ _ Hr _ [H1 H2]. split; [|exact H2].
    unfold afterFollow. cbv zeta.
    rewrite (relationOf_store s0 _ _ row _
               (with_leaderEvents
                  (JS.setIndex (MarketData.leaderEvents (marketData s0)) i
                     (LeaderEvent.respond e (Ticker.product_id t)
                        (Response.mk (now - LeaderEvent.timestamp e) cp
                           (abs (cp / LeaderEvent.changePercent e))))))
               _ leader follower Hr (fun md => eq_refl)).
    destruct (String.eqb (LeaderEvent.leader e) leader) eqn:El; [|exact H1].
    destruct (String.eqb (Ticker.product_id t) follower) eqn:Ef; [|exact H1].
    apply String.eqb_eq in El, Ef. destruct Hpair; congruence.
  - intros cp e s0 row rel Hne _ _ _ Hr _ [H1 H2]. split; [|exact H2].
    unfold afterMiss.
    rewrite (relationOf_store s0 _ _ row _
               (with_statistics (countDivergence (MarketData.statistics (marketData s0))))
               _ leader follower Hr (fun md => eq_refl)).
    destruct (String.eqb (LeaderEvent.leader e) leader) eqn:El; [|exact H1].
    destruct (String.eqb (Ticker.product_id t) follower) eqn:Ef; [|exact H1].
    apply String.eqb_eq in El, Ef. destruct Hpair; congruence.
Qed.

Lemma tick_touches_its_column_witness :
  relationOf
    (final (processTickerUpdate (Ticker.mk "ticker" "ETH-USD" 1006) 100
              (run (initialServer 0)
                 [(tick "BTC-USD" 100, (-20)%Z); (tick "ETH-USD" 1000, (-10)%Z);
                  (tick "BTC-USD" 103, 0%Z)])))
    "BTC-USD" "SOL-USD"
  = relationOf
      (run (initialServer 0)
         [(tick "BTC-USD" 100, (-20)%Z); (tick "ETH-USD" 1000, (-10)%Z);
          (tick "BTC-USD" 103, 0%Z)])
      "BTC-USD" "SOL-USD".
Proof.
  refine (proj1 (tick_touches_its_column (Ticker.mk "ticker" "ETH-USD" 1006) 100 _
                   "BTC-USD" "SOL-USD" _)).
  left. vm_compute. discriminate.
Defined.

(* ================================================================== *)
(** * The tally of a follower tick *)
(* ================================================================== *)







(** What one pass of the follower loop adds to the relation of [leader]
    and [coin] and to the divergence counter. *)
Section Tally.

Variables (coin : string) (cp : float) (ts : Z) (leader : string).

Hypothesis coin_configured : In coin COINS.
Hypothesis moved : JS.ge (abs cp) FOLLOW_THRESHOLD = true.




End Tally.







(* ================================================================== *)
(** * The history endpoint *)
(* ================================================================== *)

Lemma slice_last_slice_last {A : Type} (n m : nat) (l : list A) :
  n <= m -> JS.slice_last n (JS.slice_last m l) = JS.slice_last n l.
Proof.
  intros Hnm. unfold JS.slice_last. rewrite length_skipn, skipn_skipn.
  f_equal. lia.
Qed.

(** X8.  [GET /api/market/history/:coin] answers, for a configured coin,
    with the last hundred prices the feed delivered for it, oldest
    first; for a name inherited from [Object.prototype] the handler
    throws and the answer is the server error; for any other name it
    answers not found.  In every case the globals are left as they
    were. *)
Theorem history_endpoint_last_hundred (start : Z) (frames : list (Message * Z))
  (coin : string) :
  let s := run (initialServer start) frames in
  getMarketHistory coin s
  = Normal
      (if existsb (String.eqb coin) COINS
       then HistoryOk coin (JS.slice_last 100 (arrivals coin frames))
       else if JS.inherited coin then HistoryError else HistoryNotFound)
      s.
Proof.
  cbv zeta. rewrite getMarketHistory_eq.
  destruct (existsb (String.eqb coin) COINS) eqn:Ec.
  - apply existsb_exists in Ec. destruct Ec as (c & Hin & Ec).
    apply String.eqb_eq in Ec. subst c.
    destruct (initial_coin start coin Hin) as [[ps Hp] Hh].
    rewrite (run_history frames _ coin ps [] Hp Hh).
    destruct (storeHistory_fold (arrivals coin frames) []) as [-> _];
      [simpl; lia|].
    simpl app. rewrite slice_last_slice_last by (unfold HISTORY_LIMIT; lia).
    reflexivity.
  - destruct (JS.getProp (MarketData.priceHistory (marketData (run (initialServer start) frames)))
                coin) as [h|] eqn:Eh; [|now destruct (JS.inherited coin)].
    exfalso. rewrite run_is_serve in Eh.
    destruct (wellFormed_serve start (map (fun m => Frame (fst m) (snd m)) frames))
      as [(_ & Hk & _) _].
    assert (Hin : In coin COINS).
    { rewrite <- Hk. apply keys_getProp_iff. rewrite Eh. discriminate. }
    assert (Ht : existsb (String.eqb coin) COINS = true).
    { apply existsb_exists. exists coin. split; [exact Hin|apply String.eqb_refl]. }
    congruence.
Qed.

(* ================================================================== *)
(** * The list of leader events *)
(* ================================================================== *)

(** X9.  On the running server a tick of a configured coin that moves
    2 percent or more leaves in the list of leader events, in order,
    the earlier events that are less than five minutes old, followed by
    the event of this very tick; any other tick of a configured coin
    leaves the occurrences in the list as they were.  So does a tick
    under another name that has a price record: it stops at line 183,
    before the detection. *)
Theorem leader_tick_rotates_events (start : Z) (activities : list Activity)
  (t : Ticker.t) (now : Z) (prev : PriceState.t) :
  let s := serve (initialServer start) activities in
  let coin := Ticker.product_id t in
  let changePercent := PriceState.changePercent (priceUpdate prev (Ticker.price t) now) in
  JS.getProp (MarketData.prices (marketData s)) coin = Some prev ->
  map occurrence (MarketData.leaderEvents (marketData (final (processTickerUpdate t now s))))
  = if existsb (String.eqb coin) COINS && isLeaderMove changePercent
    then map occurrence (filter (withinWindow now) (MarketData.leaderEvents (marketData s)))
         ++ [(now, coin, Ticker.price t, changePercent,
              if JS.gt changePercent 0 then pump else dump)]
    else map occurrence (MarketData.leaderEvents (marketData s)).
Proof.
  cbv zeta. intros Hp.
  pose proof (wellFormed_serve start activities) as Hwf.
  set (s := serve (initialServer start) activities) in *.
  destruct (existsb (String.eqb (Ticker.product_id t)) COINS) eqn:Ec; cbn [andb].
  2:{ rewrite (processTickerUpdate_final _ _ _ _ Hp). cbv zeta.
      rewrite getProp_none; [reflexivity|].
      destruct Hwf as [(_ & Hk & _) _]. rewrite Hk. intros Hin.
      assert (existsb (String.eqb (Ticker.product_id t)) COINS = true); [|congruence].
      apply existsb_exists. exists (Ticker.product_id t). split; [exact Hin|].
      apply String.eqb_refl. }
  assert (Hin : In (Ticker.product_id t) COINS).
  { apply existsb_exists in Ec. destruct Ec as (c & Hin & Ec).
    apply String.eqb_eq in Ec. now subst c. }
  destruct (tick_completes t now s Hwf Hin) as (prev' & h & s3 & Hp' & Hh & Hc & Ht).
  assert (prev' = prev) by congruence. subst prev'.
  rewrite Ht. simpl final. simpl marketData.
  pose proof (checkFollowers_frame (Ticker.product_id t)
                (PriceState.changePercent (priceUpdate prev (Ticker.price t) now)) now
                (detected t now prev h s)) as Hf.
  cbv zeta in Hf. rewrite Hc in Hf. simpl final in Hf.
  destruct Hf as (_ & _ & _ & _ & _ & Hf).
  change (MarketData.leaderEvents
            (with_statistics (countTick (MarketData.statistics (marketData s3)))
               (marketData s3)))
    with (MarketData.leaderEvents (marketData s3)).
  rewrite Hf. unfold detected. cbv zeta.
  set (cp := PriceState.changePercent (priceUpdate prev (Ticker.price t) now)).
  cbn [marketData].
  destruct (isLeaderMove cp); [|reflexivity].
  cbn [MarketData.leaderEvents with_leaderEvents with_priceHistory with_prices].
  unfold JS.push.
  rewrite filter_app, map_app. f_equal.
  cbn [filter]. unfold withinWindow at 1, newLeaderEvent. cbn [LeaderEvent.timestamp].
  replace (now - now)%Z with 0%Z by lia. reflexivity.
Qed.

Lemma leader_tick_rotates_events_witness :
  map occurrence
    (MarketData.leaderEvents
       (marketData
          (final (processTickerUpdate (Ticker.mk "ticker" "ETH-USD" 1030) 400000
                    (serve (initialServer 0)
                       (map (fun m => Frame (fst m) (snd m)) quietFeed))))))
  = [(400000%Z, "ETH-USD"%string, 1030%float, 3%float, pump)].
Proof.
  exact (leader_tick_rotates_events 0 (map (fun m => Frame (fst m) (snd m)) quietFeed)
           (Ticker.mk "ticker" "ETH-USD" 1030) 400000
           (PriceState.mk 1000 0 0 302000) eq_refl).
Defined.

(* ================================================================== *)
(** * The batched broadcast *)
(* ================================================================== *)

Lemma keys_setProp_iff {V : Type} (o : JS.obj V) (k : string) (v : V) (c : string) :
  In c (map fst (JS.setProp o k v)) <-> In c (map fst o) \/ c = k.
Proof.
  induction o as [|[k' v'] o IH]; simpl.
  - intuition.
  - destruct (String.eqb k' k) eqn:E; simpl.
    + apply String.eqb_eq in E. subst k'. intuition.
    + rewrite IH. intuition.
Qed.

Lemma serve_snoc (s : Server) (activities : list Activity) (a : Activity) :
  serve s (activities ++ [a]) = react (serve s activities) a.
Proof. unfold serve. now rewrite fold_left_app. Qed.

Lemma pendingUpdates_timer (now : Z) (s : Server) :
  pendingUpdates (final (broadcastPending now s)) = []
  /\ marketData (final (broadcastPending now s)) = marketData s.
Proof.
  unfold broadcastPending. destruct (pendingUpdates s) eqn:E; simpl; auto.
Qed.




(* ================================================================== *)
(** * Frames that change nothing *)
(* ================================================================== *)

Lemma strayName_inherited (k : string) :
  strayName k = true ->
  JS.inherited k || existsb (String.eqb k) priceFields = true.
Proof. unfold strayName. intros H. apply andb_prop in H. tauto. Qed.

(** Under a name that is neither configured nor found through the
    prototype chain, line 171 reads a property of [undefined]. *)
Lemma newEntry_nothing (s : Server) (coin : string) (price : float) (now : Z) :
  shaped s -> ~ In coin COINS ->
  JS.inherited coin = false -> existsb (String.eqb coin) priceFields = false ->
  newEntry (marketData s) coin price now = None.
Proof.
  intros ((strays & Hk & Hs) & _) Hn Hi Hf. unfold newEntry, readPrices.
  rewrite getProp_none.
  - destruct (String.eqb coin "__proto__") eqn:E.
    + apply String.eqb_eq in E. subst coin. discriminate Hi.
    + rewrite Hi, Hf. now destruct (MarketData.pricesPrototype (marketData s)).
  - rewrite Hk. intros Hin. apply in_app_or in Hin. destruct Hin as [Hin|Hin]; [auto|].
    rewrite Forall_forall in Hs. apply Hs, strayName_inherited in Hin.
    rewrite Hi, Hf in Hin. discriminate Hin.
Qed.

(** X11.  On the running server a frame that does not parse, is not of
    type ticker, or names a coin that is not configured and that line
    171 does not find through the prototype chain either, leaves the
    globals and the pending updates exactly as they were. *)
Theorem other_frames_change_nothing (start : Z) (activities : list Activity)
  (data : Message) (now : Z) :
  data = Unparseable
  \/ (exists t, data = Json t
                /\ (Ticker.type t <> "ticker"%string
                    \/ (~ In (Ticker.product_id t) COINS
                        /\ JS.inherited (Ticker.product_id t) = false
                        /\ existsb (String.eqb (Ticker.product_id t)) priceFields = false))) ->
  serve (initialServer start) (activities ++ [Frame data now])
  = serve (initialServer start) activities.
Proof.
  intros H. rewrite serve_snoc. cbn [react].
  unfold step. cbn [fst snd]. rewrite final_onMessage.
  destruct H as [->|(t & -> & H)]; [reflexivity|].
  destruct (String.eqb (Ticker.type t) "ticker") eqn:Et; [|reflexivity].
  destruct H as [H|(Hn & Hi & Hf)]; [apply String.eqb_eq in Et; contradiction|].
  rewrite processTickerUpdate_final_any.
  rewrite (newEntry_nothing _ _ _ _ (proj1 (wellFormed_serve start activities)) Hn Hi Hf).
  reflexivity.
Qed.

Lemma other_frames_change_nothing_witness :
  serve (initialServer 0) ([Frame (tick "BTC-USD" 100) 5] ++ [Frame (tick "XRP-USD" 1) 7])
  = serve (initialServer 0) [Frame (tick "BTC-USD" 100) 5].
Proof.
  apply other_frames_change_nothing. right.
  exists (Ticker.mk "ticker" "XRP-USD" 1). split; [reflexivity|]. right.
  split; [|split; reflexivity].
  intros Hin. unfold COINS in Hin. cbn [In] in Hin.
  repeat (destruct Hin as [Hin|Hin]; [discriminate Hin|]). exact Hin.
Defined.



(* ================================================================== *)
(** * Nothing recorded is forgotten *)
(* ================================================================== *)

Lemma extends_refl (rel : Relation.t) : extends rel rel.
Proof.
  repeat split; try lia; exists []; now rewrite app_nil_r.
Qed.

Lemma extends_trans (a b c : Relation.t) : extends a b -> extends b c -> extends a c.
Proof.
  intros (H1 & H2 & [m1 H3] & [m2 H4]) (K1 & K2 & [n1 K3] & [n2 K4]).
  split; [lia|]. split; [lia|]. split.
  - exists (m1 ++ n1). now rewrite K3, H3, app_assoc.
  - exists (m2 ++ n2). now rewrite K4, H4, app_assoc.
Qed.

Lemma extends_recordFollow (rel : Relation.t) (lag : Z) (ratio : float) :
  extends rel (recordFollow rel lag ratio).
Proof.
  unfold extends, recordFollow, JS.push. simpl.
  split; [lia|]. split; [lia|]. split; eexists; reflexivity.
Qed.

Lemma extends_recordMiss (rel : Relation.t) : extends rel (recordMiss rel).
Proof.
  unfold extends, recordMiss. simpl.
  split; [lia|]. split; [lia|]. split; exists []; now rewrite app_nil_r.
Qed.

(** X12.  Whatever the server goes through, from any state, a relation
    of the matrix stays in the matrix and only gains samples: its two
    counters never decrease and its two arrays only get longer at the
    end. *)
Theorem samples_only_grow (s : Server) (activities : list Activity)
  (leader follower : string) (rel : Relation.t) :
  relationOf s leader follower = Some rel ->
  exists rel',
    relationOf (serve s activities) leader follower = Some rel'
    /\ extends rel rel'.
Proof.
  intros H.
  apply (serve_keeps
           (fun s' => exists rel', relationOf s' leader follower = Some rel'
                                  /\ extends rel rel')).
  - intros t now. apply tick_rule; auto.
    + intros cp i e s0 row rel0 _ _ _ _ _ Hr Hc (rel' & H1 & H2).
      unfold afterFollow. cbv zeta.
      rewrite (relationOf_store s0 _ _ row _
                 (with_leaderEvents
                    (JS.setIndex (MarketData.leaderEvents (marketData s0)) i
                       (LeaderEvent.respond e (Ticker.product_id t)
                          (Response.mk (now - LeaderEvent.timestamp e) cp
                             (abs (cp / LeaderEvent.changePercent e))))))
                 _ leader follower Hr (fun md => eq_refl)).
      destruct (String.eqb (LeaderEvent.leader e) leader) eqn:El; [|eauto].
      destruct (String.eqb (Ticker.product_id t) follower) eqn:Ef; [|eauto].
      apply String.eqb_eq in El, Ef. cbn [andb]. eexists. split; [reflexivity|].
      assert (rel0 = rel').
      { unfold relationOf in H1. rewrite <- El, Hr, <- Ef, Hc in H1. congruence. }
      subst rel0. eapply extends_trans; [exact H2|apply extends_recordFollow].
    + intros cp e s0 row rel0 _ _ _ _ Hr Hc (rel' & H1 & H2).
      unfold afterMiss.
      rewrite (relationOf_store s0 _ _ row _
                 (with_statistics (countDivergence (MarketData.statistics (marketData s0))))
                 _ leader follower Hr (fun md => eq_refl)).
      destruct (String.eqb (LeaderEvent.leader e) leader) eqn:El; [|eauto].
      destruct (String.eqb (Ticker.product_id t) follower) eqn:Ef; [|eauto].
      apply String.eqb_eq in El, Ef. cbn [andb]. eexists. split; [reflexivity|].
      assert (rel0 = rel').
      { unfold relationOf in H1. rewrite <- El, Hr, <- Ef, Hc in H1. congruence. }
      subst rel0. eapply extends_trans; [exact H2|apply extends_recordMiss].
  - intros s0 H0. exact H0.
  - exists rel. split; [exact H|apply extends_refl].
Qed.

Lemma samples_only_grow_witness :
  exists rel',
    relationOf
      (serve (initialServer 0) (map (fun m => Frame (fst m) (snd m)) followThenMissFeed))
      "BTC-USD" "ETH-USD" = Some rel'
    /\ extends Relation.empty rel'.
Proof.
  apply (samples_only_grow (initialServer 0)
           (map (fun m => Frame (fst m) (snd m)) followThenMissFeed)
           "BTC-USD" "ETH-USD" Relation.empty).
  vm_compute. reflexivity.
Defined.

(* ================================================================== *)
(** * The price record of a coin *)
(* ================================================================== *)

(** A tick of a configured coin on a well-formed server stores the new
    price record of the coin and touches no other record. *)
Lemma tick_prices (t : Ticker.t) (now : Z) (s : Server) :
  wellFormed s -> In (Ticker.product_id t) COINS ->
  exists prev,
    JS.getProp (MarketData.prices (marketData s)) (Ticker.product_id t) = Some prev
    /\ MarketData.prices (marketData (final (processTickerUpdate t now s)))
       = JS.setProp (MarketData.prices (marketData s)) (Ticker.product_id t)
           (priceUpdate prev (Ticker.price t) now).
Proof.
  intros Hwf Hin.
  destruct (tick_completes t now s Hwf Hin) as (prev & h & s3 & Hp & Hh & Hc & Ht).
  exists prev. split; [exact Hp|]. rewrite Ht. cbn [final marketData].
  pose proof (checkFollowers_frame (Ticker.product_id t)
                (PriceState.changePercent (priceUpdate prev (Ticker.price t) now))
                now (detected t now prev h s)) as Hf.
  cbv zeta in Hf. rewrite Hc in Hf. cbn [final] in Hf.
  destruct Hf as (Hf & _).
  destruct (detected_prices t now prev h s) as (Hd & _).
  change (MarketData.prices
            (with_statistics (countTick (MarketData.statistics (marketData s3)))
               (marketData s3)))
    with (MarketData.prices (marketData s3)).
  now rewrite Hf, Hd.
Qed.






Lemma ticksOf_snoc (coin : string) (activities : list Activity) (a : Activity) :
  ticksOf coin (activities ++ [a]) = ticksOf coin activities ++ ticksOf coin [a].
Proof. unfold ticksOf. now rewrite flat_map_app. Qed.

Lemma price_record_explained (start : Z) (activities : list Activity) (coin : string) :
  In coin COINS ->
  JS.getProp (MarketData.prices (marketData (serve (initialServer start) activities))) coin
  = Some (fold_left (fun prev tk => priceUpdate prev (fst tk) (snd tk))
            (ticksOf coin activities) (PriceState.mk 0 0 0 0)).
Proof.
  intros Hin. induction activities as [|a activities IH] using rev_ind.
  - assert (E : JS.getProp (MarketData.prices (marketData (initialServer start))) coin
                = JS.getProp (MarketData.prices (marketData (initialServer 0))) coin)
      by reflexivity.
    cbn [serve fold_left ticksOf flat_map]. rewrite E. clear E.
    revert coin Hin. apply Forall_forall.
    repeat (constructor; [vm_compute; reflexivity|]). constructor.
  - rewrite serve_snoc, ticksOf_snoc, fold_left_app.
    pose proof (wellFormed_serve start activities) as Hwf.
    set (s := serve (initialServer start) activities) in *.
    destruct a as [data now|now]; cbn [react].
    + destruct (configuredTicker (data, now)) eqn:Ec.
      * destruct (configuredTicker_true data now Ec) as (t & -> & Ety & Hin').
        unfold step. cbn [fst snd]. rewrite final_onMessage, Ety, String.eqb_refl.
        destruct (tick_prices t now s Hwf Hin') as (prev & Hp & ->).
        unfold ticksOf at 1. cbn [flat_map]. rewrite app_nil_r, Ety, String.eqb_refl.
        cbn [andb].
        destruct (String.eqb (Ticker.product_id t) coin) eqn:E.
        -- apply String.eqb_eq in E. subst coin. rewrite getProp_setProp_same.
           cbn [fold_left fst snd]. f_equal. f_equal. congruence.
        -- apply String.eqb_neq in E. rewrite getProp_setProp_other by exact E.
           exact IH.
      * destruct (step_unconfigured_frame s data now (proj1 Hwf) Ec)
          as (_ & _ & _ & _ & _ & Ek).
        rewrite (Ek coin Hin).
        replace (ticksOf coin [Frame data now]) with (@nil (float * Z)); [exact IH|].
        unfold ticksOf. cbn [flat_map]. destruct data as [|t]; [reflexivity|].
        unfold configuredTicker in Ec. cbn [fst] in Ec. cbv beta iota in Ec.
        destruct (String.eqb (Ticker.type t) "ticker"); [|reflexivity].
        cbn [andb] in *.
        destruct (String.eqb (Ticker.product_id t) coin) eqn:E; [|reflexivity].
        apply String.eqb_eq in E. subst coin. exfalso.
        assert (existsb (String.eqb (Ticker.product_id t)) COINS = true); [|congruence].
        apply existsb_exists. eexists. split; [exact Hin|apply String.eqb_refl].
    + destruct (pendingUpdates_timer now s) as [_ ->]. exact IH.
Qed.

(** X13.  The price record the server holds for a configured coin is
    what the coin's own ticks make of the initial record, one after the
    other: ticks of other coins, other frames and the broadcast timer
    have no part in it.  Its price and its time stamp are those of the
    coin's last tick, or zero before the first. *)
Theorem price_record_follows_own_ticks (start : Z) (activities : list Activity)
  (coin : string) :
  In coin COINS ->
  let record :=
    fold_left (fun prev tk => priceUpdate prev (fst tk) (snd tk))
      (ticksOf coin activities) (PriceState.mk 0 0 0 0) in
  JS.getProp (MarketData.prices (marketData (serve (initialServer start) activities))) coin
  = Some record
  /\ PriceState.price record = last (map fst (ticksOf coin activities)) 0%float
  /\ PriceState.lastUpdate record = last (map snd (ticksOf coin activities)) 0%Z.
Proof.
  intros Hin. cbv zeta. split; [now apply price_record_explained|].
  destruct (ticksOf coin activities) as [|tk l] using rev_ind; [split; reflexivity|].
  rewrite fold_left_app, !map_app. cbn [fold_left map]. rewrite !last_last.
  split; reflexivity.
Qed.

Lemma price_record_follows_own_ticks_witness :
  exists record,
    JS.getProp
      (MarketData.prices
         (marketData
            (serve (initialServer 0) (map (fun m => Frame (fst m) (snd m)) quietFeed))))
      "BTC-USD" = Some record
    /\ PriceState.price record = 103%float
    /\ PriceState.lastUpdate record = 2000%Z.
Proof.
  eexists.
  apply (price_record_follows_own_ticks 0 (map (fun m => Frame (fst m) (snd m)) quietFeed)
           "BTC-USD").
  vm_compute. auto.
Defined.

(* ================================================================== *)
(** * The minSamples parameter *)
(* ================================================================== *)







(* ================================================================== *)
(** * The matrix and best-pairs endpoints on the running server *)
(* ================================================================== *)

Lemma getProp_map_values {V W : Type} (g : V -> W) (o : JS.obj V) (k : string) :
  JS.getProp (map (fun r => (fst r, g (snd r))) o) k = option_map g (JS.getProp o k).
Proof.
  induction o as [|[k' v] o IH]; [reflexivity|]. simpl.
  destruct (String.eqb k' k); [reflexivity|exact IH].
Qed.

Lemma getProp_simplifiedRow (row : JS.obj Relation.t) (k : string) :
  NoDup (map fst row) ->
  JS.getProp (simplifiedRow row) k
  = match JS.getProp row k with
    | Some rel =>
        if 0 <? Relation.successfulFollows rel then Some (Cell.of_relation rel) else None
    | None => None
    end.
Proof.
  unfold simplifiedRow. induction row as [|[k' rel] row IH]; intros Hnd; [reflexivity|].
  inversion Hnd as [|? ? Hk Hnd']. subst. cbn [filter snd fst JS.getProp].
  destruct (String.eqb k' k) eqn:E.
  - destruct (0 <? Relation.successfulFollows rel).
    + cbn [map fst snd JS.getProp]. now rewrite E.
    + apply String.eqb_eq in E. subst k'. apply getProp_none.
      intros Hin. apply Hk. rewrite map_map in Hin. cbn [fst] in Hin.
      apply in_map_iff in Hin. destruct Hin as (c & <- & Hc).
      apply filter_In in Hc. apply in_map. exact (proj1 Hc).
  - destruct (0 <? Relation.successfulFollows rel).
    + cbn [map fst snd JS.getProp]. rewrite E. exact (IH Hnd').
    + exact (IH Hnd').
Qed.

Lemma NoDup_COINS : NoDup COINS.
Proof.
  assert (H : forallb (fun p => negb (String.eqb (fst p) (snd p)))
                (flat_map (fun i => map (fun j => (nth i COINS ""%string, nth j COINS ""%string))
                                      (seq 0 i))
                   (seq 0 (List.length COINS))) = true) by (vm_compute; reflexivity).
  apply (proj2 (NoDup_nth COINS ""%string)). intros i j Hi Hj E.
  destruct (Nat.eq_dec i j) as [|Hne]; [assumption|exfalso].
  rewrite forallb_forall in H.
  assert (K : forall a b, b < a -> a < List.length COINS ->
                          nth a COINS ""%string <> nth b COINS ""%string).
  { intros a b Hab Ha Eab.
    assert (Hin : In (nth a COINS ""%string, nth b COINS ""%string)
                    (flat_map
                       (fun i => map (fun j => (nth i COINS ""%string, nth j COINS ""%string))
                                   (seq 0 i))
                       (seq 0 (List.length COINS)))).
    { apply in_flat_map. exists a. split; [apply in_seq; lia|].
      apply in_map_iff. exists b. split; [reflexivity|apply in_seq; lia]. }
    specialize (H _ Hin). cbn [fst snd] in H.
    rewrite Eab, String.eqb_refl in H. discriminate H. }
  destruct (Nat.lt_total i j) as [Hlt|[Heq|Hgt]]; [|contradiction|].
  - exact (K j i Hlt Hj (eq_sym E)).
  - exact (K i j Hgt Hi E).
Qed.

Lemma NoDup_others (coin : string) : NoDup (others coin).
Proof. unfold others. apply NoDup_filter, NoDup_COINS. Qed.

Lemma consistent_serve (start : Z) (activities : list Activity) :
  matrixAll consistent (serve (initialServer start) activities).
Proof.
  apply matrixAll_serve.
  - split; reflexivity.
  - intros rel lag ratio [H1 H2]. unfold consistent, recordFollow, JS.push. simpl.
    rewrite !length_app. simpl. lia.
  - intros rel H. exact H.
Qed.

Lemma In_getProp {V : Type} (o : JS.obj V) (k : string) (v : V) :
  NoDup (map fst o) -> In (k, v) o -> JS.getProp o k = Some v.
Proof.
  induction o as [|[k' v'] o IH]; intros Hnd Hin; [destruct Hin|].
  inversion Hnd as [|? ? Hk Hnd']. subst. cbn [JS.getProp].
  destruct Hin as [E|Hin].
  - injection E as -> ->. now rewrite String.eqb_refl.
  - destruct (String.eqb k' k) eqn:E; [|now apply IH].
    apply String.eqb_eq in E. subst k'. exfalso. apply Hk.
    change k with (fst (k, v)). now apply in_map.
Qed.

Lemma relations_relationOf (s : Server) (leader follower : string) (rel : Relation.t) :
  shaped s ->
  (In (leader, follower, rel) (relations (MarketData.causalityMatrix (marketData s)))
   <-> relationOf s leader follower = Some rel).
Proof.
  intros (_ & _ & Hk & Hrows). rewrite In_relations. unfold relationOf. split.
  - intros (row & Hrow & Hc).
    rewrite (In_getProp _ _ _ ltac:(rewrite Hk; exact NoDup_COINS) Hrow).
    apply In_getProp; [|exact Hc].
    rewrite Forall_forall in Hrows. pose proof (Hrows _ Hrow) as E. cbn [fst snd] in E.
    rewrite E. apply NoDup_others.
  - destruct (JS.getProp (MarketData.causalityMatrix (marketData s)) leader) as [row|] eqn:Er;
      [|discriminate].
    intros Hc. exists row. split; now apply getProp_In.
Qed.

(** C6.  On the running server the best-pairs handler returns the first
    20 of a ranking and the length of the ranking.  The ranking holds
    exactly the relations of the matrix whose events (successes plus
    misses) reach the threshold and whose stored [followRate] is above
    0.6, each with its two coins, its fields and
    [sampleSize = |lagTimes|], ordered by descending [followRate]; the
    threshold defaults to 10.  A pair with 8 successes and 1 miss is
    not listed under [minSamples=10].  But the rate compared and
    returned is the stored field, which a miss does not update: after 3
    successes followed by 7 misses the pair (BTC-USD, ETH-USD), whose
    rate 3/10 is not above 0.6, is listed under the default threshold
    with [followRate] 1. *)
Theorem best_pairs_by_stored_rate (start : Z) (activities : list Activity)
  (minSamples : option string) :
  let s := serve (initialServer start) activities in
  let threshold := JS.of_Z (minSampleSize minSamples) in
  (exists ranking,
      getBestPairs minSamples s
      = Normal (mkBestPairsBody (firstn 20 ranking) (List.length ranking)) s
      /\ (forall p,
             In p ranking <->
             exists leader follower rel,
               relationOf s leader follower = Some rel
               /\ JS.ge (JS.of_nat (Relation.successfulFollows rel
                                    + Relation.missedFollows rel)) threshold = true
               /\ JS.gt (Relation.followRate rel) 0.6 = true
               /\ p = Pair.mk leader follower (Relation.followRate rel)
                        (Relation.avgLag rel) (Relation.avgMagnitude rel)
                        (List.length (Relation.lagTimes rel))
                        (Relation.successfulFollows rel) (Relation.missedFollows rel))
      /\ StronglySorted
           (fun a b => JS.ge (Pair.followRate a) (Pair.followRate b) = true) ranking)
  /\ minSampleSize None = 10%Z
  /\ (let s9 := run (initialServer 0) eightOfNineFeed in
      exists rel,
        relationOf s9 "BTC-USD" "ETH-USD" = Some rel
        /\ Relation.successfulFollows rel = 8
        /\ Relation.missedFollows rel = 1
        /\ Relation.followRate rel = (JS.of_nat 8 / JS.of_nat (8 + 1))%float
        /\ JS.gt (Relation.followRate rel) 0.6 = true
        /\ getBestPairs (Some "10"%string) s9 = Normal (mkBestPairsBody [] 0) s9)
  /\ (let s10 := run (initialServer 0) threeOfTenFeed in
      exists rel body,
        relationOf s10 "BTC-USD" "ETH-USD" = Some rel
        /\ Relation.successfulFollows rel = 3
        /\ Relation.missedFollows rel = 7
        /\ JS.gt (JS.of_nat 3 / JS.of_nat (3 + 7)) 0.6 = false
        /\ Relation.followRate rel = 1%float
        /\ getBestPairs None s10 = Normal body s10
        /\ map (fun p => (Pair.leader p, Pair.follower p, Pair.followRate p,
                          Pair.sampleSize p, Pair.successfulFollows p,
                          Pair.missedFollows p)) (pairs body)
           = [("BTC-USD"%string, "ETH-USD"%string, 1%float, 3, 3, 7)]).
Proof.
  cbv zeta. split; [|split; [reflexivity|split]].
  2:{ eexists. split; [vm_compute; reflexivity|]. repeat split; vm_compute; reflexivity. }
  - pose proof (wellFormed_serve start activities) as [Hs _].
    set (s := serve (initialServer start) activities) in *.
    exists (JS.sort byFollowRate (candidatePairs (minSampleSize minSamples) (marketData s))).
    split; [apply getBestPairs_eq|]. split.
    + intros p. split.
      * intros Hp. apply (Permutation_in _ (sort_perm _ _)) in Hp.
        apply In_candidatePairs in Hp. destruct Hp as (l & f & rel & Hin & Hq & ->).
        unfold qualifies in Hq. apply andb_prop in Hq. destruct Hq as [H1 H2].
        exists l, f, rel. apply (relations_relationOf s l f rel Hs) in Hin. auto.
      * intros (l & f & rel & Hin & H1 & H2 & ->).
        apply (Permutation_in _ (Permutation_sym (sort_perm _ _))).
        apply In_candidatePairs. exists l, f, rel.
        split; [now apply (relations_relationOf s l f rel Hs)|]. split; [|reflexivity].
        unfold qualifies. apply andb_true_intro. split; assumption.
    + apply (sort_descending Pair.followRate), candidatePairs_numeric.
  - eexists _, _. split; [vm_compute; reflexivity|].
    repeat split; vm_compute; reflexivity.
Qed.

(** X15.  On the running server [GET /api/causality/matrix] returns one
    row per configured coin, in configuration order and possibly empty,
    together with the stored leader events; the cell of a leader and a
    follower is there exactly when their relation has a success, and
    then it carries the relation's three averages and, as sample size,
    its number of successes. *)
Theorem matrix_endpoint_cells (start : Z) (activities : list Activity) :
  let s := serve (initialServer start) activities in
  exists body,
    getCausalityMatrix s = Normal body s
    /\ map fst (mb_matrix body) = COINS
    /\ mb_leaderEvents body = MarketData.leaderEvents (marketData s)
    /\ forall leader follower,
         match JS.getProp (mb_matrix body) leader with
         | Some row => JS.getProp row follower
         | None => None
         end
         = match relationOf s leader follower with
           | Some rel =>
               if 0 <? Relation.successfulFollows rel
               then Some (Cell.mk (Relation.followRate rel) (Relation.avgLag rel)
                            (Relation.avgMagnitude rel) (Relation.successfulFollows rel))
               else None
           | None => None
           end.
Proof.
  cbv zeta. pose proof (wellFormed_serve start activities) as [(_ & _ & Hk & Hrows) _].
  pose proof (consistent_serve start activities) as Hc.
  set (s := serve (initialServer start) activities) in *.
  eexists. split; [apply getCausalityMatrix_eq|]. cbn [mb_matrix mb_leaderEvents].
  split; [rewrite map_map; exact Hk|]. split; [reflexivity|].
  intros leader follower. rewrite getProp_map_values. unfold relationOf.
  destruct (JS.getProp (MarketData.causalityMatrix (marketData s)) leader) as [row|] eqn:Er;
    [|reflexivity].
  cbn [option_map]. rewrite getProp_simplifiedRow.
  - destruct (JS.getProp row follower) as [rel|] eqn:Ef; [|reflexivity].
    destruct (0 <? Relation.successfulFollows rel); [|reflexivity].
    assert (Hrel : consistent rel).
    { apply (matrixAll_relationOf consistent s leader follower rel Hc).
      unfold relationOf. now rewrite Er. }
    unfold Cell.of_relation. now rewrite <- (proj1 Hrel).
  - rewrite Forall_forall in Hrows. pose proof (Hrows _ (getProp_In _ _ _ Er)) as Hkeys.
    cbn [fst snd] in Hkeys. rewrite Hkeys. apply NoDup_others.
Qed.

(** X16.  On the running server every pair that best-pairs lists is a
    pair of two different configured coins whose relation has at least
    one recorded success and a stored rate above 0.6. *)
Theorem best_pairs_have_followed (start : Z) (activities : list Activity)
  (minSamples : option string) :
  let s := serve (initialServer start) activities in
  exists body,
    getBestPairs minSamples s = Normal body s
    /\ Forall
         (fun p =>
            In (Pair.leader p) COINS
            /\ In (Pair.follower p) COINS
            /\ Pair.leader p <> Pair.follower p
            /\ 1 <= Pair.successfulFollows p
            /\ JS.gt (Pair.followRate p) 0.6%float = true)
         (pairs body).
Proof.
  cbv zeta. pose proof (wellFormed_serve start activities) as [(_ & _ & Hk & Hrows) _].
  pose proof (rateOfLastSuccess_serve start activities) as Hr.
  set (s := serve (initialServer start) activities) in *.
  eexists. split; [apply getBestPairs_eq|]. cbn [pairs].
  apply Forall_forall. intros p Hp.
  destruct (In_bestPairs _ _ _ Hp) as (leader & follower & rel & Hin & Hq & ->).
  cbn [Pair.of_relation Pair.leader Pair.follower Pair.successfulFollows Pair.followRate].
  apply In_relations in Hin. destruct Hin as (row & Hrow & Hcell).
  unfold qualifies in Hq. cbv zeta in Hq. apply andb_prop in Hq. destruct Hq as [_ Hq].
  assert (Hl : In leader COINS) by (rewrite <- Hk; exact (in_map fst _ _ Hrow)).
  rewrite Forall_forall in Hrows. pose proof (Hrows _ Hrow) as Hkeys. cbn [fst snd] in Hkeys.
  assert (Hf : In follower (others leader))
    by (rewrite <- Hkeys; exact (in_map fst _ _ Hcell)).
  apply In_others in Hf. destruct Hf as [Hf Hne].
  split; [exact Hl|]. split; [exact Hf|]. split; [exact Hne|]. split; [|exact Hq].
  unfold matrixAll in Hr. rewrite Forall_forall in Hr.
  pose proof (Hr _ Hrow) as Hr'. cbn [snd] in Hr'. rewrite Forall_forall in Hr'.
  pose proof (Hr' _ Hcell) as Hrel. cbn [snd] in Hrel. unfold rateOfLastSuccess in Hrel.
  destruct (Relation.successfulFollows rel); [|lia].
  rewrite Hrel in Hq. vm_compute in Hq. discriminate Hq.
Qed.

(* ================================================================== *)
(** * The samples of a relation *)
(* ================================================================== *)

Lemma abs_not_negative (x : float) : PrimFloat.ltb (abs x) 0 = false.
Proof.
  rewrite ltb_spec, abs_spec.
  change (Prim2SF 0) with (S754_zero false).
  destruct (Prim2SF x) as [s|s| |s m e]; reflexivity.
Qed.

Section SamplesRule.

Variable E : LeaderEvent.t -> Prop.
Variable P : Relation.t -> Prop.
Variables (t : Ticker.t) (now : Z).

Hypothesis on_event :
  forall cp, E (newLeaderEvent (Ticker.product_id t) (Ticker.price t) cp now).

Hypothesis on_response : forall e coin r, E e -> E (LeaderEvent.respond e coin r).

Hypothesis on_success :
  forall rel e cp,
    E e -> (now - LeaderEvent.timestamp e < LAG_WINDOW)%Z -> P rel ->
    P (recordFollow rel (now - LeaderEvent.timestamp e)
         (abs (cp / LeaderEvent.changePercent e))).

Hypothesis on_failure : forall rel, P rel -> P (recordMiss rel).

(** A property of the stored events and a property of the relations
    that survive what a tick does to them hold after the tick. *)
Lemma samples_rule :
  preserves
    (fun s => Forall E (MarketData.leaderEvents (marketData s)) /\ matrixAll P s)
    (processTickerUpdate t now).
Proof.
  assert (R : forall s leader coin row rel rel',
             JS.getProp (MarketData.causalityMatrix (marketData s)) leader = Some row ->
             JS.getProp row coin = Some rel ->
             (P rel -> P rel') ->
             matrixAll P s ->
             Forall (fun r => Forall (fun cell => P (snd cell)) (snd r))
               (JS.setProp (MarketData.causalityMatrix (marketData s)) leader
                  (JS.setProp row coin rel'))).
  { intros s leader coin row rel rel' Hr Hc Hrel HP. unfold matrixAll in HP.
    pose proof HP as HP'. rewrite Forall_forall in HP'.
    pose proof (HP' _ (getProp_In _ _ _ Hr)) as Hrow. simpl in Hrow.
    apply Forall_setProp; [exact HP|]. simpl.
    apply Forall_setProp; [exact Hrow|]. simpl. apply Hrel.
    rewrite Forall_forall in Hrow. exact (Hrow _ (getProp_In _ _ _ Hc)). }
  apply tick_rule; unfold matrixAll; simpl; auto.
  - intros s cp _ _ [He HP]. split; [|exact HP].
    apply Forall_forall. intros e Hin. apply filter_In in Hin. destruct Hin as [Hin _].
    unfold JS.push in Hin. apply in_app_or in Hin. destruct Hin as [Hin|[<-|[]]].
    + rewrite Forall_forall in He. auto.
    + apply on_event.
  - intros cp i e s row rel Hn _ Hlag _ _ Hr Hc [He HP].
    assert (Ee : E e) by (rewrite Forall_forall in He; exact (He _ (nth_error_In _ _ Hn))).
    split.
    + apply Forall_setIndex; [exact He|]. now apply on_response.
    + eapply R; eauto.
  - intros cp e s row rel _ _ _ _ Hr Hc [He HP]. split; [exact He|]. eapply R; eauto.
Qed.

End SamplesRule.

(** X17.  On the running server every lag time stored in a relation is
    below the five-minute window, and no stored magnitude ratio is
    negative. *)
Theorem stored_samples_are_bounded (start : Z) (activities : list Activity)
  (leader follower : string) (rel : Relation.t) :
  relationOf (serve (initialServer start) activities) leader follower = Some rel ->
  Forall (fun lag => (lag < 300000)%Z) (Relation.lagTimes rel)
  /\ Forall (fun ratio => PrimFloat.ltb ratio 0 = false) (Relation.magnitudeRatios rel).
Proof.
  intros H. change (inBounds rel).
  refine (matrixAll_relationOf inBounds _ _ _ _ _ H).
  refine (proj2 (serve_keeps
                   (fun s => Forall (fun _ => True) (MarketData.leaderEvents (marketData s))
                             /\ matrixAll inBounds s) _ _ activities _ _)).
  - intros t now. apply samples_rule; auto.
    + intros r e cp _ Hlag [H1 H2]. unfold inBounds, recordFollow, JS.push. simpl.
      split; apply Forall_app; split; auto; constructor; auto.
      apply abs_not_negative.
  - intros s Hs. exact Hs.
  - split; [apply Forall_forall; intros e _; exact I|].
    eapply matrixAll_weaken; [|apply initial_relations_empty].
    intros r ->. split; constructor.
Qed.

Lemma stored_samples_are_bounded_witness :
  Forall (fun lag => (lag < 300000)%Z) [100%Z]
  /\ Forall (fun ratio => PrimFloat.ltb ratio 0 = false) [(0.6 / 3)%float].
Proof.
  exact (stored_samples_are_bounded 0
           (map (fun m => Frame (fst m) (snd m)) followThenMissFeed)
           "BTC-USD" "ETH-USD"
           (Relation.mk [100%Z] [(0.6 / 3)%float] 1 1 100 (0.6 / 3) 1) eq_refl).
Defined.

Lemma sorted_snoc (l : list Z) (x : Z) :
  StronglySorted Z.le (l ++ [x]) ->
  StronglySorted Z.le l /\ Forall (fun y => (y <= x)%Z) l.
Proof.
  induction l as [|a l IH]; simpl; intros H; [split; constructor|].
  inversion H as [|? ? Hs Hf]. subst. destruct (IH Hs) as [H1 H2].
  split; constructor; auto.
  - apply Forall_app in Hf. exact (proj1 Hf).
  - apply Forall_app in Hf. destruct Hf as [_ Hf]. now inversion Hf.
Qed.

Lemma frameTimes_snoc (activities : list Activity) (a : Activity) :
  frameTimes (activities ++ [a]) = frameTimes activities ++ frameTimes [a].
Proof. unfold frameTimes. now rewrite flat_map_app. Qed.

Lemma inOrder_tick (t : Ticker.t) (now : Z) :
  preserves (inOrder now) (processTickerUpdate t now).
Proof.
  apply (samples_rule (fun e => (LeaderEvent.timestamp e <= now)%Z)
           (fun rel => Forall (fun lag => (0 <= lag)%Z) (Relation.lagTimes rel))).
  - intros cp. simpl. lia.
  - intros e coin r H. exact H.
  - intros rel e cp He _ H. unfold recordFollow, JS.push. simpl.
    apply Forall_app. split; [exact H|]. constructor; [lia|constructor].
  - intros rel H. exact H.
Qed.

Lemma inOrder_later (b b' : Z) (s : Server) : (b <= b')%Z -> inOrder b s -> inOrder b' s.
Proof.
  intros Hb [H1 H2]. split; [|exact H2].
  eapply Forall_impl; [|exact H1]. simpl. intros e He. lia.
Qed.

Lemma inOrder_serve (start : Z) (activities : list Activity) (bound : Z) :
  StronglySorted Z.le (frameTimes activities) ->
  Forall (fun now => (now <= bound)%Z) (frameTimes activities) ->
  inOrder bound (serve (initialServer start) activities).
Proof.
  revert bound. induction activities as [|a activities IH] using rev_ind; intros bound Hs Hb.
  - split.
    + assert (E : MarketData.leaderEvents (marketData (initialServer start)) = [])
        by (vm_compute; reflexivity).
      cbn [serve fold_left]. rewrite E. constructor.
    + eapply matrixAll_weaken; [|apply initial_relations_empty].
      intros r ->. constructor.
  - rewrite serve_snoc. rewrite frameTimes_snoc in Hs, Hb.
    destruct a as [data now|now]; cbn [react].
    + cbn [frameTimes flat_map app] in Hs, Hb.
      destruct (sorted_snoc _ _ Hs) as [Hs' Hle].
      apply Forall_app in Hb. destruct Hb as [_ Hb]. inversion Hb as [|? ? Hnow _]. subst.
      apply (inOrder_later now bound); [exact Hnow|].
      unfold step. cbn [fst snd]. rewrite final_onMessage.
      destruct data as [|t]; [apply IH; assumption|].
      destruct (String.eqb (Ticker.type t) "ticker"); [|apply IH; assumption].
      apply inOrder_tick. apply IH; assumption.
    + cbn [frameTimes flat_map app] in Hs, Hb. rewrite app_nil_r in Hs, Hb.
      destruct (pendingUpdates_timer now (serve (initialServer start) activities))
        as [_ Hm].
      unfold inOrder, matrixAll. rewrite Hm. apply IH; assumption.
Qed.

(** X18.  If the clock never goes back from one frame to the next, no
    stored leader event is later than the last frame handled and no lag
    time stored in a relation is negative. *)
Theorem lags_not_negative (start : Z) (activities : list Activity) :
  StronglySorted Z.le (frameTimes activities) ->
  let s := serve (initialServer start) activities in
  Forall (fun e => (LeaderEvent.timestamp e <= last (frameTimes activities) 0)%Z)
    (MarketData.leaderEvents (marketData s))
  /\ forall leader follower rel,
       relationOf s leader follower = Some rel ->
       Forall (fun lag => (0 <= lag)%Z) (Relation.lagTimes rel).
Proof.
  intros Hs. cbv zeta.
  assert (H : inOrder (last (frameTimes activities) 0%Z)
                (serve (initialServer start) activities)).
  { apply inOrder_serve; [exact Hs|].
    destruct (frameTimes activities) as [|x l] using rev_ind; [constructor|].
    rewrite last_last. apply Forall_app. split.
    - exact (proj2 (sorted_snoc _ _ Hs)).
    - constructor; [lia|constructor]. }
  destruct H as [H1 H2]. split; [exact H1|].
  intros leader follower rel Hr.
  exact (matrixAll_relationOf _ _ _ _ _ H2 Hr).
Qed.

Lemma lags_not_negative_witness :
  Forall (fun e => (LeaderEvent.timestamp e <= 200)%Z)
    (MarketData.leaderEvents
       (marketData
          (serve (initialServer 0)
             (map (fun m => Frame (fst m) (snd m)) followThenMissFeed)))).
Proof.
  refine (proj1 (lags_not_negative 0
                   (map (fun m => Frame (fst m) (snd m)) followThenMissFeed) _)).
  unfold followThenMissFeed. cbn [map frameTimes flat_map app fst snd].
  repeat (constructor; [|repeat (constructor; [lia|]); constructor]). constructor.
Defined.

(* ================================================================== *)
(** * Prices and histories together *)
(* ================================================================== *)

Lemma tick_history (t : Ticker.t) (now : Z) (s : Server) :
  wellFormed s -> In (Ticker.product_id t) COINS ->
  exists h,
    JS.getProp (MarketData.priceHistory (marketData s)) (Ticker.product_id t) = Some h
    /\ MarketData.priceHistory (marketData (final (processTickerUpdate t now s)))
       = JS.setProp (MarketData.priceHistory (marketData s)) (Ticker.product_id t)
           (storeHistory h (Ticker.price t)).
Proof.
  intros Hwf Hin.
  destruct (tick_completes t now s Hwf Hin) as (prev & h & s3 & Hp & Hh & Hc & Ht).
  exists h. split; [exact Hh|]. rewrite Ht. cbn [final marketData].
  pose proof (checkFollowers_frame (Ticker.product_id t)
                (PriceState.changePercent (priceUpdate prev (Ticker.price t) now))
                now (detected t now prev h s)) as Hf.
  cbv zeta in Hf. rewrite Hc in Hf. cbn [final] in Hf.
  destruct Hf as (_ & Hf & _).
  destruct (detected_prices t now prev h s) as (_ & Hd & _).
  change (MarketData.priceHistory
            (with_statistics (countTick (MarketData.statistics (marketData s3)))
               (marketData s3)))
    with (MarketData.priceHistory (marketData s3)).
  now rewrite Hf, Hd.
Qed.

Lemma history_explained (start : Z) (activities : list Activity) (coin : string) :
  In coin COINS ->
  JS.getProp (MarketData.priceHistory (marketData (serve (initialServer start) activities)))
    coin
  = Some (fold_left storeHistory (map fst (ticksOf coin activities)) []).
Proof.
  intros Hin. induction activities as [|a activities IH] using rev_ind.
  - exact (proj2 (initial_coin start coin Hin)).
  - rewrite serve_snoc, ticksOf_snoc, map_app, fold_left_app.
    pose proof (wellFormed_serve start activities) as Hwf.
    set (s := serve (initialServer start) activities) in *.
    destruct a as [data now|now]; cbn [react].
    + destruct (configuredTicker (data, now)) eqn:Ec.
      * destruct (configuredTicker_true data now Ec) as (t & -> & Ety & Hin').
        unfold step. cbn [fst snd]. rewrite final_onMessage, Ety, String.eqb_refl.
        destruct (tick_history t now s Hwf Hin') as (h & Hh & ->).
        unfold ticksOf at 1. cbn [flat_map]. rewrite app_nil_r, Ety, String.eqb_refl.
        cbn [andb].
        destruct (String.eqb (Ticker.product_id t) coin) eqn:E.
        -- apply String.eqb_eq in E. subst coin. rewrite getProp_setProp_same.
           cbn [map fold_left fst]. f_equal. f_equal. congruence.
        -- apply String.eqb_neq in E. rewrite getProp_setProp_other by exact E.
           exact IH.
      * destruct (step_unconfigured_frame s data now (proj1 Hwf) Ec)
          as (_ & Ek & _).
        rewrite Ek.
        replace (ticksOf coin [Frame data now]) with (@nil (float * Z)); [exact IH|].
        unfold ticksOf. cbn [flat_map]. destruct data as [|t]; [reflexivity|].
        unfold configuredTicker in Ec. cbn [fst] in Ec. cbv beta iota in Ec.
        destruct (String.eqb (Ticker.type t) "ticker"); [|reflexivity].
        cbn [andb] in *.
        destruct (String.eqb (Ticker.product_id t) coin) eqn:E; [|reflexivity].
        apply String.eqb_eq in E. subst coin. exfalso.
        assert (existsb (String.eqb (Ticker.product_id t)) COINS = true); [|congruence].
        apply existsb_exists. eexists. split; [exact Hin|apply String.eqb_refl].
    + destruct (pendingUpdates_timer now s) as [_ ->]. exact IH.
Qed.

Lemma last_storeHistory (h : list float) (p d : float) : last (storeHistory h p) d = p.
Proof.
  unfold storeHistory, JS.push, JS.shift. cbv zeta.
  destruct (HISTORY_LIMIT <? List.length (h ++ [p])) eqn:E; [|apply last_last].
  destruct h as [|a h]; [discriminate E|].
  cbn [app tl]. apply last_last.
Qed.

(** X19.  For every configured coin the server holds a price record and
    a history; the history is the last thousand prices of the coin's
    ticks, timers and other frames apart, and its newest entry is the
    price of the record (both are 0 and empty before the first tick). *)
Theorem newest_history_entry_is_price (start : Z) (activities : list Activity)
  (coin : string) :
  In coin COINS ->
  exists ps h,
    JS.getProp (MarketData.prices (marketData (serve (initialServer start) activities))) coin
    = Some ps
    /\ JS.getProp
         (MarketData.priceHistory (marketData (serve (initialServer start) activities))) coin
       = Some h
    /\ h = JS.slice_last 1000 (map fst (ticksOf coin activities))
    /\ last h 0%float = PriceState.price ps.
Proof.
  intros Hin. eexists. eexists.
  split; [exact (price_record_explained start activities coin Hin)|].
  split; [exact (history_explained start activities coin Hin)|].
  split.
  - destruct (storeHistory_fold (map fst (ticksOf coin activities)) []) as [-> _];
      [simpl; lia|reflexivity].
  - destruct (ticksOf coin activities) as [|tk l _] using rev_ind; [reflexivity|].
    rewrite map_app, !fold_left_app. cbn [map fold_left].
    rewrite last_storeHistory. reflexivity.
Qed.

Lemma newest_history_entry_is_price_witness :
  exists ps h,
    JS.getProp
      (MarketData.prices
         (marketData (serve (initialServer 0) [Frame (tick "BTC-USD" 100) 5; Timer 6])))
      "BTC-USD" = Some ps
    /\ JS.getProp
         (MarketData.priceHistory
            (marketData (serve (initialServer 0) [Frame (tick "BTC-USD" 100) 5; Timer 6])))
         "BTC-USD" = Some h
    /\ h = JS.slice_last 1000
             (map fst (ticksOf "BTC-USD" [Frame (tick "BTC-USD" 100) 5; Timer 6]))
    /\ last h 0%float = PriceState.price ps.
Proof.
  apply (newest_history_entry_is_price 0 [Frame (tick "BTC-USD" 100) 5; Timer 6] "BTC-USD").
  vm_compute. auto.
Defined.

(* ================================================================== *)
(** * One follower check *)
(* ================================================================== *)

Lemma nth_error_setIndex {A : Type} (l : list A) (i : nat) (x y : A) :
  nth_error l i = Some y -> nth_error (JS.setIndex l i x) i = Some x.
Proof.
  revert i. induction l as [|a l IH]; intros [|i] H; try discriminate; simpl in *; auto.
Qed.

(** X20.  A move of at least 0.005 percent in the direction of a leader
    event of another coin that is less than five minutes old is a
    success: the lag and the ratio of the two moves are appended to the
    relation, its successes go up by one and its rate is recomputed
    with the misses as they stand; the same lag and ratio are recorded
    in the event under the follower's name; the divergence counter and
    the misses are left alone. *)
Theorem same_direction_is_a_follow (coin : string) (changePercent : float) (timestamp : Z)
  (i : nat) (leaderEvent : LeaderEvent.t) (s : Server)
  (row : JS.obj Relation.t) (rel : Relation.t) :
  nth_error (MarketData.leaderEvents (marketData s)) i = Some leaderEvent ->
  LeaderEvent.leader leaderEvent <> coin ->
  (timestamp - LeaderEvent.timestamp leaderEvent < LAG_WINDOW)%Z ->
  JS.ge (abs changePercent) FOLLOW_THRESHOLD = true ->
  (JS.gt changePercent 0 = true /\ JS.gt (LeaderEvent.changePercent leaderEvent) 0 = true)
  \/ (JS.lt changePercent 0 = true /\ JS.lt (LeaderEvent.changePercent leaderEvent) 0 = true) ->
  JS.getProp (MarketData.causalityMatrix (marketData s)) (LeaderEvent.leader leaderEvent)
  = Some row ->
  JS.getProp row coin = Some rel ->
  let lagTime := (timestamp - LeaderEvent.timestamp leaderEvent)%Z in
  let magnitudeRatio := abs (changePercent / LeaderEvent.changePercent leaderEvent)%float in
  exists s' rel' e',
    checkFollower coin changePercent timestamp i leaderEvent s = Normal tt s'
    /\ relationOf s' (LeaderEvent.leader leaderEvent) coin = Some rel'
    /\ Relation.lagTimes rel' = Relation.lagTimes rel ++ [lagTime]
    /\ Relation.magnitudeRatios rel' = Relation.magnitudeRatios rel ++ [magnitudeRatio]
    /\ Relation.successfulFollows rel' = S (Relation.successfulFollows rel)
    /\ Relation.missedFollows rel' = Relation.missedFollows rel
    /\ Relation.followRate rel'
       = (JS.of_nat (S (Relation.successfulFollows rel))
          / JS.of_nat (S (Relation.successfulFollows rel) + Relation.missedFollows rel))%float
    /\ nth_error (MarketData.leaderEvents (marketData s')) i = Some e'
    /\ occurrence e' = occurrence leaderEvent
    /\ JS.getProp (LeaderEvent.followersResponded e') coin
       = Some (Response.mk lagTime changePercent magnitudeRatio)
    /\ MarketData.statistics (marketData s') = MarketData.statistics (marketData s).
Proof.
  intros Hn Hne Hlag Hge Hdir Hr Hc. cbv zeta.
  assert (Hsame : sameDirection changePercent (LeaderEvent.changePercent leaderEvent) = true).
  { unfold sameDirection. destruct Hdir as [[-> ->]|[-> ->]]; [reflexivity|].
    apply orb_true_r. }
  eexists. eexists. eexists.
  split.
  { rewrite checkFollower_eq.
    replace (negb (String.eqb (LeaderEvent.leader leaderEvent) coin)) with true
      by (symmetry; apply negb_true_iff; now apply String.eqb_neq).
    replace (timestamp - LeaderEvent.timestamp leaderEvent <? LAG_WINDOW)%Z with true
      by (symmetry; now apply Z.ltb_lt).
    rewrite Hge, Hr, Hc, Hsame. cbn [andb]. reflexivity. }
  unfold afterFollow. cbv zeta.
  split.
  { rewrite (relationOf_store s _ _ row _
               (with_leaderEvents
                  (JS.setIndex (MarketData.leaderEvents (marketData s)) i
                     (LeaderEvent.respond leaderEvent coin
                        (Response.mk (timestamp - LeaderEvent.timestamp leaderEvent)
                           changePercent
                           (abs (changePercent / LeaderEvent.changePercent leaderEvent))))))
               _ _ _ Hr (fun md => eq_refl)).
    rewrite !String.eqb_refl. reflexivity. }
  cbn [marketData MarketData.leaderEvents with_leaderEvents MarketData.statistics
       storeRelation with_causalityMatrix].
  repeat (split; [reflexivity|]).
  split; [exact (nth_error_setIndex _ _ _ _ Hn)|].
  split; [reflexivity|]. split; [|reflexivity].
  unfold LeaderEvent.respond. cbn [LeaderEvent.followersResponded].
  apply getProp_setProp_same.
Qed.

Lemma same_direction_is_a_follow_witness :
  exists s' rel',
    checkFollower "ETH-USD" 0.6 100 0 (LeaderEvent.mk 0 "BTC-USD" 103 3 pump [])
      (run (initialServer 0)
         [(tick "BTC-USD" 100, (-20)%Z); (tick "ETH-USD" 1000, (-10)%Z);
          (tick "BTC-USD" 103, 0%Z)])
    = Normal tt s'
    /\ relationOf s' "BTC-USD" "ETH-USD" = Some rel'
    /\ Relation.lagTimes rel' = [100%Z].
Proof.
  destruct (same_direction_is_a_follow "ETH-USD" 0.6 100 0
              (LeaderEvent.mk 0 "BTC-USD" 103 3 pump [])
              (run (initialServer 0)
                 [(tick "BTC-USD" 100, (-20)%Z); (tick "ETH-USD" 1000, (-10)%Z);
                  (tick "BTC-USD" 103, 0%Z)])
              (initialRow "BTC-USD") Relation.empty)
    as (s' & rel' & e' & H1 & H2 & H3 & _).
  - vm_compute. reflexivity.
  - discriminate.
  - vm_compute. reflexivity.
  - vm_compute. reflexivity.
  - left. split; vm_compute; reflexivity.
  - vm_compute. reflexivity.
  - vm_compute. reflexivity.
  - exists s', rel'. split; [exact H1|]. split; [exact H2|exact H3].
Defined.

(* ================================================================== *)
(** * Moves too small to count *)
(* ================================================================== *)

Lemma forEachFrom_idle (body : nat -> LeaderEvent.t -> Eff unit) (n i : nat) (s : Server) :
  (forall j e s', body j e s' = Normal tt s') ->
  forEachFrom n i body s = Normal tt s.
Proof.
  intros Hb. revert i. induction n as [|n IH]; intros i; simpl; [reflexivity|].
  unfold bind at 1. unfold getData at 1.
  destruct (nth_error (MarketData.leaderEvents (marketData s)) i); [|reflexivity].
  unfold bind. rewrite Hb. apply IH.
Qed.

Lemma checkFollowers_idle (coin : string) (cp : float) (ts : Z) (s : Server) :
  JS.ge (abs cp) FOLLOW_THRESHOLD = false ->
  checkFollowers coin cp ts s = Normal tt s.
Proof.
  intros Hge. unfold checkFollowers, forEachLeaderEvent, bind, getData.
  apply forEachFrom_idle. intros j e s'. rewrite checkFollower_eq, Hge.
  now rewrite !andb_false_r.
Qed.

Lemma ge_not_nan (a b : float) : JS.ge a b = true -> Prim2SF a <> S754_nan.
Proof.
  unfold JS.ge. rewrite leb_spec. intros H E. rewrite E in H.
  destruct (Prim2SF b); discriminate H.
Qed.

Lemma below_follow_threshold (x : float) :
  JS.ge x FOLLOW_THRESHOLD = false -> JS.ge x MOVE_THRESHOLD = false.
Proof.
  intros H. destruct (JS.ge x MOVE_THRESHOLD) eqn:E; [|reflexivity].
  pose proof (ge_not_nan _ _ E) as Hx.
  unfold JS.ge in *.
  rewrite leb_rank in H, E by (try exact Hx; vm_compute; discriminate).
  apply Z.leb_le in E. apply Z.leb_gt in H.
  assert (K : (rank FOLLOW_THRESHOLD <=? rank MOVE_THRESHOLD)%Z = true)
    by (vm_compute; reflexivity).
  apply Z.leb_le in K. lia.
Qed.

(** X21.  On the running server a tick of a configured coin whose move
    is below 0.005 percent, or not a number, is neither a leader move
    nor a follow nor a miss: the matrix, the leader events and the
    divergence counter are left exactly as they were. *)
Theorem small_moves_leave_matrix (start : Z) (activities : list Activity)
  (t : Ticker.t) (now : Z) (prev : PriceState.t) :
  let s := serve (initialServer start) activities in
  let changePercent := PriceState.changePercent (priceUpdate prev (Ticker.price t) now) in
  JS.getProp (MarketData.prices (marketData s)) (Ticker.product_id t) = Some prev ->
  JS.ge (abs changePercent) FOLLOW_THRESHOLD = false ->
  let s' := final (processTickerUpdate t now s) in
  MarketData.causalityMatrix (marketData s') = MarketData.causalityMatrix (marketData s)
  /\ MarketData.leaderEvents (marketData s') = MarketData.leaderEvents (marketData s)
  /\ Statistics.divergenceEvents (MarketData.statistics (marketData s'))
     = Statistics.divergenceEvents (MarketData.statistics (marketData s)).
Proof.
  cbv zeta. intros Hp Hge.
  pose proof (wellFormed_serve start activities) as Hwf.
  set (s := serve (initialServer start) activities) in *.
  destruct (in_dec string_dec (Ticker.product_id t) COINS) as [Hin|Hnin];
    [|rewrite (stray_tick_final t now s prev (proj1 Hwf) Hnin Hp); repeat split].
  destruct (tick_completes t now s Hwf Hin) as (prev' & h & s3 & Hp' & Hh & Hc & Ht).
  assert (prev' = prev) by congruence. subst prev'.
  rewrite (checkFollowers_idle _ _ _ _ Hge) in Hc. injection Hc as <-.
  rewrite Ht. cbn [final marketData].
  unfold detected. cbv zeta.
  set (cp := PriceState.changePercent (priceUpdate prev (Ticker.price t) now)) in *.
  unfold isLeaderMove. rewrite (below_follow_threshold _ Hge).
  cbn [marketData]. repeat split.
Qed.

Lemma small_moves_leave_matrix_witness :
  MarketData.leaderEvents
    (marketData
       (final (processTickerUpdate (Ticker.mk "ticker" "ETH-USD" 1000) 302500
                 (serve (initialServer 0)
                    (map (fun m => Frame (fst m) (snd m)) quietFeed)))))
  = MarketData.leaderEvents
      (marketData (serve (initialServer 0) (map (fun m => Frame (fst m) (snd m)) quietFeed))).
Proof.
  refine (proj1 (proj2 (small_moves_leave_matrix 0
                          (map (fun m => Frame (fst m) (snd m)) quietFeed)
                          (Ticker.mk "ticker" "ETH-USD" 1000) 302500
                          (PriceState.mk 1000 0 0 302000) _ _))).
  - vm_compute. reflexivity.
  - vm_compute. reflexivity.
Defined.

(* ================================================================== *)
(** * The dashboard and the server *)
(* ================================================================== *)




Section DashboardFacts.

Variables R F : Type.
Variable wire : PriceState.t -> R.
Variable priceOf : R -> F.





End DashboardFacts.



Lemma NoDup_keys_setProp {V : Type} (o : JS.obj V) (k : string) (v : V) :
  NoDup (map fst o) -> NoDup (map fst (JS.setProp o k v)).
Proof.
  induction o as [|[k' v'] o IH]; intros H.
  - simpl. constructor; [intros []|constructor].
  - inversion H as [|? ? Hk Hnd]. subst. cbn [JS.setProp].
    destruct (String.eqb k' k) eqn:E; cbn [map fst]; [exact H|].
    constructor; [|exact (IH Hnd)].
    intros Hin. apply keys_setProp_iff in Hin. destruct Hin as [Hin| ->]; [contradiction|].
    rewrite String.eqb_refl in E. discriminate E.
Qed.

Lemma pending_keys_tick (t : Ticker.t) (now : Z) :
  preserves (fun s => NoDup (map fst (pendingUpdates s))) (processTickerUpdate t now).
Proof.
  apply tick_rule; auto.
  intros s p H. cbn [pendingUpdates]. now apply NoDup_keys_setProp.
Qed.

Lemma broadcasts_keys (activities : list Activity) (s : Server) :
  NoDup (map fst (pendingUpdates s)) ->
  Forall (fun b => NoDup (map fst (bu_updates b))) (broadcasts s activities).
Proof.
  revert s. induction activities as [|a l IH]; intros s H; [constructor|].
  destruct a as [data now|now]; cbn [broadcasts].
  - apply IH. unfold step. cbn [fst snd]. rewrite final_onMessage.
    destruct data as [|t]; [exact H|].
    destruct (String.eqb (Ticker.type t) "ticker"); [|exact H].
    now apply pending_keys_tick.
  - unfold broadcastPending. destruct (0 <? List.length (pendingUpdates s)).
    + constructor; [exact H|]. apply IH. constructor.
    + now apply IH.
Qed.

Section DashboardHistory.

Variables R F : Type.
Variable wire : PriceState.t -> R.
Variable priceOf : R -> F.

Lemma kept_is_slice (h : list F) (x : F) :
  List.length h <= 1000 ->
  (if 1000 <? List.length (JS.push h x) then JS.shift (JS.push h x) else JS.push h x)
  = JS.slice_last 1000 (h ++ [x]).
Proof.
  intros Hle. unfold JS.push.
  destruct (1000 <? List.length (h ++ [x])) eqn:E.
  - apply Nat.ltb_lt in E. rewrite length_app in E. simpl in E.
    rewrite shift_is_slice. unfold JS.slice_last. f_equal.
    rewrite length_app. simpl. lia.
  - apply Nat.ltb_ge in E. now rewrite slice_last_all.
Qed.

Lemma seen_push (pushed : list F) (x : F) :
  Some
    (let history := match seen pushed with Some h => h | None => [] end in
     if 1000 <? List.length (JS.push history x) then JS.shift (JS.push history x)
     else JS.push history x)
  = seen (pushed ++ [x]).
Proof.
  cbv zeta. unfold seen. destruct pushed as [|y l].
  - reflexivity.
  - cbn [app]. rewrite kept_is_slice by (rewrite slice_last_length; lia).
    change (y :: l ++ [x]) with ((y :: l) ++ [x]). now rewrite slice_last_app.
Qed.

Lemma batch_history (updates : JS.obj R) (ks : list string) (c : Client.t R F)
  (coin : string) (pushed : list F) :
  NoDup ks ->
  JS.getProp (Client.priceHistory c) coin = seen pushed ->
  JS.getProp
    (Client.priceHistory
       (fold_left
          (fun c k =>
             match JS.getProp updates k with
             | Some data => handleBackendUpdate R F priceOf k data c
             | None => c
             end) ks c)) coin
  = seen (pushed
          ++ if in_dec string_dec coin ks
             then match JS.getProp updates coin with
                  | Some d => [priceOf d]
                  | None => []
                  end
             else []).
Proof.
  intros Hnd. revert c pushed. induction Hnd as [|k ks Hk Hnd IH]; intros c pushed Hc.
  - cbn [fold_left]. now rewrite app_nil_r.
  - cbn [fold_left].
    destruct (string_dec k coin) as [->|Hne].
    + destruct (in_dec string_dec coin (coin :: ks)) as [_|Hn]; [|exfalso; apply Hn; now left].
      destruct (JS.getProp updates coin) as [d|] eqn:Ed.
      * rewrite (IH _ (pushed ++ [priceOf d])).
        -- destruct (in_dec string_dec coin ks); [contradiction|]. now rewrite app_nil_r.
        -- unfold handleBackendUpdate. cbv zeta. cbn [Client.priceHistory].
           rewrite getProp_setProp_same, Hc. apply seen_push.
      * rewrite (IH _ pushed Hc).
        destruct (in_dec string_dec coin ks); [contradiction|reflexivity].
    + assert (E : JS.getProp
                    (Client.priceHistory
                       match JS.getProp updates k with
                       | Some data => handleBackendUpdate R F priceOf k data c
                       | None => c
                       end) coin = seen pushed).
      { destruct (JS.getProp updates k); [|exact Hc].
        unfold handleBackendUpdate. cbv zeta. cbn [Client.priceHistory].
        now rewrite getProp_setProp_other. }
      rewrite (IH _ pushed E).
      destruct (in_dec string_dec coin ks) as [Hin|Hn];
        destruct (in_dec string_dec coin (k :: ks)) as [Hin'|Hn']; try reflexivity.
      * exfalso. apply Hn'. now right.
      * destruct Hin' as [->|Hin']; [contradiction|contradiction].
Qed.

Lemma pushes_history (batches : list BatchUpdate) (c : Client.t R F) (coin : string)
  (pushed : list F) :
  Forall (fun b => NoDup (map fst (bu_updates b))) batches ->
  JS.getProp (Client.priceHistory c) coin = seen pushed ->
  JS.getProp
    (Client.priceHistory (fold_left (onPush R F wire priceOf) (map Batch batches) c)) coin
  = seen (pushed ++ batchRecords (fun p => priceOf (wire p)) coin batches).
Proof.
  intros Hb. revert c pushed. induction Hb as [|b l Hnd Hb IH]; intros c pushed Hc.
  - cbn [map fold_left batchRecords flat_map]. now rewrite app_nil_r.
  - cbn [map fold_left]. unfold batchRecords. cbn [flat_map].
    fold (batchRecords (fun p => priceOf (wire p)) coin l).
    rewrite app_assoc. apply IH.
    cbn [onPush]. cbv zeta.
    rewrite (batch_history _ _ c coin pushed); [|unfold received; rewrite map_map; exact Hnd
                                                |exact Hc].
    f_equal. f_equal. unfold received. rewrite getProp_map_values, map_map. cbn [fst].
    destruct (in_dec string_dec coin (map fst (bu_updates b))) as [Hin|Hn].
    + destruct (JS.getProp (bu_updates b) coin); reflexivity.
    + rewrite (getProp_none _ _ Hn). reflexivity.
Qed.

End DashboardHistory.

(** X23.  The history the dashboard keeps of a coin gets one entry per
    broadcast batch that holds an update of the coin, whatever the
    number of ticks since the batch before: it is the last thousand of
    the prices of those updates, and there is none before the first. *)
Theorem dashboard_history_is_per_batch (R F : Type) (wire : PriceState.t -> R)
  (priceOf : R -> F) (start : Z) (before after : list Activity) (coin : string) :
  let s := serve (initialServer start) before in
  let c := dashboardAfter R F wire priceOf s after in
  JS.getProp (Client.priceHistory c) coin
  = match batchRecords (fun p => priceOf (wire p)) coin (broadcasts s after) with
    | [] => None
    | pushed => Some (JS.slice_last 1000 pushed)
    end.
Proof.
  cbv zeta. unfold dashboardAfter, onConnection, bind, getData, ret.
  cbn [fold_left onPush].
  rewrite (pushes_history R F wire priceOf _ _ coin []).
  - cbn [app]. unfold seen.
    destruct (batchRecords _ coin _); reflexivity.
  - apply broadcasts_keys.
    apply (serve_keeps (fun s => NoDup (map fst (pendingUpdates s)))).
    + intros t now. apply pending_keys_tick.
    + intros s _. constructor.
    + constructor.
  - reflexivity.
Qed.
